(** * timelinedb: buffers, sample-rate conversion and min/max aggregation

    A shallow embedding of [timelinedb.c] and [timelinedb_simd.c]
    (with the declarations of [timelinedb.h] and [timelinedb_simd.h]).

    Conventions of the embedding.
    - C integers are [Z] with the wrap-around of their width written out
      ([u8], [u16], [u32], [s8], [s16]).
    - [double] is IEEE-754 binary64 and [float] is binary32, both taken from
      the Standard Library's executable specification [SpecFloat]; every
      operation rounds to nearest-even, no contraction or re-association.
    - A buffer's storage is the list of its bytes; 16-bit samples are read
      and written little-endian, as on the targets of the Makefile.
    - A call either completes ([Done]), ends the process ([Exit], from
      [exit(1)]) or has no defined behaviour ([Undefined]: an access outside
      the storage, a null dereference, a floating-to-integer conversion whose
      value does not fit the target type).
    - The C library's allocator is a parameter ([Libc]). *)

From Stdlib Require Import ZArith List Bool Lia String SpecFloat.
From stdpp Require Import base option list.
Import ListNotations.
Open Scope Z_scope.

(* ===================================================================== *)
(** ** Machine integers *)

Module Int.

Definition u8 (x : Z) : Z := x mod 2 ^ 8.
Definition u16 (x : Z) : Z := x mod 2 ^ 16.
Definition u32 (x : Z) : Z := x mod 2 ^ 32.
Definition u64 (x : Z) : Z := x mod 2 ^ 64.

(** Two's complement reading of the low [w] bits. *)
Definition signed (w : Z) (x : Z) : Z :=
  (x + 2 ^ (w - 1)) mod 2 ^ w - 2 ^ (w - 1).
Definition s8 (x : Z) : Z := signed 8 x.
Definition s16 (x : Z) : Z := signed 16 x.

Definition INT8_MAX : Z := 127.
Definition INT8_MIN : Z := -128.
Definition INT16_MAX : Z := 32767.
Definition INT16_MIN : Z := -32768.
Definition UINT32_MAX : Z := 4294967295.

End Int.
Import Int.

(* ===================================================================== *)
(** ** Outcomes of a call *)

Inductive outcome (A : Type) : Type :=
  | Done (a : A)
  | Exit (code : Z)
  | Undefined.
Arguments Done {A} a.
Arguments Exit {A} code.
Arguments Undefined {A}.

Definition outcome_bind {A B} (f : A -> outcome B) (m : outcome A) : outcome B :=
  match m with
  | Done a => f a
  | Exit c => Exit c
  | Undefined => Undefined
  end.

#[global] Instance outcome_mret : MRet outcome := fun _ a => Done a.
#[global] Instance outcome_mbind : MBind outcome := fun _ _ f m => outcome_bind f m.

(** A memory access that must succeed: [None] is an access outside the
    object. *)
Definition access {A} (o : option A) : outcome A :=
  match o with Some a => Done a | None => Undefined end.

(** [for (i = lo; i < lo + n; ++i) body], where the body either goes on with
    a new state ([inl]) or leaves the function with a value ([inr]). *)
Fixpoint for_loop {S R} (n : nat) (i : Z) (body : Z -> S -> outcome (S + R)) (s : S)
  : outcome (S + R) :=
  match n with
  | O => Done (inl s)
  | Datatypes.S k =>
      r ← body i s;
      match r with
      | inl s' => for_loop k (i + 1) body s'
      | inr v => Done (inr v)
      end
  end.

(** Trip count of [for (i = lo; i < hi; ++i)]. *)
Definition trips (lo hi : Z) : nat := Z.to_nat (hi - lo).

(* ===================================================================== *)
(** ** Floating point *)

(** Operations shared by the two formats: [prec] bits of mantissa, [emax]
    the exponent of the infinities. *)
Section IEEE.
Variables prec emax : Z.

Definition fl_of_Z (z : Z) : spec_float := binary_normalize prec emax z 0 false.

(** The integer nearest to [m * 2^e] in the direction of zero. *)
Definition trunc_mag (m : positive) (e : Z) : Z :=
  if 0 <=? e then Z.shiftl (Z.pos m) e else Z.shiftr (Z.pos m) (- e).

(** The value as an integer after discarding the fraction; nothing for
    NaN and the infinities. *)
Definition fl_trunc (x : spec_float) : option Z :=
  match x with
  | S754_zero _ => Some 0
  | S754_finite s m e => Some (if s then - trunc_mag m e else trunc_mag m e)
  | _ => None
  end.

(** Conversion to an unsigned integer type of [w] bits: defined when the
    truncated value fits. *)
Definition fl_to_unsigned (w : Z) (x : spec_float) : outcome Z :=
  match fl_trunc x with
  | Some z => if (0 <=? z) && (z <? 2 ^ w) then Done z else Undefined
  | None => Undefined
  end.

(** Conversion to a signed integer type of [w] bits. *)
Definition fl_to_signed (w : Z) (x : spec_float) : outcome Z :=
  match fl_trunc x with
  | Some z => if (- 2 ^ (w - 1) <=? z) && (z <? 2 ^ (w - 1)) then Done z else Undefined
  | None => Undefined
  end.

(** [floor]: the largest integral value not above [x]. *)
Definition fl_floor (x : spec_float) : spec_float :=
  match x with
  | S754_finite s m e =>
      if 0 <=? e then x
      else
        let q := Z.shiftr (Z.pos m) (- e) in
        let exact := Z.shiftl q (- e) =? Z.pos m in
        if s then binary_normalize prec emax (- (if exact then q else q + 1)) 0 true
        else binary_normalize prec emax q 0 false
  | _ => x
  end.

(** [round]: the nearest integral value, halves away from zero. *)
Definition fl_round (x : spec_float) : spec_float :=
  match x with
  | S754_finite s m e =>
      if 0 <=? e then x
      else
        let q := Z.shiftr (Z.pos m + Z.shiftl 1 (- e - 1)) (- e) in
        binary_normalize prec emax (if s then - q else q) 0 s
  | _ => x
  end.

End IEEE.

(** [double]. *)
Module D.
Definition prec : Z := 53.
Definition emax : Z := 1024.
Definition of_Z : Z -> spec_float := fl_of_Z prec emax.
Definition add : spec_float -> spec_float -> spec_float := SFadd prec emax.
Definition sub : spec_float -> spec_float -> spec_float := SFsub prec emax.
Definition mul : spec_float -> spec_float -> spec_float := SFmul prec emax.
Definition div : spec_float -> spec_float -> spec_float := SFdiv prec emax.
(** C's [a >= b], [a <= b] and [a < b]. *)
Definition geb (a b : spec_float) : bool := SFleb b a.
Definition leb (a b : spec_float) : bool := SFleb a b.
Definition ltb (a b : spec_float) : bool := SFltb a b.
Definition floor : spec_float -> spec_float := fl_floor prec emax.
Definition round : spec_float -> spec_float := fl_round prec emax.
Definition to_u32 : spec_float -> outcome Z := fl_to_unsigned 32.
Definition to_u16 : spec_float -> outcome Z := fl_to_unsigned 16.
Definition to_s16 : spec_float -> outcome Z := fl_to_signed 16.
Definition to_s8 : spec_float -> outcome Z := fl_to_signed 8.
End D.

(** [float]. *)
Module F.
Definition prec : Z := 24.
Definition emax : Z := 128.
Definition of_Z : Z -> spec_float := fl_of_Z prec emax.
Definition mul : spec_float -> spec_float -> spec_float := SFmul prec emax.
Definition div : spec_float -> spec_float -> spec_float := SFdiv prec emax.
Definition floorf : spec_float -> spec_float := fl_floor prec emax.
Definition to_u32 : spec_float -> outcome Z := fl_to_unsigned 32.
End F.

(** [pow(10.0, e)] for an integer [e], taken to be correctly rounded: the
    double nearest to [10^e]. *)
Definition pow10 (e : Z) : spec_float :=
  match e with
  | Z0 => D.of_Z 1
  | Zpos _ => D.of_Z (10 ^ e)
  | Zneg p =>
      let '(m, ez, l) := SFdiv_core_binary D.prec D.emax 1 0 (10 ^ Z.pos p) 0 in
      binary_round_aux D.prec D.emax false m ez l
  end.

(** The double constants of the sources. *)
Definition d_0_5 : spec_float := D.div (D.of_Z 1) (D.of_Z 2).
Definition d_1 : spec_float := D.of_Z 1.
Definition d_1000 : spec_float := D.of_Z 1000.
Definition d_65536 : spec_float := D.of_Z 65536.

(* ===================================================================== *)
(** ** Data model ([timelinedb.h]) *)

Inductive RawTimelineValueEnum : Type :=
  | TR_undefined
  | TR_digital1
  | TR_digital4
  | TR_digital8
  | TR_analog_sint8
  | TR_analog_float32
  | TR_analog_float64
  | TR_SIMD_sint16x8
  | TR_SIMD_sint24x8.

#[global] Instance RawTimelineValueEnum_eq_dec : EqDecision RawTimelineValueEnum.
Proof. solve_decision. Defined.

Record SampleInterpInfo : Type := {
  idx0 : Z;       (* uint32_t *)
  idx1 : Z;       (* uint32_t *)
  frac : Z;       (* uint16_t *)
  inv_frac : Z    (* uint16_t *)
}.

Record SampleRateInfo : Type := {
  rate_ratio : spec_float
}.

(** Owned pointers are [option]s: [None] is [NULL], [Some] holds the object
    pointed to. [valueBuffer] is the block of bytes, each in [0, 256). *)
Record RawTimelineValuesBuf : Type := {
  buffer_size : Z;            (* uint32_t *)
  nr_of_samples : Z;          (* uint32_t *)
  time_step : Z;              (* uint32_t *)
  total_time_sec : spec_float;
  time_exponent : Z;          (* int8_t *)
  nr_of_channels : Z;         (* uint8_t *)
  bitwidth : Z;               (* uint8_t *)
  bytes_per_sample : Z;       (* uint8_t *)
  value_type : RawTimelineValueEnum;
  valueBuffer : option (list Z);
  sample_rate_info : option SampleRateInfo;
  prepared_data_src : option (list SampleInterpInfo)
}.

Definition set_valueBuffer (v : option (list Z)) (b : RawTimelineValuesBuf) :=
  {| buffer_size := buffer_size b; nr_of_samples := nr_of_samples b;
     time_step := time_step b; total_time_sec := total_time_sec b;
     time_exponent := time_exponent b; nr_of_channels := nr_of_channels b;
     bitwidth := bitwidth b; bytes_per_sample := bytes_per_sample b;
     value_type := value_type b; valueBuffer := v;
     sample_rate_info := sample_rate_info b;
     prepared_data_src := prepared_data_src b |}.

Definition set_sample_rate_info (v : option SampleRateInfo) (b : RawTimelineValuesBuf) :=
  {| buffer_size := buffer_size b; nr_of_samples := nr_of_samples b;
     time_step := time_step b; total_time_sec := total_time_sec b;
     time_exponent := time_exponent b; nr_of_channels := nr_of_channels b;
     bitwidth := bitwidth b; bytes_per_sample := bytes_per_sample b;
     value_type := value_type b; valueBuffer := valueBuffer b;
     sample_rate_info := v;
     prepared_data_src := prepared_data_src b |}.

Definition set_prepared_data_src (v : option (list SampleInterpInfo)) (b : RawTimelineValuesBuf) :=
  {| buffer_size := buffer_size b; nr_of_samples := nr_of_samples b;
     time_step := time_step b; total_time_sec := total_time_sec b;
     time_exponent := time_exponent b; nr_of_channels := nr_of_channels b;
     bitwidth := bitwidth b; bytes_per_sample := bytes_per_sample b;
     value_type := value_type b; valueBuffer := valueBuffer b;
     sample_rate_info := sample_rate_info b;
     prepared_data_src := v |}.

Definition set_nr_of_samples (v : Z) (b : RawTimelineValuesBuf) :=
  {| buffer_size := buffer_size b; nr_of_samples := v;
     time_step := time_step b; total_time_sec := total_time_sec b;
     time_exponent := time_exponent b; nr_of_channels := nr_of_channels b;
     bitwidth := bitwidth b; bytes_per_sample := bytes_per_sample b;
     value_type := value_type b; valueBuffer := valueBuffer b;
     sample_rate_info := sample_rate_info b;
     prepared_data_src := prepared_data_src b |}.

Definition set_time_base (exp step : Z) (b : RawTimelineValuesBuf) :=
  {| buffer_size := buffer_size b; nr_of_samples := nr_of_samples b;
     time_step := step; total_time_sec := total_time_sec b;
     time_exponent := exp; nr_of_channels := nr_of_channels b;
     bitwidth := bitwidth b; bytes_per_sample := bytes_per_sample b;
     value_type := value_type b; valueBuffer := valueBuffer b;
     sample_rate_info := sample_rate_info b;
     prepared_data_src := prepared_data_src b |}.

(** *** Storage *)

Module Mem.

(** The byte at offset [off], or nothing outside the block. *)
Definition load_u8 (m : list Z) (off : Z) : option Z :=
  if off <? 0 then None else u8 <$> m !! Z.to_nat off.

(** The [int8_t] stored at byte offset [off]. *)
Definition load_s8 (m : list Z) (off : Z) : option Z :=
  s8 <$> load_u8 m off.

(** The [int16_t] stored at byte offset [off], low byte first. *)
Definition load_s16 (m : list Z) (off : Z) : option Z :=
  b0 ← load_u8 m off;
  b1 ← load_u8 m (off + 1);
  Some (s16 (b0 + 256 * b1)).

Definition store_8 (m : list Z) (off : Z) (v : Z) : option (list Z) :=
  _ ← load_u8 m off;
  Some (<[Z.to_nat off := u8 v]> m).

Definition store_16 (m : list Z) (off : Z) (v : Z) : option (list Z) :=
  m' ← store_8 m off v;
  store_8 m' (off + 1) (u16 v / 256).

(** Element [k] of the storage seen as an array of [int8_t] or of
    [int16_t], read and written through a pointer that may be null. *)
Definition get_s8 (p : option (list Z)) (k : Z) : outcome Z :=
  m ← access p; access (load_s8 m k).
Definition get_s16 (p : option (list Z)) (k : Z) : outcome Z :=
  m ← access p; access (load_s16 m (2 * k)).
Definition put_s8 (p : option (list Z)) (k : Z) (v : Z) : outcome (option (list Z)) :=
  m ← access p; m' ← access (store_8 m k v); mret (Some m').
Definition put_s16 (p : option (list Z)) (k : Z) (v : Z) : outcome (option (list Z)) :=
  m ← access p; m' ← access (store_16 m (2 * k) v); mret (Some m').

End Mem.

(** *** The allocator of the C library

    [malloc size] and [aligned_alloc alignment size] give either [NULL] or a
    fresh block, whose initial bytes the library chooses. *)
Record Libc : Type := {
  malloc : Z -> option (list Z);
  aligned_alloc : Z -> Z -> option (list Z)
}.

(** A library that always succeeds and hands out zeroed blocks. *)
Definition zero_libc : Libc :=
  {| malloc := fun size => Some (replicate (Z.to_nat size) 0);
     aligned_alloc := fun _ size => Some (replicate (Z.to_nat size) 0) |}.

(** A library that has run out of memory. *)
Definition null_libc : Libc :=
  {| malloc := fun _ => None; aligned_alloc := fun _ _ => None |}.

(** [for] loops whose body never leaves the function. *)
Fixpoint for_each {S} (n : nat) (i : Z) (body : Z -> S -> outcome S) (s : S) : outcome S :=
  match n with
  | O => Done s
  | Datatypes.S k => s' ← body i s; for_each k (i + 1) body s'
  end.

(* ===================================================================== *)
(** ** Sample accessors ([timelinedb.c]) *)

(** The sources pass buffers by pointer. A parameter of type
    [option RawTimelineValuesBuf] is a pointer that the function tests
    against [NULL]; one of type [RawTimelineValuesBuf] is dereferenced
    without a test. A function that writes through a pointer returns the
    new contents. *)

(** [None] is the status [-1]; [Some off] is status [0] with [*offset = off]. *)
Definition getSampleByteOffset (buf : RawTimelineValuesBuf) (sample_index channel : Z)
  : option Z :=
  if (nr_of_samples buf <=? sample_index) || (nr_of_channels buf <=? channel) then None
  else Some (u32 (u32 (sample_index * bytes_per_sample buf) + channel * bitwidth buf / 8)).

(** [Done None] is the status [-1]; [Done (Some v)] is status [0] with
    [*value = v]. *)
Definition getSampleValue_int8 (buf : RawTimelineValuesBuf) (sample_index channel : Z)
  : outcome (option Z) :=
  if (nr_of_samples buf <=? sample_index) || (nr_of_channels buf <=? channel)
     || negb (bitwidth buf =? 8)
  then Done None
  else
    match getSampleByteOffset buf sample_index channel with
    | None => Done None
    | Some offset =>
        m ← access (valueBuffer buf);
        v ← access (Mem.load_s8 m offset);
        mret (Some v)
    end.

Definition getSampleValue_SIMD_sint16x8 (buf : RawTimelineValuesBuf) (sample_index channel : Z)
  : outcome (option Z) :=
  if (nr_of_samples buf <=? sample_index) || (nr_of_channels buf <=? channel)
     || negb (bitwidth buf =? 16)
  then Done None
  else
    match getSampleByteOffset buf sample_index channel with
    | None => Done None
    | Some offset =>
        m ← access (valueBuffer buf);
        v ← access (Mem.load_s16 m offset);
        mret (Some v)
    end.

(* ===================================================================== *)
(** ** Kernels ([timelinedb_simd.c]) *)

Definition fn_convert : Type :=
  RawTimelineValuesBuf -> RawTimelineValuesBuf -> outcome (Z * RawTimelineValuesBuf).

(** The three buffers, then [i], [start] and [end]; the result is the status
    with the new [outMin] and [outMax]. *)
Definition fn_aggregate_minmax : Type :=
  RawTimelineValuesBuf -> RawTimelineValuesBuf -> RawTimelineValuesBuf ->
  Z -> Z -> Z -> outcome (Z * RawTimelineValuesBuf * RawTimelineValuesBuf).

Record TimelineBackendFunctions : Type := {
  name : string;
  convert_sample_rate_s16x8 : fn_convert;
  aggregate_minmax_s8 : fn_aggregate_minmax;
  aggregate_minmax_s16x8 : fn_aggregate_minmax
}.

(** [(1.0 - frac) * v0 + frac * v1], rounded and converted to [int16_t]. *)
Definition interp_s16 (frac : spec_float) (v0 v1 : Z) : outcome Z :=
  let interp := D.add (D.mul (D.sub d_1 frac) (D.of_Z v0)) (D.mul frac (D.of_Z v1)) in
  D.to_s16 (D.round interp).

(** Linear interpolation with one division per output sample. *)
Definition convert_sample_rate_SIMD_s16x8_c : fn_convert := fun input output =>
  let src := valueBuffer input in
  let ch := nr_of_channels input in
  if negb (ch =? 8) then Done (-1, output)
  else
    let new_nr_samples := nr_of_samples output in
    info ← access (sample_rate_info output);
    let rate_ratio := rate_ratio info in
    dst ← for_each (trips 0 new_nr_samples) 0 (fun i dst =>
      let original_index := D.div (D.of_Z i) rate_ratio in
      idx0 ← D.to_u32 original_index;
      let idx0 :=
        if u32 (nr_of_samples input - 1) <=? idx0 then u32 (nr_of_samples input - 2)
        else idx0 in
      let idx1 := if u32 (idx0 + 1) <? nr_of_samples input then u32 (idx0 + 1) else idx0 in
      let frac := D.sub original_index (D.of_Z idx0) in
      for_each (trips 0 ch) 0 (fun j dst =>
        v0 ← Mem.get_s16 src (u32 (u32 (idx0 * ch) + j));
        v1 ← Mem.get_s16 src (u32 (u32 (idx1 * ch) + j));
        v ← interp_s16 frac v0 v1;
        Mem.put_s16 dst (u32 (u32 (i * ch) + j)) v) dst)
      (valueBuffer output);
    mret (0, set_valueBuffer dst output).

(** Entry [i] of the interpolation plan. *)
Definition interp_entry (in_samples new_nr_samples i : Z) : outcome SampleInterpInfo :=
  let original_index :=
    D.div (D.of_Z i) (D.div (D.of_Z new_nr_samples) (D.of_Z in_samples)) in
  idx0 ← D.to_u32 original_index;
  let idx0 := if u32 (in_samples - 1) <=? idx0 then u32 (in_samples - 2) else idx0 in
  let idx1 := if u32 (idx0 + 1) <? in_samples then u32 (idx0 + 1) else idx0 in
  let frac := D.sub original_index (D.of_Z idx0) in
  frac_fixed ← D.to_u16 (D.mul frac d_65536);
  let inv_frac_fixed := u16 (65536 - frac_fixed) in
  mret {| idx0 := idx0; idx1 := idx1; frac := frac_fixed; inv_frac := inv_frac_fixed |}.


(** The plan is a fresh array of [new_nr_samples] entries of 12 bytes, which
    the loop fills from index 0 upwards; an entry not yet written is shown
    as [indeterminate]. *)
Definition indeterminate : SampleInterpInfo :=
  {| idx0 := 0; idx1 := 0; frac := 0; inv_frac := 0 |}.

Definition init_InterpInfo (libc : Libc) (input output : RawTimelineValuesBuf)
  : outcome (Z * RawTimelineValuesBuf) :=
  let ch := nr_of_channels input in
  if negb (ch =? 8) then Done (-1, output)
  else
    let new_nr_samples := nr_of_samples output in
    let interp_array :=
      (fun _ => replicate (Z.to_nat new_nr_samples) indeterminate)
        <$> malloc libc (new_nr_samples * 12) in
    arr ← for_each (trips 0 new_nr_samples) 0 (fun i arr =>
      a ← access arr;
      e ← interp_entry (nr_of_samples input) new_nr_samples i;
      mret (Some (<[Z.to_nat i := e]> a))) interp_array;
    mret (0, set_prepared_data_src arr output).

Definition free_InterpInfo (output : RawTimelineValuesBuf) : RawTimelineValuesBuf :=
  match prepared_data_src output with
  | Some _ => set_prepared_data_src None output
  | None => output
  end.

(** Per-channel minimum and maximum of the samples [start, end), written to
    element [i] of [outMin] and [outMax]. A sample that cannot be read is
    skipped. *)
Definition aggregate_minmax_SIMD_s16x8_c : fn_aggregate_minmax :=
  fun input outMin outMax i start end_ =>
  let nch := nr_of_channels input in
  '(mn, mx) ← for_each (trips 0 nch) 0 (fun ch '(mn, mx) =>
    '(min_val, max_val) ← for_each (trips start end_) start (fun j '(min_val, max_val) =>
      r ← getSampleValue_SIMD_sint16x8 input j ch;
      match r with
      | Some value =>
          let min_val := if value <? min_val then value else min_val in
          let max_val := if max_val <? value then value else max_val in
          mret (min_val, max_val)
      | None => mret (min_val, max_val)
      end) (INT16_MAX, INT16_MIN);
    mn' ← Mem.put_s16 mn (u32 (u32 (i * nch) + ch)) min_val;
    mx' ← Mem.put_s16 mx (u32 (u32 (i * nch) + ch)) max_val;
    mret (mn', mx')) (valueBuffer outMin, valueBuffer outMax);
  mret (0, set_valueBuffer mn outMin, set_valueBuffer mx outMax).

(** The same for [int8_t] samples, except that a sample that cannot be read
    ends the call with status [-1] ([inr] in the loops). *)
Definition aggregate_minmax_s8_c : fn_aggregate_minmax :=
  fun input outMin outMax i start end_ =>
  let nch := nr_of_channels input in
  r ← for_loop (trips 0 nch) 0 (fun ch '(mn, mx) =>
    r ← for_loop (trips start end_) start (fun j '(min_val, max_val) =>
      r ← getSampleValue_int8 input j ch;
      match r with
      | Some value =>
          let min_val := if value <? min_val then value else min_val in
          let max_val := if max_val <? value then value else max_val in
          mret (inl (min_val, max_val))
      | None => mret (inr tt)
      end) (INT8_MAX, INT8_MIN);
    match r with
    | inl (min_val, max_val) =>
        mn' ← Mem.put_s8 mn (u32 (u32 (i * nch) + ch)) min_val;
        mx' ← Mem.put_s8 mx (u32 (u32 (i * nch) + ch)) max_val;
        mret (inl (mn', mx'))
    | inr _ => mret (inr (mn, mx))
    end) (valueBuffer outMin, valueBuffer outMax);
  match r with
  | inl (mn, mx) => mret (0, set_valueBuffer mn outMin, set_valueBuffer mx outMax)
  | inr (mn, mx) => mret (-1, set_valueBuffer mn outMin, set_valueBuffer mx outMax)
  end.

(** The Bresenham kernel: the position in the input is the pair of [idx0]
    and the accumulator [accum], in units of [1 / scale]. *)
Definition bresenham_advance (in_samples step scale : Z) (idx0 accum : Z) : Z * Z :=
  let accum := u32 (accum + step) in
  let '(idx0, accum) :=
    if scale <=? accum then (u32 (idx0 + 1), u32 (accum - scale)) else (idx0, accum) in
  if u32 (in_samples - 1) <=? idx0 then (u32 (in_samples - 2), 0) else (idx0, accum).

Definition convert_sample_rate_SIMD_s16x8_bresenham : fn_convert := fun input output =>
  let src := valueBuffer input in
  let ch := nr_of_channels input in
  if negb (ch =? 8) then Done (-1, output)
  else
    let in_samples := nr_of_samples input in
    let out_samples := nr_of_samples output in
    let step := in_samples in
    let scale := out_samples in
    '(_, _, dst) ← for_each (trips 0 out_samples) 0 (fun i '(idx0, accum, dst) =>
      let idx1 := if u32 (idx0 + 1) <? in_samples then u32 (idx0 + 1) else idx0 in
      let frac := D.div (D.of_Z accum) (D.of_Z scale) in
      dst ← for_each (trips 0 ch) 0 (fun j dst =>
        v0 ← Mem.get_s16 src (u32 (u32 (idx0 * ch) + j));
        v1 ← Mem.get_s16 src (u32 (u32 (idx1 * ch) + j));
        v ← interp_s16 frac v0 v1;
        Mem.put_s16 dst (u32 (u32 (i * ch) + j)) v) dst;
      let '(idx0, accum) := bresenham_advance in_samples step scale idx0 accum in
      mret (idx0, accum, dst)) (0, 0, valueBuffer output);
    mret (0, set_valueBuffer dst output).

(** The function tables. The body of the SIMD table is chosen by the
    preprocessor, and this is its last branch, for a target without NEON or
    AVX. The NEON branch installs kernels written with intrinsics, which are
    not embedded here, and [init_InterpInfo] is compiled under the NEON
    condition only. What is proved of [ptr_SIMD] is therefore proved of this
    branch; the C table is the same in every build. *)
Definition gTimelineBackendFunctionsSIMD : TimelineBackendFunctions :=
  {| name := "Fallback C Backend";
     convert_sample_rate_s16x8 := convert_sample_rate_SIMD_s16x8_bresenham;
     aggregate_minmax_s8 := aggregate_minmax_s8_c;
     aggregate_minmax_s16x8 := aggregate_minmax_SIMD_s16x8_c |}.

Definition gTimelineBackendFunctionsC : TimelineBackendFunctions :=
  {| name := "C Backend";
     convert_sample_rate_s16x8 := convert_sample_rate_SIMD_s16x8_bresenham;
     aggregate_minmax_s8 := aggregate_minmax_s8_c;
     aggregate_minmax_s16x8 := aggregate_minmax_SIMD_s16x8_c |}.

(* ===================================================================== *)
(** ** Buffers and the backend registry ([timelinedb.c]) *)

(** [g_TimelineBackendFunctions] points to one of the two tables. *)
Inductive backend_ptr : Type :=
  | ptr_C       (* &gTimelineBackendFunctionsC *)
  | ptr_SIMD.   (* &gTimelineBackendFunctionsSIMD *)

Definition deref (p : backend_ptr) : TimelineBackendFunctions :=
  match p with
  | ptr_C => gTimelineBackendFunctionsC
  | ptr_SIMD => gTimelineBackendFunctionsSIMD
  end.

(** The initial value of [g_TimelineBackendFunctions]. *)
Definition g_TimelineBackendFunctions_init : backend_ptr := ptr_C.

Definition alloc_raw_aligned (libc : Libc) (size alignment : Z) : option (list Z) :=
  if alignment <=? 1 then malloc libc size
  else
    let aligned_size := u64 (Z.land (u64 (size + alignment - 1)) (Z.lnot (alignment - 1))) in
    aligned_alloc libc alignment aligned_size.

Definition init_RawTimelineValuesBuf (buf : option RawTimelineValuesBuf)
  : option RawTimelineValuesBuf :=
  match buf with
  | Some b =>
      Some {| buffer_size := 0; nr_of_samples := 0; time_step := 0;
              total_time_sec := total_time_sec b;
              time_exponent := 0; nr_of_channels := 0; bitwidth := 0;
              bytes_per_sample := 0; value_type := TR_undefined;
              valueBuffer := None; sample_rate_info := None;
              prepared_data_src := None |}
  | None => None
  end.

(** The number of blocks that [free] was called on: 1 for a pointer that is
    not null. *)
Definition freed {A} (p : option A) : nat :=
  match p with Some _ => 1%nat | None => 0%nat end.

(** The buffer afterwards, and how many blocks were handed to [free]. *)
Definition free_RawTimelineValuesBuf (buf : option RawTimelineValuesBuf)
  : option RawTimelineValuesBuf * nat :=
  match buf with
  | None => (None, 0%nat)
  | Some b =>
      let n1 := freed (valueBuffer b) in
      let b := set_valueBuffer None b in
      let n2 := freed (prepared_data_src b) in
      let b := set_prepared_data_src None b in
      let n3 := freed (sample_rate_info b) in
      let b := set_sample_rate_info None b in
      (Some (set_nr_of_samples 0 b), (n1 + n2 + n3)%nat)
  end.

Definition getBackendsCount : Z := 2.

(** [None] is the status [-1]; [Some s] is status [0] with [*name = s].
    [name_out] says whether the pointer [name] is not null. *)
Definition getBackendName (g : backend_ptr) (index : Z) (name_out : bool) : option string :=
  if negb name_out then None
  else
    Some (match index with
          | 0 => "C Backend"%string
          | 1 => "SIMD Backend"%string
          | _ => name (deref g)
          end).

(** The status and the new value of [g_TimelineBackendFunctions]. *)
Definition setBackend (index : Z) (g : backend_ptr) : Z * backend_ptr :=
  if 1 <? index then (-1, g)
  else
    match index with
    | 0 => (0, ptr_C)
    | 1 => (0, ptr_SIMD)
    | _ => (-1, g)
    end.

Definition alloc_RawTimelineValuesBuf (libc : Libc) (buf : option RawTimelineValuesBuf)
    (nr_of_samples' nr_of_channels' bitwidth' bytealignment : Z)
    (value_type' : RawTimelineValueEnum) : outcome (option RawTimelineValuesBuf) :=
  match buf with
  | None => Done None
  | Some b =>
      let bytes_per_sample' := u8 ((nr_of_channels' * bitwidth' + 7) / 8) in
      let buffer_size' := u32 (u32 (nr_of_samples' * nr_of_channels') * bytes_per_sample') in
      match alloc_raw_aligned libc buffer_size' bytealignment with
      | Some block =>
          Done (Some {| buffer_size := buffer_size';
                        nr_of_samples := nr_of_samples';
                        time_step := time_step b;
                        total_time_sec := total_time_sec b;
                        time_exponent := time_exponent b;
                        nr_of_channels := nr_of_channels';
                        bitwidth := bitwidth';
                        bytes_per_sample := bytes_per_sample';
                        value_type := value_type';
                        valueBuffer := Some block;
                        sample_rate_info := sample_rate_info b;
                        prepared_data_src := prepared_data_src b |})
      | None => Exit 1
      end
  end.

Definition units : list string :=
  ["Hz"; "kHz"; "MHz"; "GHz"; "THz"; "PHz"]%string.

(** [1.0 / (time_step * pow(10.0, time_exponent))] *)
Definition raw_frequency (buf : RawTimelineValuesBuf) : spec_float :=
  D.div d_1 (D.mul (D.of_Z (time_step buf)) (pow10 (time_exponent buf))).

(** The [while] loop of [getEngineeringSampleRateFrequency]; it runs at most
    five times, since each turn adds one to [exponent_index]. *)
Fixpoint engineering_scale (fuel : nat) (freq_hz : spec_float) (exponent_index : Z)
  : spec_float * Z :=
  match fuel with
  | O => (freq_hz, exponent_index)
  | Datatypes.S k =>
      if D.geb freq_hz d_1000 && (exponent_index <? 5)
      then engineering_scale k (D.div freq_hz d_1000) (exponent_index + 1)
      else (freq_hz, exponent_index)
  end.

(** [*freq_val] and [*freq_unit]. *)
Definition getEngineeringSampleRateFrequency (buf : RawTimelineValuesBuf)
  : spec_float * string :=
  let '(freq_hz, exponent_index) := engineering_scale 5 (raw_frequency buf) 0 in
  (freq_hz, nth (Z.to_nat exponent_index) units EmptyString).

(** [*time_val] and [*time_unit]. *)
Definition getEngineeringTimeInterval (buf : RawTimelineValuesBuf) : spec_float * string :=
  let time_unit :=
    match time_exponent buf with
    | 0 => "s"
    | -3 => "ms"
    | -6 => "us"
    | -9 => "ns"
    | -12 => "ps"
    | -15 => "fs"
    | _ => "?s"
    end%string in
  (D.of_Z (time_step buf), time_unit).

(** *** Sample-rate conversion *)

(** The exponents tried by [prepare_SampleRateConversion], in order:
    [for (int e = 15; e >= -15; e -= 3)]. *)
Definition time_exponents : list Z := [15; 12; 9; 6; 3; 0; -3; -6; -9; -12; -15].

(** The loop that picks [exp] and [step]; both stay 0 when no exponent
    fits. *)
Fixpoint pick_time_base (es : list Z) (ideal_time : spec_float) : outcome (Z * Z) :=
  match es with
  | [] => Done (0, 0)
  | e :: es' =>
      let base_unit := pow10 e in
      let candidate_step := D.div ideal_time base_unit in
      if D.geb candidate_step d_1 && D.leb candidate_step (D.of_Z UINT32_MAX)
      then step ← D.to_u32 (D.add candidate_step d_0_5); mret (e, step)
      else pick_time_base es' ideal_time
  end.

(** [rate_ratio] and [new_nr_samples], the first four statements of
    [prepare_SampleRateConversion]. *)
Definition src_rate_ratio (input : RawTimelineValuesBuf) (new_sample_rate_hz : Z)
  : spec_float :=
  let time_unit := pow10 (time_exponent input) in
  let old_rate := D.div d_1 (D.mul (D.of_Z (time_step input)) time_unit) in
  D.div (D.of_Z new_sample_rate_hz) old_rate.

Definition src_new_nr_samples (input : RawTimelineValuesBuf) (new_sample_rate_hz : Z)
  : outcome Z :=
  D.to_u32 (D.mul (D.of_Z (nr_of_samples input)) (src_rate_ratio input new_sample_rate_hz)).

Definition prepare_SampleRateConversion (libc : Libc)
    (input : option RawTimelineValuesBuf) (new_sample_rate_hz : Z)
    (output : option RawTimelineValuesBuf)
  : outcome (Z * option RawTimelineValuesBuf) :=
  match input, output with
  | Some input, Some output =>
      let rate_ratio := src_rate_ratio input new_sample_rate_hz in
      new_nr_samples ← src_new_nr_samples input new_sample_rate_hz;
      let ideal_time := D.div d_1 (D.of_Z new_sample_rate_hz) in
      '(exp, step) ← pick_time_base time_exponents ideal_time;
      let output := set_time_base exp step output in
      match malloc libc 8 with
      | None => Done (-1, Some (set_sample_rate_info None output))
      | Some _ =>
          let output := set_sample_rate_info (Some {| rate_ratio := rate_ratio |}) output in
          o ← alloc_RawTimelineValuesBuf libc (Some output) new_nr_samples
                (nr_of_channels input) (bitwidth input) (bytes_per_sample input)
                (value_type input);
          output ← access o;
          output ←
            (if decide (value_type output = TR_SIMD_sint16x8) then
               let output := set_prepared_data_src None output in
               '(_, output) ← init_InterpInfo libc input output;
               mret output
             else mret output);
          mret (match valueBuffer output with None => -1 | Some _ => 0 end, Some output)
      end
  | _, _ => Done (-1, output)
  end.

(** Floating-point interpolation of [int8_t] samples. *)
Definition convert_sample_rate_analog_sint8 (input output : RawTimelineValuesBuf)
    (rate_ratio : spec_float) (new_nr_samples : Z) : outcome (Z * RawTimelineValuesBuf) :=
  let nch := nr_of_channels input in
  dst ← for_each (trips 0 new_nr_samples) 0 (fun i dst =>
    let original_index := D.div (D.of_Z i) rate_ratio in
    index_lower ← D.to_u32 (D.floor original_index);
    let index_upper :=
      if u32 (index_lower + 1) <? nr_of_samples input then u32 (index_lower + 1)
      else index_lower in
    let frac := D.sub original_index (D.of_Z index_lower) in
    for_each (trips 0 nch) 0 (fun ch dst =>
      v1 ← Mem.get_s8 (valueBuffer input) (u32 (u32 (index_lower * nch) + ch));
      v2 ← Mem.get_s8 (valueBuffer input) (u32 (u32 (index_upper * nch) + ch));
      let interpolated :=
        D.add (D.mul (D.sub d_1 frac) (D.of_Z v1)) (D.mul frac (D.of_Z v2)) in
      v ← D.to_s8 (D.round interpolated);
      Mem.put_s8 dst (u32 (u32 (i * nch) + ch)) v) dst)
    (valueBuffer output);
  mret (0, set_valueBuffer dst output).

(** [g] is the value of [g_TimelineBackendFunctions] at the call. *)
Definition convert_sample_rate (g : backend_ptr)
    (input output : option RawTimelineValuesBuf)
  : outcome (Z * option RawTimelineValuesBuf) :=
  match input, output with
  | Some input, Some output =>
      if decide (value_type input = TR_analog_sint8) then
        info ← access (sample_rate_info output);
        '(st, output) ← convert_sample_rate_analog_sint8 input output
                          (rate_ratio info) (nr_of_samples output);
        mret (st, Some output)
      else if decide (value_type input = TR_SIMD_sint16x8) then
        '(st, output) ← convert_sample_rate_s16x8 (deref g) input output;
        mret (st, Some output)
      else Done (-1, Some output)
  | _, _ => Done (-1, output)
  end.

(** *** Min/max aggregation *)

Definition prepare_AggregationMinMax (libc : Libc)
    (input outMin outMax : option RawTimelineValuesBuf) (outSampleNr : Z)
  : outcome (Z * option RawTimelineValuesBuf * option RawTimelineValuesBuf) :=
  match input, outMin, outMax with
  | Some input, Some outMin, Some outMax =>
      if negb (bool_decide (value_type input = TR_analog_sint8))
         && negb (bool_decide (value_type input = TR_SIMD_sint16x8))
      then Done (-1, Some outMin, Some outMax)
      else
        o ← alloc_RawTimelineValuesBuf libc
               (Some (set_time_base (time_exponent input) (time_step input) outMin))
               outSampleNr (nr_of_channels input) (bitwidth input)
               (bytes_per_sample input) (value_type input);
        outMin ← access o;
        o ← alloc_RawTimelineValuesBuf libc
               (Some (set_time_base (time_exponent input) (time_step input) outMax))
               outSampleNr (nr_of_channels input) (bitwidth input)
               (bytes_per_sample input) (value_type input);
        outMax ← access o;
        mret (match valueBuffer outMin, valueBuffer outMax with
              | Some _, Some _ => 0
              | _, _ => -1
              end, Some outMin, Some outMax)
  | _, _, _ => Done (-1, outMin, outMax)
  end.

(** The sample range [start, end) of bin [i]. *)
Definition bin_bounds (in_samples out_samples inOffset i : Z) : outcome (Z * Z) :=
  let stride_f := F.div (F.of_Z in_samples) (F.of_Z out_samples) in
  s ← F.to_u32 (F.floorf (F.mul (F.of_Z i) stride_f));
  let start := u32 (inOffset + s) in
  e ← F.to_u32 (F.floorf (F.mul (F.of_Z (u32 (i + 1))) stride_f));
  let end_ := u32 (inOffset + e) in
  let end_ := if end_ <=? start then u32 (start + 1) else end_ in
  let end_ :=
    if u32 (inOffset + in_samples) <? end_ then u32 (inOffset + in_samples) else end_ in
  mret (start, end_).

Definition aggregate_MinMax (g : backend_ptr)
    (input outMin outMax : option RawTimelineValuesBuf) (inSamples inOffset : Z)
  : outcome (Z * option RawTimelineValuesBuf * option RawTimelineValuesBuf) :=
  match input, outMin, outMax with
  | Some input, Some outMin, Some outMax =>
      if negb (bool_decide (value_type input = TR_analog_sint8))
         && negb (bool_decide (value_type input = TR_SIMD_sint16x8))
      then Done (-1, Some outMin, Some outMax)
      else
        let minmax_fn :=
          if decide (value_type input = TR_analog_sint8)
          then aggregate_minmax_s8 (deref g)
          else aggregate_minmax_s16x8 (deref g) in
        let in_samples := if 0 <? inSamples then inSamples else nr_of_samples input in
        let out_samples := nr_of_samples outMin in
        '(outMin, outMax) ← for_each (trips 0 out_samples) 0 (fun i '(outMin, outMax) =>
          '(start, end_) ← bin_bounds in_samples out_samples inOffset i;
          '(_, outMin, outMax) ← minmax_fn input outMin outMax i start end_;
          mret (outMin, outMax)) (outMin, outMax);
        mret (0, Some outMin, Some outMax)
  | _, _, _ => Done (-1, outMin, outMax)
  end.

(* ===================================================================== *)
(** ** Inputs of the worked scenarios *)

(** The integers [lo, lo + n). *)
Fixpoint zrange (n : nat) (lo : Z) : list Z :=
  match n with
  | O => []
  | Datatypes.S k => lo :: zrange k (lo + 1)
  end.

(** A buffer as [init_RawTimelineValuesBuf] leaves it. *)
Definition blank : RawTimelineValuesBuf :=
  {| buffer_size := 0; nr_of_samples := 0; time_step := 0;
     total_time_sec := S754_zero false;
     time_exponent := 0; nr_of_channels := 0; bitwidth := 0;
     bytes_per_sample := 0; value_type := TR_undefined;
     valueBuffer := None; sample_rate_info := None; prepared_data_src := None |}.

(** The two bytes of an [int16_t], low byte first. *)
Definition le16 (v : Z) : list Z := [u8 v; u8 (u16 v / 256)].

(** An 8-lane frame holding [v] in lane 0 and zero in the other lanes. *)
Definition frame0 (v : Z) : list Z := le16 v ++ replicate 14 0.

(** A [Simd_I16x8] buffer with the given samples on channel 0, the other
    channels zero, stride 16 bytes. *)
Definition simd_input (ch0 : list Z) (step exp : Z) : RawTimelineValuesBuf :=
  let n := Z.of_nat (length ch0) in
  {| buffer_size := 16 * n; nr_of_samples := n; time_step := step;
     total_time_sec := S754_zero false;
     time_exponent := exp; nr_of_channels := 8; bitwidth := 16;
     bytes_per_sample := 16; value_type := TR_SIMD_sint16x8;
     valueBuffer := Some (flat_map frame0 ch0);
     sample_rate_info := None; prepared_data_src := None |}.

(** An [AnalogI8] buffer with one channel. *)
Definition analog_input (ch0 : list Z) (step exp : Z) : RawTimelineValuesBuf :=
  let n := Z.of_nat (length ch0) in
  {| buffer_size := n; nr_of_samples := n; time_step := step;
     total_time_sec := S754_zero false;
     time_exponent := exp; nr_of_channels := 1; bitwidth := 8;
     bytes_per_sample := 1; value_type := TR_analog_sint8;
     valueBuffer := Some (map u8 ch0);
     sample_rate_info := None; prepared_data_src := None |}.

(** Channel [ch] of a buffer, sample by sample, through the accessor of its
    sample type. *)
Definition channel_s16 (b : RawTimelineValuesBuf) (ch : Z) : list (outcome (option Z)) :=
  map (fun i => getSampleValue_SIMD_sint16x8 b i ch)
      (zrange (Z.to_nat (nr_of_samples b)) 0).

Definition channel_s8 (b : RawTimelineValuesBuf) (ch : Z) : list (outcome (option Z)) :=
  map (fun i => getSampleValue_int8 b i ch)
      (zrange (Z.to_nat (nr_of_samples b)) 0).

(** Samples that were all read with status 0. *)
Definition read_ok (vs : list Z) : list (outcome (option Z)) :=
  map (fun v => Done (Some v)) vs.

(** S1: 1000 samples, channel 0 = 0, 1, ..., 999, at 1 MHz. *)
Definition s1_channel0 : list Z := zrange 1000 0.
Definition s1_input : RawTimelineValuesBuf := simd_input s1_channel0 1 (-6).

(** S2: 4 samples at 1 MHz. *)
Definition s2_input : RawTimelineValuesBuf :=
  simd_input [0; 100; 200; 300] 1 (-6).

(** S3: 10 samples at 1 MHz. *)
Definition s3_input : RawTimelineValuesBuf :=
  simd_input [0; 10; 20; 30; 40; 50; 60; 70; 80; 90] 1 (-6).

(** S4: 20 samples of one [int8_t] channel. *)
Definition s4_values : list Z :=
  [-5; 7; -3; 2; 4; -1; 8; 0; -8; 3; 6; -2; 1; 9; -9; 5; 7; -7; 4; 0].
Definition s4_input : RawTimelineValuesBuf := analog_input s4_values 1 (-6).

(** The output buffer of a conversion to [n] samples, as
    [alloc_RawTimelineValuesBuf] sets it up inside
    [prepare_SampleRateConversion] for an 8-channel [Simd_I16x8] input. *)
Definition src_output (libc : Libc) (n : Z) : outcome (option RawTimelineValuesBuf) :=
  alloc_RawTimelineValuesBuf libc (Some blank) n 8 16 16 TR_SIMD_sint16x8.

(** Reference minimum and maximum of a list, for stating what a bin holds. *)
Definition list_min (seed : Z) (l : list Z) : Z := fold_left Z.min l seed.
Definition list_max (seed : Z) (l : list Z) : Z := fold_left Z.max l seed.

(** The samples [start, end) of a list. *)
Definition slice {A} (start end_ : Z) (l : list A) : list A :=
  take (Z.to_nat (end_ - start)) (drop (Z.to_nat start) l).

(** The output of a conversion to [n] samples when the library hands out
    zeroed blocks: what [src_output zero_libc n] returns. *)
Definition src_output_buf (n : Z) : RawTimelineValuesBuf :=
  {| buffer_size := 128 * n; nr_of_samples := n; time_step := 0;
     total_time_sec := S754_zero false;
     time_exponent := 0; nr_of_channels := 8; bitwidth := 16;
     bytes_per_sample := 16; value_type := TR_SIMD_sint16x8;
     valueBuffer := Some (replicate (Z.to_nat (128 * n)) 0);
     sample_rate_info := None; prepared_data_src := None |}.

(** 48 microseconds per sample, and 2 seconds per sample. *)
Definition buf_48us : RawTimelineValuesBuf := set_time_base (-6) 48 blank.
Definition buf_2s : RawTimelineValuesBuf := set_time_base 0 2 blank.

(** A source of one sample, and an empty source. *)
Definition one_sample_input : RawTimelineValuesBuf := simd_input [1234] 1 (-6).
Definition empty_input : RawTimelineValuesBuf := simd_input [] 1 (-6).

(** Every [int16_t] value. *)
Definition int16_values : list Z := zrange (Z.to_nat 65536) (-32768).

(** What [free_RawTimelineValuesBuf] and [init_RawTimelineValuesBuf] both
    establish. *)
Definition released (b : RawTimelineValuesBuf) : Prop :=
  valueBuffer b = None /\ prepared_data_src b = None
  /\ sample_rate_info b = None /\ nr_of_samples b = 0.

(** The bins of scenario S4. *)
Definition s4_bins : list (Z * Z) := [(0, 5); (5, 10); (10, 15); (15, 20)].

(** A positive normal double [m * 2^e] with [lo <= e <= hi]: 53 digits of
    mantissa. *)
Definition normal (lo hi : Z) (x : spec_float) : Prop :=
  exists m e, x = S754_finite false m e /\ Z.pos (digits2_pos m) = 53 /\ lo <= e <= hi.

(** The mantissa of [1000.0], whose exponent is -43. *)
Definition m1000 : positive := 8796093022208000.

(** One turn of the loop of [getEngineeringSampleRateFrequency]. *)
Definition div_1000 (x : spec_float) : spec_float := D.div x d_1000.

(** The plan that [init_InterpInfo] builds for S3: 10 input samples, 3 output samples. *)
Definition s3_plan_entries : list SampleInterpInfo :=
  [ {| idx0 := 0; idx1 := 1; frac := 0; inv_frac := 0 |};
    {| idx0 := 3; idx1 := 4; frac := 21845; inv_frac := 43691 |};
    {| idx0 := 6; idx1 := 7; frac := 43690; inv_frac := 21846 |} ].

(* ===================================================================== *)
(** ** Conversion between the scalar and the 8-lane layout ([timelinedb.c]) *)

Definition set_layout (vt : RawTimelineValueEnum) (n ch : Z) (b : RawTimelineValuesBuf) :=
  {| buffer_size := buffer_size b; nr_of_samples := n;
     time_step := time_step b; total_time_sec := total_time_sec b;
     time_exponent := time_exponent b; nr_of_channels := ch;
     bitwidth := bitwidth b; bytes_per_sample := bytes_per_sample b;
     value_type := vt; valueBuffer := valueBuffer b;
     sample_rate_info := sample_rate_info b;
     prepared_data_src := prepared_data_src b |}.

Definition prepare_NeonAlignedBuffer (libc : Libc) (src dst : option RawTimelineValuesBuf)
  : outcome (Z * option RawTimelineValuesBuf) :=
  match src, dst with
  | Some src, Some dst =>
      if negb (bool_decide (value_type src = TR_analog_sint8)) || negb (bitwidth src =? 8)
      then Done (-1, Some dst)
      else
        let channels := 8 in
        let dst := set_time_base (time_exponent src) (time_step src) dst in
        let dst := set_layout TR_SIMD_sint16x8 (nr_of_samples src) channels dst in
        o ← alloc_RawTimelineValuesBuf libc (Some dst) (nr_of_samples src) channels 16 16
               TR_SIMD_sint16x8;
        dst ← access o;
        mret (match valueBuffer dst with None => -1 | Some _ => 0 end, Some dst)
  | _, _ => Done (-1, dst)
  end.

(** [src] is dereferenced before any test; [dst] is tested against null.
    The loop leaves with status [-1] ([inr]) at the first sample whose
    offset cannot be computed. *)
Definition convert_to_NeonAlignedBuffer (src : RawTimelineValuesBuf)
    (dst : option RawTimelineValuesBuf) (srcChannel dstChannel : Z)
  : outcome (Z * option RawTimelineValuesBuf) :=
  if negb (bool_decide (value_type src = TR_analog_sint8)) || negb (bitwidth src =? 8)
  then Done (-1, dst)
  else
    match dst with
    | None => Done (-1, None)
    | Some d =>
        if negb (bool_decide (value_type d = TR_SIMD_sint16x8)) || negb (bitwidth d =? 16)
        then Done (-1, dst)
        else if negb (nr_of_samples d =? nr_of_samples src) || (8 <? nr_of_channels d)
        then Done (-1, dst)
        else
          r ← for_loop (trips 0 (nr_of_samples src)) 0 (fun i buf =>
            match getSampleByteOffset src i srcChannel with
            | None => mret (inr buf)
            | Some srcSampleOffset =>
                match getSampleByteOffset d i dstChannel with
                | None => mret (inr buf)
                | Some dstSampleOffset =>
                    ms ← access (valueBuffer src);
                    srcData ← access (Mem.load_s8 ms srcSampleOffset);
                    m ← access buf;
                    m' ← access (Mem.store_16 m dstSampleOffset srcData);
                    mret (inl (Some m'))
                end
            end) (valueBuffer d);
          match r with
          | inl buf => mret (0, Some (set_valueBuffer buf d))
          | inr buf => mret (-1, Some (set_valueBuffer buf d))
          end
    end.

(** The byte offset of the sample is used as the index into the arrays of
    [int16_t] and of [int8_t]. *)
Definition convert_from_NeonAlignedBuffer (src : RawTimelineValuesBuf)
    (dst : option RawTimelineValuesBuf)
  : outcome (Z * option RawTimelineValuesBuf) :=
  if negb (bool_decide (value_type src = TR_SIMD_sint16x8)) || negb (bitwidth src =? 16)
  then Done (-1, dst)
  else
    match dst with
    | None => Done (-1, None)
    | Some d =>
        if negb (bool_decide (value_type d = TR_analog_sint8)) || negb (bitwidth d =? 8)
        then Done (-1, dst)
        else
          let src_array := valueBuffer src in
          r ← for_loop (trips 0 (nr_of_samples src)) 0 (fun i dst_array =>
            match getSampleByteOffset src i 0 with
            | None => mret (inr dst_array)
            | Some srcSampleOffset =>
                match getSampleByteOffset d i 0 with
                | None => mret (inr dst_array)
                | Some dstSampleOffset =>
                    srcData ← Mem.get_s16 src_array srcSampleOffset;
                    dst_array ← Mem.put_s8 dst_array dstSampleOffset (s8 srcData);
                    mret (inl dst_array)
                end
            end) (valueBuffer d);
          match r with
          | inl buf =>
              mret (0, Some (set_nr_of_samples (nr_of_samples src) (set_valueBuffer buf d)))
          | inr buf => mret (-1, Some (set_valueBuffer buf d))
          end
    end.

(* ===================================================================== *)
(** ** Reading a range of samples *)

(** Channel [ch] of the samples [start, end), through the accessor. *)
Definition samples_s8 (b : RawTimelineValuesBuf) (ch start end_ : Z)
  : list (outcome (option Z)) :=
  map (fun j => getSampleValue_int8 b j ch) (zrange (trips start end_) start).

Definition samples_s16 (b : RawTimelineValuesBuf) (ch start end_ : Z)
  : list (outcome (option Z)) :=
  map (fun j => getSampleValue_SIMD_sint16x8 b j ch) (zrange (trips start end_) start).

(** The position [(idx0, accum)] of the Bresenham kernel when it computes
    output frame [i]: the start [(0, 0)] advanced [i] times. *)
Definition bresenham_position (in_samples out_samples : Z) (i : nat) : Z * Z :=
  Nat.iter i (fun p => bresenham_advance in_samples in_samples out_samples (fst p) (snd p))
    (0, 0).

(** A C library whose blocks have the size asked for. *)
Definition libc_sized (libc : Libc) : Prop :=
  (forall size m, malloc libc size = Some m -> length m = Z.to_nat size)
  /\ (forall alignment size m,
        aligned_alloc libc alignment size = Some m -> length m = Z.to_nat size).

(* ===================================================================== *)
(** ** Test signal ([timelinedb_util.c]) *)

(** Further operations on [float], and the conversions between [float] and
    [double]. *)
Module Fx.
Definition add : spec_float -> spec_float -> spec_float := SFadd F.prec F.emax.
(** C's [a < b]. *)
Definition ltb (a b : spec_float) : bool := SFltb a b.
(** [double] to [float]: rounded to nearest. *)
Definition of_double (x : spec_float) : spec_float :=
  match x with
  | S754_finite s m e => binary_normalize F.prec F.emax (cond_Zopp s (Z.pos m)) e s
  | _ => x
  end.
(** [float] to [double]: the same value, with the mantissa of a double. *)
Definition to_double (x : spec_float) : spec_float :=
  match x with
  | S754_finite s m e => binary_normalize D.prec D.emax (cond_Zopp s (Z.pos m)) e s
  | _ => x
  end.
End Fx.

(** [PI]: the double nearest to 3.14159265358979323846. *)
Definition d_PI : spec_float :=
  let '(m, e, l) :=
    SFdiv_core_binary D.prec D.emax 314159265358979323846 0 (10 ^ 20) 0 in
  binary_round_aux D.prec D.emax false m e l.

(** [sinf] belongs to the C library. *)
Record Libm : Type := {
  sinf : spec_float -> spec_float
}.

(** The loop [while (scaled_rate >= 1000)]; for a 32-bit rate it ends
    within three turns. *)
Fixpoint scale_rate (fuel : nat) (scaled_rate exponent : Z) : Z * Z :=
  match fuel with
  | O => (scaled_rate, exponent)
  | Datatypes.S k =>
      if 1000 <=? scaled_rate then scale_rate k (scaled_rate / 1000) (exponent + 3)
      else (scaled_rate, exponent)
  end.

(** One sample of the wave for an integer type of [w] bits; [lanes] is the
    divisor of the channel's phase. *)
Definition sine_sample (libm : Libm) (w : Z) (period amplitude : spec_float)
    (i ch : Z) (lanes : spec_float) : outcome Z :=
  let t := F.div (Fx.add (F.of_Z i) (F.div (F.of_Z ch) lanes)) period in
  let val :=
    F.mul amplitude
      (sinf libm (Fx.of_double (D.mul (D.mul (D.of_Z 2) d_PI) (Fx.to_double t)))) in
  let hi := F.of_Z (2 ^ (w - 1) - 1) in
  let lo := F.of_Z (- 2 ^ (w - 1)) in
  fl_to_signed w (if Fx.ltb hi val then hi else if Fx.ltb val lo then lo else val).

(** The buffer comes back with its new time base, layout and block. The
    first value given to [buffer_size], from the old [bytes_per_sample], is
    replaced in both branches that return, and is left out. *)
Definition generate_sine_wave (libm : Libm) (libc : Libc) (buf : RawTimelineValuesBuf)
    (num_samples num_channels : Z) (period amplitude : spec_float) (sample_rate_hz : Z)
  : outcome RawTimelineValuesBuf :=
  let '(_, exponent) := scale_rate 4 sample_rate_hz 0 in
  divisor ← D.to_u32 (pow10 exponent);
  if divisor =? 0 then Undefined
  else
    let filled (bw bps size : Z) (block : list Z) :=
      {| buffer_size := size; nr_of_samples := num_samples;
         time_step := sample_rate_hz / divisor; total_time_sec := total_time_sec buf;
         time_exponent := - exponent; nr_of_channels := num_channels;
         bitwidth := bw; bytes_per_sample := bps; value_type := value_type buf;
         valueBuffer := Some block; sample_rate_info := sample_rate_info buf;
         prepared_data_src := prepared_data_src buf |} in
    if decide (value_type buf = TR_SIMD_sint16x8) then
      let size := u32 (num_samples * 16) in
      match aligned_alloc libc 16 size with
      | None => Exit 1
      | Some block =>
          data ← for_each (trips 0 num_samples) 0 (fun i data =>
            for_each (trips 0 8) 0 (fun ch data =>
              sval ← sine_sample libm 16 period amplitude i ch (F.of_Z 8);
              Mem.put_s16 data (u32 (u32 (i * 8) + ch)) sval) data) (Some block);
          block' ← access data;
          mret (filled 16 16 size block')
      end
    else if decide (value_type buf = TR_analog_sint8) then
      let size := u32 (num_samples * num_channels) in
      match malloc libc size with
      | None => Exit 1
      | Some block =>
          data ← for_each (trips 0 num_samples) 0 (fun i data =>
            for_each (trips 0 num_channels) 0 (fun ch data =>
              sval ← sine_sample libm 8 period amplitude i ch (F.of_Z num_channels);
              Mem.put_s8 data (u32 (u32 (i * num_channels) + ch)) sval) data)
            (Some block);
          block' ← access data;
          mret (filled 8 1 size block')
      end
    else Exit 1.

(** A [sinf] that returns 0, for running the generator. *)
Definition flat_libm : Libm := {| sinf := fun _ => S754_zero false |}.

(* ===================================================================== *)
(** ** Further buffers for running the functions *)

(** Four [int8_t] samples of one channel, all 0: an [outMin] or [outMax]
    of four bins for S4, and a destination of four samples. *)
Definition bins4 : RawTimelineValuesBuf := analog_input [0; 0; 0; 0] 1 (-6).

(** Twenty [int8_t] samples of one channel, all 0, prepared for a
    conversion with rate ratio 1.0. *)
Definition identity_output : RawTimelineValuesBuf :=
  set_sample_rate_info (Some {| rate_ratio := d_1 |}) (analog_input (replicate 20 0) 1 (-6)).

(** The 8-lane copy that [prepare_NeonAlignedBuffer] sets up for S4 with
    zeroed blocks. *)
Definition s4_neon : RawTimelineValuesBuf := set_time_base (-6) 1 (src_output_buf 20).

(** An 8-lane buffer type with 4 channels and 2 samples. *)
Definition four_lanes : RawTimelineValuesBuf := set_layout TR_SIMD_sint16x8 2 4 s2_input.

(** An output of [n] samples laid out like [input], with a block that holds
    them. *)
Definition prepared_like (input o : RawTimelineValuesBuf) (n : Z) : Prop :=
  nr_of_samples o = n /\ nr_of_channels o = nr_of_channels input
  /\ bitwidth o = bitwidth input /\ value_type o = value_type input
  /\ time_step o = time_step input /\ time_exponent o = time_exponent input
  /\ bytes_per_sample o = (nr_of_channels input * bitwidth input + 7) / 8
  /\ exists block,
       valueBuffer o = Some block
       /\ n * bytes_per_sample o <= Z.of_nat (length block).

(** The largest [double] below 1.0, which is [1 - 2^-53]. *)
Definition d_below_1 : spec_float := S754_finite false 9007199254740991 (-53).

(** S4 with a time base of 10 us, and the output that
    [prepare_SampleRateConversion] sets up for it at 100 kHz with zeroed
    blocks. *)
Definition s4_10us : RawTimelineValuesBuf := analog_input s4_values 10 (-6).
Definition s4_10us_output : RawTimelineValuesBuf :=
  set_sample_rate_info (Some {| rate_ratio := d_below_1 |})
    (analog_input (replicate 19 0) 10 (-6)).

(* ===================================================================== *)
(** ** The partition into bins, as the specification words it *)

(** Bin [i] of the window [[in_offset, in_offset + in_samples)] cut into
    [bin_count] bins, following the specification:
    [stride = in_samples / bin_count],
    [start = in_offset + floor(i * stride)],
    [end = in_offset + floor((i+1) * stride)], [end] set to [start + 1] when
    [end <= start], then clamped to [in_offset + in_samples]. The stride and
    the products are [float], the sums are [uint32_t]. To be compared with
    [bin_bounds], which is the code. *)
Definition spec_bin (in_samples bin_count in_offset i : Z) : outcome (Z * Z) :=
  let stride := F.div (F.of_Z in_samples) (F.of_Z bin_count) in
  a ← F.to_u32 (F.floorf (F.mul (F.of_Z i) stride));
  b ← F.to_u32 (F.floorf (F.mul (F.of_Z (i + 1)) stride));
  let start := u32 (in_offset + a) in
  let end_ := u32 (in_offset + b) in
  let end_ := if end_ <=? start then u32 (start + 1) else end_ in
  mret (start, Z.min end_ (u32 (in_offset + in_samples))).

(** Every bin of the window lies inside a buffer of [n] samples. *)
Definition bins_inside (in_samples bin_count in_offset n : Z) : Prop :=
  forall i, 0 <= i < bin_count ->
    exists start end_,
      spec_bin in_samples bin_count in_offset i = Done (start, end_)
      /\ start <= end_ <= n.

(** [outMin] and [outMax] hold, for every bin and channel, the minimum and
    the maximum of the samples of the bin, read through the accessor of the
    sample type. *)
Definition extremes_s8 (input outMin outMax : RawTimelineValuesBuf)
    (in_samples in_offset : Z) : Prop :=
  forall i ch, 0 <= i < nr_of_samples outMin -> 0 <= ch < nr_of_channels input ->
    exists start end_ vs,
      spec_bin in_samples (nr_of_samples outMin) in_offset i = Done (start, end_)
      /\ samples_s8 input ch start end_ = read_ok vs
      /\ getSampleValue_int8 outMin i ch = Done (Some (list_min INT8_MAX vs))
      /\ getSampleValue_int8 outMax i ch = Done (Some (list_max INT8_MIN vs)).

Definition extremes_s16 (input outMin outMax : RawTimelineValuesBuf)
    (in_samples in_offset : Z) : Prop :=
  forall i ch, 0 <= i < nr_of_samples outMin -> 0 <= ch < nr_of_channels input ->
    exists start end_ vs,
      spec_bin in_samples (nr_of_samples outMin) in_offset i = Done (start, end_)
      /\ samples_s16 input ch start end_ = read_ok vs
      /\ getSampleValue_SIMD_sint16x8 outMin i ch = Done (Some (list_min INT16_MAX vs))
      /\ getSampleValue_SIMD_sint16x8 outMax i ch = Done (Some (list_max INT16_MIN vs)).

(** Four [int8_t] bins of one channel that hold 42, to see which of them a
    call writes. *)
Definition marked4 : RawTimelineValuesBuf := analog_input [42; 42; 42; 42] 1 (-6).

(* ===================================================================== *)
(** * Theorems *)

(* ===================================================================== *)
(** ** Loops and storage *)

(** The loop rule for [for_each]: an invariant kept by every turn holds at
    the end, and the loop completes. *)
Lemma for_each_inv {S} (P : Z -> S -> Prop) (body : Z -> S -> outcome S) :
  forall (n : nat) (i : Z) (s : S),
    P i s ->
    (forall k s, i <= k < i + Z.of_nat n -> P k s ->
                 exists s', body k s = Done s' /\ P (k + 1) s') ->
    exists s', for_each n i body s = Done s' /\ P (i + Z.of_nat n) s'.
Proof.
  induction n as [|n IH]; intros i s Hi Hstep.
  - exists s. split; [reflexivity |]. now replace (i + Z.of_nat 0) with i by lia.
  - destruct (Hstep i s ltac:(lia) Hi) as (s1 & E1 & P1).
    destruct (IH (i + 1) s1 P1) as (s2 & E2 & P2).
    { intros k s' Hk. apply Hstep. lia. }
    exists s2. split.
    + cbn [for_each]. rewrite E1. exact E2.
    + now replace (i + Z.of_nat (Datatypes.S n)) with (i + 1 + Z.of_nat n) by lia.
Qed.

Lemma u8_range x : 0 <= u8 x < 256.
Proof. unfold u8. apply Z.mod_pos_bound. lia. Qed.

Lemma u8_idem x : u8 (u8 x) = u8 x.
Proof. unfold u8. apply Z.mod_mod. lia. Qed.

Lemma u32_small x : 0 <= x < 2 ^ 32 -> u32 x = x.
Proof. intros H. unfold u32. now apply Z.mod_small. Qed.

Module MemFacts.
Import Mem.

Lemma load_u8_Some (m : list Z) off :
  0 <= off < Z.of_nat (length m) -> exists b, m !! Z.to_nat off = Some b /\ load_u8 m off = Some (u8 b).
Proof.
  intros H. unfold load_u8.
  destruct (off <? 0) eqn:E; [apply Z.ltb_lt in E; lia |].
  destruct (lookup_lt_is_Some_2 m (Z.to_nat off) ltac:(lia)) as [b Hb].
  exists b. now rewrite Hb.
Qed.

Lemma load_u8_insert_eq (m : list Z) off v :
  0 <= off < Z.of_nat (length m) ->
  load_u8 (<[Z.to_nat off := u8 v]> m) off = Some (u8 v).
Proof.
  intros H. unfold load_u8.
  destruct (off <? 0) eqn:E; [apply Z.ltb_lt in E; lia |].
  rewrite list_lookup_insert_eq by lia. cbn. now rewrite u8_idem.
Qed.

Lemma load_u8_insert_ne (m : list Z) off off' v :
  0 <= off -> off <> off' ->
  load_u8 (<[Z.to_nat off := v]> m) off' = load_u8 m off'.
Proof.
  intros H Hne. unfold load_u8.
  destruct (off' <? 0) eqn:E; [reflexivity |].
  apply Z.ltb_ge in E.
  rewrite list_lookup_insert_ne by lia. reflexivity.
Qed.

Lemma store_16_Some (m : list Z) off v :
  0 <= off -> off + 1 < Z.of_nat (length m) ->
  store_16 m off v
  = Some (<[Z.to_nat (off + 1) := u8 (u16 v / 256)]> (<[Z.to_nat off := u8 v]> m)).
Proof.
  intros H0 H1. unfold store_16, store_8.
  destruct (load_u8_Some m off ltac:(lia)) as (b & _ & ->). cbn.
  destruct (load_u8_Some (<[Z.to_nat off := u8 v]> m) (off + 1)) as (b' & _ & ->).
  { rewrite length_insert. lia. }
  reflexivity.
Qed.

(** Reading back what was stored. *)
Lemma s16_of_bytes v :
  - 2 ^ 15 <= v < 2 ^ 15 -> s16 (u8 v + 256 * u8 (u16 v / 256)) = v.
Proof.
  intros H. unfold s16, signed, u8, u16.
  change (2 ^ 8) with 256. change (2 ^ 16) with 65536. change (2 ^ (16 - 1)) with 32768.
  change (2 ^ 15) with 32768 in H.
  assert (E : v mod 256 + 256 * ((v mod 65536 / 256) mod 256) = v mod 65536).
  { assert (H1 := Z.mod_pos_bound v 65536 ltac:(lia)).
    rewrite (Z.mod_small (v mod 65536 / 256)).
    2:{ split; [apply Z.div_pos; lia | apply Z.div_lt_upper_bound; lia]. }
    rewrite <- (Z.mod_mod_divide v 65536 256) by (exists 256; reflexivity).
    assert (H2 := Z.div_mod (v mod 65536) 256 ltac:(lia)). lia. }
  rewrite E.
  destruct (Z.neg_nonneg_cases v) as [Hn|Hp].
  - rewrite <- (Z.mod_add (v mod 65536 + 32768) (-1) 65536) by lia.
    assert (Hm : v mod 65536 = v + 65536).
    { symmetry. apply Z.mod_unique_pos with (q := -1); lia. }
    rewrite Hm. rewrite Z.mod_small; lia.
  - rewrite (Z.mod_small v) by lia. rewrite Z.mod_small; lia.
Qed.

Lemma load_s16_store_16 (m m' : list Z) off v :
  - 2 ^ 15 <= v < 2 ^ 15 ->
  0 <= off -> off + 1 < Z.of_nat (length m) ->
  store_16 m off v = Some m' ->
  load_s16 m' off = Some v /\ length m' = length m
  /\ (forall off', off' <> off -> off' <> off + 1 -> load_u8 m' off' = load_u8 m off').
Proof.
  intros Hv H0 H1 E. rewrite store_16_Some in E by lia. injection E as <-.
  split; [| split].
  - unfold load_s16.
    rewrite (load_u8_insert_ne _ (off + 1) off) by lia.
    rewrite (load_u8_insert_eq m off) by lia. cbn.
    rewrite (load_u8_insert_eq _ (off + 1)) by (rewrite length_insert; lia). cbn.
    now rewrite s16_of_bytes.
  - now rewrite !length_insert.
  - intros off' N0 N1. now rewrite !load_u8_insert_ne by lia.
Qed.

Lemma load_s16_Some (m : list Z) off :
  0 <= off -> off + 1 < Z.of_nat (length m) ->
  exists v, load_s16 m off = Some v /\ - 2 ^ 15 <= v < 2 ^ 15.
Proof.
  intros H0 H1. unfold load_s16.
  destruct (load_u8_Some m off ltac:(lia)) as (b0 & _ & ->).
  destruct (load_u8_Some m (off + 1) ltac:(lia)) as (b1 & _ & ->). cbn.
  eexists; split; [reflexivity |].
  unfold s16, signed. change (2 ^ (16 - 1)) with 32768. change (2 ^ 15) with 32768.
  assert (H := Z.mod_pos_bound (u8 b0 + 256 * u8 b1 + 32768) (2 ^ 16) ltac:(lia)).
  change (2 ^ 16) with 65536 in *. lia.
Qed.

(** A 16-bit load depends only on its two bytes. *)
Lemma load_s16_ext (m m' : list Z) off :
  load_u8 m' off = load_u8 m off -> load_u8 m' (off + 1) = load_u8 m (off + 1) ->
  load_s16 m' off = load_s16 m off.
Proof. intros E0 E1. unfold load_s16. now rewrite E0, E1. Qed.

End MemFacts.

(** The loop rule for a [for_each] that is known to complete: an invariant
    kept by every turn that completes holds at the end. *)
Lemma for_each_done_inv {S} (P : Z -> S -> Prop) (body : Z -> S -> outcome S) :
  forall (n : nat) (i : Z) (s s' : S),
    for_each n i body s = Done s' ->
    P i s ->
    (forall k s s1, i <= k < i + Z.of_nat n -> P k s -> body k s = Done s1 -> P (k + 1) s1) ->
    P (i + Z.of_nat n) s'.
Proof.
  induction n as [|n IH]; intros i s s' E Hi Hstep.
  - cbn in E. injection E as <-. now replace (i + Z.of_nat 0) with i by lia.
  - cbn [for_each] in E. destruct (body i s) as [s1| |] eqn:E1; try discriminate.
    replace (i + Z.of_nat (Datatypes.S n)) with (i + 1 + Z.of_nat n) by lia.
    apply (IH (i + 1) s1 s' E).
    + apply (Hstep i s s1); [lia | exact Hi | exact E1].
    + intros k t t1 Hk. apply Hstep. lia.
Qed.

(** The plan that [init_InterpInfo] leaves holds, at each index, the entry
    computed for that index. *)
Lemma init_InterpInfo_entries (libc : Libc) (input output out' : RawTimelineValuesBuf) (st : Z) :
  nr_of_channels input = 8 ->
  1 <= nr_of_samples output ->
  init_InterpInfo libc input output = Done (st, out') ->
  st = 0
  /\ exists plan,
      prepared_data_src out' = Some plan
      /\ Z.of_nat (length plan) = nr_of_samples output
      /\ forall i, 0 <= i < nr_of_samples output ->
           exists e, plan !! Z.to_nat i = Some e
                     /\ interp_entry (nr_of_samples input) (nr_of_samples output) i = Done e.
Proof.
  intros Hc Hn. unfold init_InterpInfo. rewrite Hc. cbn [negb Z.eqb Pos.eqb].
  set (n := nr_of_samples output) in *.
  set (body := fun (i : Z) (arr : option (list SampleInterpInfo)) => _).
  destruct (for_each (trips 0 n) 0 body _) as [arr| |] eqn:E; try discriminate.
  cbn [mbind outcome_mbind outcome_bind mret outcome_mret].
  intros H; injection H as <- <-. split; [reflexivity |].
  set (P := fun (k : Z) (arr : option (list SampleInterpInfo)) =>
    match arr with
    | Some a =>
        Z.of_nat (length a) = n
        /\ forall i, 0 <= i < k ->
             exists e, a !! Z.to_nat i = Some e
                       /\ interp_entry (nr_of_samples input) n i = Done e
    | None => k = 0
    end).
  assert (HP : P (0 + Z.of_nat (trips 0 n)) arr).
  { apply (for_each_done_inv P body _ _ _ _ E).
    - unfold P. destruct (malloc libc (n * 12)) as [blk|]; cbn [fmap option_fmap option_map].
      + split; [rewrite length_replicate; lia | intros; lia].
      + reflexivity.
    - intros k a a1 Hk HPk. subst body. cbn beta.
      destruct a as [a|]; cbn [access mbind outcome_mbind outcome_bind]; [| discriminate].
      destruct (interp_entry (nr_of_samples input) n k) as [e| |] eqn:Ee; try discriminate.
      cbn [mbind outcome_mbind outcome_bind mret outcome_mret].
      intros H; injection H as <-. destruct HPk as [Hl Hent].
      unfold trips in Hk.
      split; [rewrite length_insert; exact Hl |].
      intros i Hi. destruct (Z.eq_dec i k) as [->|Hne].
      + exists e. split; [apply list_lookup_insert_eq; lia | exact Ee].
      + destruct (Hent i ltac:(lia)) as (e' & He' & Hi').
        exists e'. split; [| exact Hi'].
        rewrite list_lookup_insert_ne by lia. exact He'. }
  unfold trips in HP. replace (0 + Z.of_nat (Z.to_nat (n - 0))) with n in HP by lia.
  destruct arr as [a|]; cbn in HP; [| lia].
  exists a. split; [reflexivity |]. exact HP.
Qed.

(* ===================================================================== *)
(** ** Interpolation at fraction zero *)

Lemma zrange_complete n : forall lo v, lo <= v < lo + Z.of_nat n -> In v (zrange n lo).
Proof.
  induction n as [|n IH]; intros lo v H; [lia |].
  cbn [zrange]. destruct (Z.eq_dec v lo) as [->|Hne]; [now left | right].
  apply IH. lia.
Qed.

Lemma int16_values_complete v : - 2 ^ 15 <= v < 2 ^ 15 -> In v int16_values.
Proof.
  intros H. change (2 ^ 15) with 32768 in H.
  apply zrange_complete. lia.
Qed.

(** Checked on all 65536 values: with fraction zero the first term of the
    interpolation is the sample itself, the second a zero of either sign,
    and rounding and conversion give the sample back. *)
Lemma interp_first_term_check :
  forallb (fun v =>
    forallb (fun s =>
      match D.to_s16 (D.round (D.add (D.mul (D.sub d_1 (S754_zero false)) (D.of_Z v))
                                     (S754_zero s))) with
      | Done r => r =? v
      | _ => false
      end) [true; false]) int16_values = true.
Proof. vm_compute. reflexivity. Qed.

Lemma interp_second_term_check :
  forallb (fun v =>
    match D.mul (S754_zero false) (D.of_Z v) with
    | S754_zero _ => true
    | _ => false
    end) int16_values = true.
Proof. vm_compute. reflexivity. Qed.

Lemma interp_s16_frac0 v0 v1 :
  - 2 ^ 15 <= v0 < 2 ^ 15 -> - 2 ^ 15 <= v1 < 2 ^ 15 ->
  interp_s16 (S754_zero false) v0 v1 = Done v0.
Proof.
  intros H0 H1. unfold interp_s16.
  pose proof (proj1 (forallb_forall _ _) interp_second_term_check v1
                (int16_values_complete v1 H1)) as E1.
  cbn beta in E1. revert E1.
  destruct (D.mul (S754_zero false) (D.of_Z v1)) as [s| | |]; intros E1;
    try discriminate E1.
  pose proof (proj1 (forallb_forall _ _) interp_first_term_check v0
                (int16_values_complete v0 H0)) as E0.
  cbn [forallb] in E0.
  apply andb_prop in E0 as [Et E0]. apply andb_prop in E0 as [Ef _].
  destruct s; [clear Ef; rename Et into E | clear Et; rename Ef into E];
    revert E; (destruct (D.to_s16 _) as [r| |]; intros E; [| discriminate E | discriminate E]);
    apply Z.eqb_eq in E; now subst.
Qed.

(* ===================================================================== *)
(** ** Rounding of binary64 results *)

Module Round64.

Lemma digits2_bounds p :
  2 ^ (Z.pos (digits2_pos p) - 1) <= Z.pos p < 2 ^ Z.pos (digits2_pos p).
Proof.
  induction p as [p IH|p IH|]; cbn [digits2_pos].
  - rewrite Pos2Z.inj_succ.
    replace (Z.succ (Z.pos (digits2_pos p)) - 1) with (Z.succ (Z.pos (digits2_pos p) - 1))
      by lia.
    rewrite !Z.pow_succ_r by lia. lia.
  - rewrite Pos2Z.inj_succ.
    replace (Z.succ (Z.pos (digits2_pos p)) - 1) with (Z.succ (Z.pos (digits2_pos p) - 1))
      by lia.
    rewrite !Z.pow_succ_r by lia. lia.
  - cbn. lia.
Qed.

(** The number of digits is fixed by the binade. *)
Lemma digits2_unique p d :
  0 < d -> 2 ^ (d - 1) <= Z.pos p < 2 ^ d -> Z.pos (digits2_pos p) = d.
Proof.
  intros Hd [Hlo Hhi]. destruct (digits2_bounds p) as [Blo Bhi].
  assert (H1 : d - 1 < Z.pos (digits2_pos p)).
  { apply (Z.pow_lt_mono_r_iff 2); lia. }
  assert (H2 : Z.pos (digits2_pos p) - 1 < d).
  { apply (Z.pow_lt_mono_r_iff 2); lia. }
  lia.
Qed.

Lemma shr_m_of_loc m l : shr_m (shr_record_of_loc m l) = m.
Proof. now destruct l as [|[]]. Qed.

Lemma loc_of_shr_of_loc m l : loc_of_shr_record (shr_record_of_loc m l) = l.
Proof. now destruct l as [|[]]. Qed.

Lemma shr_1_m r : 0 <= shr_m r -> shr_m (shr_1 r) = shr_m r / 2.
Proof.
  destruct r as [m r s]; cbn [shr_m shr_1]. intros H.
  destruct m as [|[p|p|]|p]; cbn [shr_m]; try lia;
    symmetry; Z.div_mod_to_equations; lia.
Qed.

Lemma iter_shr_1_m n : forall r,
  0 <= shr_m r -> shr_m (SpecFloat.iter_pos shr_1 n r) = shr_m r / 2 ^ Z.pos n.
Proof.
  induction n as [n IH|n IH|]; intros r H; cbn [SpecFloat.iter_pos].
  - assert (H1 : 0 <= shr_m (shr_1 r)) by (rewrite shr_1_m by lia; apply Z.div_pos; lia).
    assert (H2 : 0 <= shr_m (SpecFloat.iter_pos shr_1 n (shr_1 r)))
      by (rewrite IH by lia; apply Z.div_pos; lia).
    assert (E : 2 ^ Z.pos n~1 = 2 * 2 ^ Z.pos n * 2 ^ Z.pos n).
    { rewrite (Pos2Z.inj_xI n).
      replace (2 * Z.pos n + 1) with (1 + Z.pos n + Z.pos n) by lia.
      rewrite !Z.pow_add_r, Z.pow_1_r by lia. reflexivity. }
    assert (Hp : 0 < 2 ^ Z.pos n) by (apply Z.pow_pos_nonneg; lia).
    rewrite IH, IH, shr_1_m, E by lia.
    rewrite !Z.div_div by lia. f_equal. lia.
  - assert (H2 : 0 <= shr_m (SpecFloat.iter_pos shr_1 n r))
      by (rewrite IH by lia; apply Z.div_pos; lia).
    assert (E : 2 ^ Z.pos n~0 = 2 ^ Z.pos n * 2 ^ Z.pos n).
    { rewrite (Pos2Z.inj_xO n).
      replace (2 * Z.pos n) with (Z.pos n + Z.pos n) by lia.
      apply Z.pow_add_r; lia. }
    assert (Hp : 0 < 2 ^ Z.pos n) by (apply Z.pow_pos_nonneg; lia).
    rewrite IH, IH, E by lia.
    rewrite !Z.div_div by lia. f_equal.
  - rewrite shr_1_m by lia. now rewrite Z.pow_1_r.
Qed.

Lemma round_nearest_even_bounds m l :
  m <= round_nearest_even m l <= m + 1.
Proof. destruct l as [|[]]; cbn; try destruct (Z.even m); lia. Qed.

(** Shifting a mantissa of at least 53 digits down to 53 digits. *)
Lemma shr_fexp_normal (q : positive) (e : Z) (l : location) :
  53 <= Z.pos (digits2_pos q) ->
  -1074 <= e + (Z.pos (digits2_pos q) - 53) ->
  exists mrs,
    shr_fexp 53 1024 (Z.pos q) e l = (mrs, e + (Z.pos (digits2_pos q) - 53))
    /\ 2 ^ 52 <= shr_m mrs < 2 ^ 53.
Proof.
  intros Hd He. destruct (digits2_bounds q) as [Blo Bhi].
  set (d := Z.pos (digits2_pos q)) in *.
  unfold shr_fexp, fexp, emin. cbn [Zdigits2]. fold d.
  replace (Z.max (d + e - 53) (3 - 1024 - 53) - e) with (d - 53) by lia.
  destruct (d - 53) as [|n|n] eqn:En; try lia.
  - cbn [shr]. eexists. split; [now rewrite Z.add_0_r |].
    rewrite shr_m_of_loc. replace d with 53 in * by lia. lia.
  - cbn [shr]. eexists. split; [reflexivity |].
    rewrite iter_shr_1_m by (rewrite shr_m_of_loc; lia).
    rewrite shr_m_of_loc.
    assert (Hp : 0 < 2 ^ Z.pos n) by (apply Z.pow_pos_nonneg; lia).
    assert (E1 : 2 ^ (d - 1) = 2 ^ 52 * 2 ^ Z.pos n)
      by (rewrite <- Z.pow_add_r by lia; f_equal; lia).
    assert (E2 : 2 ^ d = 2 ^ 53 * 2 ^ Z.pos n)
      by (rewrite <- Z.pow_add_r by lia; f_equal; lia).
    split.
    + apply Z.div_le_lower_bound; lia.
    + apply Z.div_lt_upper_bound; lia.
Qed.

(** Rounding a positive mantissa of at least 53 digits, away from the
    subnormal and the overflow range, gives a normal double whose exponent
    is the shifted one, or one more. *)
Lemma binary_round_aux_normal (q : positive) (e : Z) (l : location) :
  53 <= Z.pos (digits2_pos q) ->
  -1074 <= e + (Z.pos (digits2_pos q) - 53) ->
  e + (Z.pos (digits2_pos q) - 53) + 1 <= 971 ->
  exists m2 e2,
    binary_round_aux 53 1024 false (Z.pos q) e l = S754_finite false m2 e2
    /\ Z.pos (digits2_pos m2) = 53
    /\ e + (Z.pos (digits2_pos q) - 53) <= e2 <= e + (Z.pos (digits2_pos q) - 53) + 1.
Proof.
  intros Hd Hlo Hhi.
  destruct (shr_fexp_normal q e l Hd Hlo) as (mrs1 & E1 & B1).
  set (e1 := e + (Z.pos (digits2_pos q) - 53)) in *.
  unfold binary_round_aux. rewrite E1.
  pose proof (round_nearest_even_bounds (shr_m mrs1) (loc_of_shr_record mrs1)) as Br.
  destruct (round_nearest_even (shr_m mrs1) (loc_of_shr_record mrs1)) as [|p1|p1] eqn:Ep;
    try lia.
  assert (Hd1 : 53 <= Z.pos (digits2_pos p1) <= 54).
  { destruct (digits2_bounds p1) as [Blo Bhi].
    split.
    - assert (52 < Z.pos (digits2_pos p1)); [| lia].
      apply (Z.pow_lt_mono_r_iff 2); lia.
    - assert (Z.pos (digits2_pos p1) - 1 < 54); [| lia].
      apply (Z.pow_lt_mono_r_iff 2); lia. }
  destruct (shr_fexp_normal p1 e1 loc_Exact) as (mrs2 & E2 & B2); [lia | lia |].
  rewrite E2.
  destruct (shr_m mrs2) as [|m2|m2] eqn:Em; try lia.
  replace (e1 + (Z.pos (digits2_pos p1) - 53) <=? 1024 - 53) with true
    by (symmetry; apply Z.leb_le; lia).
  exists m2, (e1 + (Z.pos (digits2_pos p1) - 53)).
  split; [reflexivity |]. split; [| lia].
  apply digits2_unique; [lia | exact B2].
Qed.

Lemma digits2_iter_xO p k :
  Z.pos (digits2_pos (Pos.iter xO p k)) = Z.pos (digits2_pos p) + Z.pos k.
Proof.
  induction k as [|k IH] using Pos.peano_ind.
  - cbn. lia.
  - rewrite Pos.iter_succ. cbn [digits2_pos]. lia.
Qed.

Lemma normal_weaken lo hi lo' hi' x :
  lo' <= lo -> hi <= hi' -> normal lo hi x -> normal lo' hi' x.
Proof. intros H1 H2 (m & e & -> & D & B). exists m, e. repeat split; lia. Qed.

Lemma of_Z_normal n : 0 < n < 2 ^ 32 -> normal (-52) (-20) (D.of_Z n).
Proof.
  intros Hn. destruct n as [|p|p]; try lia.
  destruct (digits2_bounds p) as [Blo Bhi].
  assert (Hd : Z.pos (digits2_pos p) <= 32).
  { assert (Z.pos (digits2_pos p) - 1 < 32); [| lia].
    apply (Z.pow_lt_mono_r_iff 2); lia. }
  unfold D.of_Z, fl_of_Z, binary_normalize, binary_round, shl_align, fexp, emin.
  change D.prec with 53. change D.emax with 1024.
  replace (Z.max (Z.pos (digits2_pos p) + 0 - 53) (3 - 1024 - 53) - 0)
    with (Z.pos (digits2_pos p) - 53) by lia.
  destruct (Z.pos (digits2_pos p) - 53) as [|k|k] eqn:Ek; try lia.
  pose proof (digits2_iter_xO p k) as Dk.
  destruct (binary_round_aux_normal (Pos.iter xO p k)
              (Z.max (Z.pos (digits2_pos p) + 0 - 53) (3 - 1024 - 53)) loc_Exact)
    as (m2 & e2 & E & D2 & B2); try lia.
  rewrite E. exists m2, e2. repeat split; lia.
Qed.

Lemma mul_normal m1 e1 m2 e2 :
  Z.pos (digits2_pos m1) = 53 -> Z.pos (digits2_pos m2) = 53 ->
  -1074 <= e1 + e2 + 52 -> e1 + e2 + 54 <= 971 ->
  normal (e1 + e2 + 52) (e1 + e2 + 54)
    (D.mul (S754_finite false m1 e1) (S754_finite false m2 e2)).
Proof.
  intros D1 D2 Hlo Hhi.
  destruct (digits2_bounds m1) as [B1 B1']. destruct (digits2_bounds m2) as [B2 B2'].
  rewrite D1 in *. rewrite D2 in *.
  assert (Hd : 105 <= Z.pos (digits2_pos (m1 * m2)) <= 106).
  { destruct (digits2_bounds (m1 * m2)) as [Blo Bhi].
    rewrite Pos2Z.inj_mul in *.
    assert (L : 2 ^ 104 <= Z.pos m1 * Z.pos m2).
    { change (2 ^ 104) with (2 ^ (53 - 1) * 2 ^ (53 - 1)). apply Z.mul_le_mono_nonneg; lia. }
    assert (U : Z.pos m1 * Z.pos m2 < 2 ^ 106).
    { change (2 ^ 106) with (2 ^ 53 * 2 ^ 53). apply Z.mul_lt_mono_nonneg; lia. }
    split.
    - assert (104 < Z.pos (digits2_pos (m1 * m2))); [| lia].
      apply (Z.pow_lt_mono_r_iff 2); lia.
    - assert (Z.pos (digits2_pos (m1 * m2)) - 1 < 106); [| lia].
      apply (Z.pow_lt_mono_r_iff 2); lia. }
  unfold D.mul, SFmul. cbn [xorb].
  change D.prec with 53. change D.emax with 1024.
  destruct (binary_round_aux_normal (m1 * m2) (e1 + e2) loc_Exact)
    as (m & e & E & Dm & B); try lia.
  rewrite E. exists m, e. repeat split; lia.
Qed.

Lemma div_normal m1 e1 m2 e2 :
  Z.pos (digits2_pos m1) = 53 -> Z.pos (digits2_pos m2) = 53 ->
  -1074 <= e1 - e2 - 53 -> e1 - e2 - 51 <= 971 ->
  exists m e,
    D.div (S754_finite false m1 e1) (S754_finite false m2 e2) = S754_finite false m e
    /\ Z.pos (digits2_pos m) = 53
    /\ e1 - e2 - 53 <= e <= e1 - e2 - 51
    /\ (Z.pos m2 <= Z.pos m1 -> e1 - e2 - 52 <= e).
Proof.
  intros D1 D2 Hlo Hhi.
  destruct (digits2_bounds m1) as [B1 B1']. destruct (digits2_bounds m2) as [B2 B2'].
  rewrite D1 in B1, B1'. rewrite D2 in B2, B2'.
  change (2 ^ (53 - 1)) with 4503599627370496 in *.
  change (2 ^ 53) with 9007199254740992 in *.
  unfold D.div, SFdiv, SFdiv_core_binary, fexp, emin. cbn [xorb Zdigits2].
  change D.prec with 53. change D.emax with 1024.
  rewrite D1, D2.
  replace (Z.min (Z.max (53 + e1 - (53 + e2) - 53) (3 - 1024 - 53)) (e1 - e2))
    with (e1 - e2 - 53) by lia.
  replace (e1 - e2 - (e1 - e2 - 53)) with 53 by lia.
  rewrite Z.shiftl_mul_pow2 by lia.
  change (2 ^ 53) with 9007199254740992.
  pose proof (Z_div_mod (Z.pos m1 * 9007199254740992) (Z.pos m2) ltac:(lia)) as Hdm.
  destruct (Z.div_eucl (Z.pos m1 * 9007199254740992) (Z.pos m2)) as [q r].
  destruct Hdm as [Hq Hr].
  assert (Q1 : 4503599627370496 <= q) by nia.
  assert (Q2 : q < 18014398509481984) by nia.
  destruct q as [|q|q]; try lia.
  assert (Hd : 53 <= Z.pos (digits2_pos q) <= 54).
  { destruct (digits2_bounds q) as [Blo Bhi].
    split.
    - assert (52 < Z.pos (digits2_pos q)); [| lia].
      apply (Z.pow_lt_mono_r_iff 2); lia.
    - assert (Z.pos (digits2_pos q) - 1 < 54); [| lia].
      apply (Z.pow_lt_mono_r_iff 2); lia. }
  destruct (binary_round_aux_normal q (e1 - e2 - 53) (new_location (Z.pos m2) r))
    as (m & e & E & Dm & B); try lia.
  rewrite E. exists m, e. split; [reflexivity |]. split; [exact Dm |].
  split; [lia |].
  intros Hge.
  assert (Q3 : 9007199254740992 <= Z.pos q) by nia.
  assert (53 < Z.pos (digits2_pos q)); [| lia].
  apply (Z.pow_lt_mono_r_iff 2); try lia.
  destruct (digits2_bounds q) as [Blo Bhi]. lia.
Qed.

End Round64.

(* ===================================================================== *)
(** ** Engineering units *)

Module Engineering.
Import Round64.

Lemma d_1000_eq : d_1000 = S754_finite false m1000 (-43).
Proof. reflexivity. Qed.

Lemma d_1_eq : d_1 = S754_finite false 4503599627370496 (-52).
Proof. reflexivity. Qed.

Lemma SFcompare_pos m1 e1 m2 e2 :
  SFcompare (S754_finite false m1 e1) (S754_finite false m2 e2)
  = Some (match e1 ?= e2 with
          | Lt => Lt
          | Gt => Gt
          | Eq => Z.pos m1 ?= Z.pos m2
          end).
Proof. reflexivity. Qed.

Lemma geb_1_normal m e :
  Z.pos (digits2_pos m) = 53 ->
  D.geb (S754_finite false m e) d_1 = true <-> -52 <= e.
Proof.
  intros Dm. destruct (digits2_bounds m) as [Blo _]. rewrite Dm in Blo.
  change (2 ^ (53 - 1)) with 4503599627370496 in Blo.
  rewrite d_1_eq. unfold D.geb, SFleb. rewrite SFcompare_pos.
  destruct (Z.compare_spec (-52) e) as [E|E|E].
  - destruct (Z.compare_spec 4503599627370496 (Z.pos m)) as [P|P|P];
      split; intros; try reflexivity; lia.
  - split; intros; [lia | reflexivity].
  - split; intros; [discriminate | lia].
Qed.

Lemma geb_1000_normal m e :
  D.geb (S754_finite false m e) d_1000 = true ->
  -43 <= e /\ (e = -43 -> Z.pos m1000 <= Z.pos m).
Proof.
  rewrite d_1000_eq. unfold D.geb, SFleb. rewrite SFcompare_pos.
  destruct (Z.compare_spec (-43) e) as [E|E|E]; intros H.
  - destruct (Z.compare_spec (Z.pos m1000) (Z.pos m)) as [P|P|P];
      try discriminate; split; intros; lia.
  - split; intros; lia.
  - discriminate.
Qed.

Lemma not_geb_1000_ltb m e :
  D.geb (S754_finite false m e) d_1000 = false ->
  D.ltb (S754_finite false m e) d_1000 = true.
Proof.
  rewrite d_1000_eq. unfold D.geb, D.ltb, SFleb, SFltb. rewrite !SFcompare_pos.
  rewrite (Z.compare_antisym e (-43)), (Z.compare_antisym (Z.pos m) (Z.pos m1000)).
  destruct (e ?= -43); cbn [CompOpp]; intros H; try discriminate; try reflexivity.
  destruct (Z.pos m ?= Z.pos m1000); cbn [CompOpp] in *; try discriminate; reflexivity.
Qed.

(** Dividing a normal double that is at least 1000 by 1000 gives a normal
    double that is at least 1. *)
Lemma div_1000_normal m e :
  Z.pos (digits2_pos m) = 53 -> e <= 971 ->
  D.geb (S754_finite false m e) d_1000 = true ->
  normal (-52) 971 (D.div (S754_finite false m e) d_1000).
Proof.
  intros Dm He Hge. destruct (geb_1000_normal m e Hge) as [H43 Hm].
  rewrite d_1000_eq.
  destruct (div_normal m e m1000 (-43) Dm eq_refl ltac:(lia) ltac:(lia))
    as (m' & e' & E & Dm' & B & Bm).
  rewrite E. exists m', e'. split; [reflexivity |]. split; [exact Dm' |].
  destruct (Z.eq_dec e (-43)) as [->|Hne]; [specialize (Bm (Hm eq_refl)) |]; lia.
Qed.

(** Checked for each of the 256 exponents: [pow10 e] is a normal double. *)
Lemma pow10_check :
  forallb (fun e =>
    match pow10 e with
    | S754_finite false m ex =>
        (Z.pos (digits2_pos m) =? 53) && (-478 <=? ex) && (ex <=? 370)
    | _ => false
    end) (zrange 256 (-128)) = true.
Proof. vm_compute. reflexivity. Qed.

Lemma pow10_normal e : -128 <= e < 128 -> normal (-478) 370 (pow10 e).
Proof.
  intros He.
  pose proof (proj1 (forallb_forall _ _) pow10_check e
                (zrange_complete 256 (-128) e ltac:(lia))) as H.
  cbn beta in H.
  destruct (pow10 e) as [|s| |[] m ex]; try discriminate.
  apply andb_prop in H as [H H3]. apply andb_prop in H as [H1 H2].
  exists m, ex. repeat split; lia.
Qed.

Lemma raw_frequency_normal buf :
  1 <= time_step buf < 2 ^ 32 -> -128 <= time_exponent buf < 128 ->
  normal (-509) 375 (raw_frequency buf).
Proof.
  intros Hs He. unfold raw_frequency.
  destruct (of_Z_normal (time_step buf) ltac:(lia)) as (m1 & e1 & -> & D1 & B1).
  destruct (pow10_normal (time_exponent buf) He) as (m2 & e2 & -> & D2 & B2).
  destruct (mul_normal m1 e1 m2 e2 D1 D2 ltac:(lia) ltac:(lia)) as (m3 & e3 & -> & D3 & B3).
  rewrite d_1_eq.
  destruct (div_normal 4503599627370496 (-52) m3 e3 eq_refl D3 ltac:(lia) ltac:(lia))
    as (m & e & -> & Dm & B & _).
  exists m, e. repeat split; lia.
Qed.

(** The loop: it stops below 1000 or at index 5, it keeps a value that is
    at least 1 at least 1, and it leaves a value below 1000 alone. *)
Lemma engineering_scale_spec : forall (fuel : nat) (x : spec_float) (idx : Z),
  0 <= idx <= 5 -> 5 - idx <= Z.of_nat fuel ->
  normal (-1074) 971 x ->
  exists (m : spec_float) (k : nat),
    engineering_scale fuel x idx = (m, idx + Z.of_nat k)
    /\ idx + Z.of_nat k <= 5
    /\ m = Nat.iter k div_1000 x
    /\ normal (-1074) 971 m
    /\ (idx + Z.of_nat k = 5 \/ D.ltb m d_1000 = true)
    /\ (D.geb x d_1 = true -> D.geb m d_1 = true)
    /\ (D.geb x d_1000 = false -> m = x /\ k = 0%nat).
Proof.
  induction fuel as [|fuel IH]; intros x idx Hidx Hfuel Hx.
  - exists x, 0%nat. cbn [engineering_scale Nat.iter]. rewrite Z.add_0_r.
    split; [reflexivity |]. split; [lia |]. split; [reflexivity |].
    split; [exact Hx |]. split; [left; lia |].
    split; [tauto | intros; split; reflexivity].
  - cbn [engineering_scale].
    destruct Hx as (mx & ex & -> & Dx & Bx).
    assert (Hx : normal (-1074) 971 (S754_finite false mx ex))
      by (exists mx, ex; repeat split; lia).
    destruct (D.geb (S754_finite false mx ex) d_1000) eqn:Hge; cbn [andb].
    + destruct (idx <? 5) eqn:Hlt.
      * apply Z.ltb_lt in Hlt.
        pose proof (div_1000_normal mx ex Dx ltac:(lia) Hge) as Hy.
        destruct (IH (D.div (S754_finite false mx ex) d_1000) (idx + 1)
                    ltac:(lia) ltac:(lia) (normal_weaken (-52) 971 (-1074) 971 _ ltac:(lia) ltac:(lia) Hy))
          as (m & k & E & Hk & Hm & Nm & Hexit & Hlow & _).
        exists m, (Datatypes.S k).
        replace (idx + Z.of_nat (Datatypes.S k)) with (idx + 1 + Z.of_nat k) by lia.
        split; [exact E |]. split; [lia |].
        split; [rewrite Nat.iter_succ_r; exact Hm |].
        split; [exact Nm |]. split; [exact Hexit |].
        split; [| intros; discriminate].
        intros _. apply Hlow.
        destruct Hy as (my & ey & -> & Dy & By). apply geb_1_normal; [exact Dy | lia].
      * apply Z.ltb_ge in Hlt.
        exists (S754_finite false mx ex), 0%nat. cbn [Nat.iter]. rewrite Z.add_0_r.
        split; [reflexivity |]. split; [lia |]. split; [reflexivity |].
        split; [exact Hx |]. split; [left; lia |].
        split; [tauto | intros; discriminate].
    + exists (S754_finite false mx ex), 0%nat. cbn [Nat.iter]. rewrite Z.add_0_r.
      split; [reflexivity |]. split; [lia |]. split; [reflexivity |].
      split; [exact Hx |]. split; [right; now apply not_geb_1000_ltb |].
      split; [tauto | intros; split; reflexivity].
Qed.

End Engineering.

(* ===================================================================== *)
(** ** Backend registry *)

Lemma setBackend_out_of_range index g :
  2 <= index -> setBackend index g = (-1, g).
Proof.
  intros H. unfold setBackend.
  destruct (1 <? index) eqn:E; [reflexivity | apply Z.ltb_ge in E; lia].
Qed.

(** C7. [getBackendsCount] is 2; [setBackend 0] installs the scalar table and
    [setBackend 1] the SIMD table, whatever was active; for an index from 2
    to 255 the status is -1 (not zero) and the active table stays as it
    was. *)
Theorem setBackend_selects_C7 (index : Z) (g : backend_ptr) :
  2 <= index < 256 ->
  getBackendsCount = 2
  /\ setBackend 0 g = (0, ptr_C)
  /\ setBackend 1 g = (0, ptr_SIMD)
  /\ deref ptr_C = gTimelineBackendFunctionsC
  /\ deref ptr_SIMD = gTimelineBackendFunctionsSIMD
  /\ fst (setBackend index g) = -1
  /\ fst (setBackend index g) <> 0
  /\ snd (setBackend index g) = g.
Proof.
  intros [Hlo _].
  rewrite (setBackend_out_of_range index g Hlo); cbn.
  repeat split; discriminate.
Qed.

Lemma setBackend_selects_C7_witness :
  getBackendsCount = 2
  /\ setBackend 0 ptr_SIMD = (0, ptr_C)
  /\ setBackend 1 ptr_SIMD = (0, ptr_SIMD)
  /\ deref ptr_C = gTimelineBackendFunctionsC
  /\ deref ptr_SIMD = gTimelineBackendFunctionsSIMD
  /\ fst (setBackend 255 ptr_SIMD) = -1
  /\ fst (setBackend 255 ptr_SIMD) <> 0
  /\ snd (setBackend 255 ptr_SIMD) = ptr_SIMD.
Proof. apply (setBackend_selects_C7 255 ptr_SIMD); lia. Defined.

(* ===================================================================== *)
(** ** Buffer life cycle *)

Lemma free_released b :
  exists b', fst (free_RawTimelineValuesBuf (Some b)) = Some b' /\ released b'.
Proof. eexists; split; [reflexivity | repeat split]. Qed.

Lemma free_of_released b :
  released b -> free_RawTimelineValuesBuf (Some b) = (Some b, 0%nat).
Proof.
  destruct b; unfold released; cbn; intros (-> & -> & -> & ->); reflexivity.
Qed.

(** C10. After [free_RawTimelineValuesBuf] the three owned pointers are null
    and [nr_of_samples] is 0; a second call returns the same buffer and
    frees no block; [init_RawTimelineValuesBuf] establishes the same state,
    so freeing right after it changes nothing and frees no block. *)
Theorem free_idempotent_C10 (b : RawTimelineValuesBuf) :
  (exists b1,
      fst (free_RawTimelineValuesBuf (Some b)) = Some b1
      /\ released b1
      /\ free_RawTimelineValuesBuf (Some b1) = (Some b1, 0%nat))
  /\ (exists b0,
      init_RawTimelineValuesBuf (Some b) = Some b0
      /\ released b0
      /\ free_RawTimelineValuesBuf (Some b0) = (Some b0, 0%nat)).
Proof.
  split.
  - destruct (free_released b) as (b1 & E & R).
    exists b1; repeat split; try apply R; [exact E | now apply free_of_released].
  - eexists; split; [reflexivity |].
    assert (R : released
      {| buffer_size := 0; nr_of_samples := 0; time_step := 0;
         total_time_sec := total_time_sec b; time_exponent := 0;
         nr_of_channels := 0; bitwidth := 0; bytes_per_sample := 0;
         value_type := TR_undefined; valueBuffer := None;
         sample_rate_info := None; prepared_data_src := None |})
      by (repeat split).
    split; [exact R | now apply free_of_released].
Qed.

(* ===================================================================== *)
(** ** Allocation *)

Lemma alloc_fields libc b n ch bw al vt b' :
  alloc_RawTimelineValuesBuf libc (Some b) n ch bw al vt = Done (Some b') ->
  nr_of_samples b' = n /\ nr_of_channels b' = ch /\ bitwidth b' = bw
  /\ value_type b' = vt
  /\ bytes_per_sample b' = u8 ((ch * bw + 7) / 8)
  /\ buffer_size b' = u32 (u32 (n * ch) * u8 ((ch * bw + 7) / 8))
  /\ valueBuffer b' = alloc_raw_aligned libc (buffer_size b') al.
Proof.
  unfold alloc_RawTimelineValuesBuf.
  destruct (alloc_raw_aligned _ _ _) as [block|] eqn:E; [| discriminate].
  intros H; injection H as <-; cbn. rewrite E. repeat split.
Qed.

(** Whatever the stride, a bin ends at or before the end of the window, and
    is not empty unless the clamp to the window's end cut it. *)
Lemma bin_bounds_clamped in_samples out_samples inOffset i start end_ :
  bin_bounds in_samples out_samples inOffset i = Done (start, end_) ->
  end_ <= u32 (inOffset + in_samples)
  /\ (start < end_ \/ end_ = u32 (inOffset + in_samples) \/ start = UINT32_MAX).
Proof.
  unfold bin_bounds.
  destruct (F.to_u32 (F.floorf (F.mul (F.of_Z i) _))) as [s| |]; try discriminate.
  destruct (F.to_u32 (F.floorf (F.mul (F.of_Z (u32 (i + 1))) _))) as [e| |];
    try discriminate.
  cbn. intros H; injection H as <- <-.
  set (st := u32 (inOffset + s)). set (lim := u32 (inOffset + in_samples)).
  assert (Hst : 0 <= st < 2 ^ 32) by (apply Z.mod_pos_bound; lia).
  set (e1 := if u32 (inOffset + e) <=? st then u32 (st + 1) else u32 (inOffset + e)).
  assert (He1 : st < e1 \/ st = UINT32_MAX).
  { subst e1. destruct (u32 (inOffset + e) <=? st) eqn:E.
    - destruct (Z.eq_dec st UINT32_MAX) as [->|Hne]; [now right | left].
      unfold u32, UINT32_MAX in *. rewrite Z.mod_small; lia.
    - apply Z.leb_gt in E. now left. }
  destruct (lim <? e1) eqn:E.
  - split; [lia | right; now left].
  - apply Z.ltb_ge in E. split; [lia | destruct He1; [now left | right; now right]].
Qed.

Lemma bin_bounds_clamped_witness :
  10 <= u32 (0 + 20) /\ (5 < 10 \/ 10 = u32 (0 + 20) \/ 5 = UINT32_MAX).
Proof. apply (bin_bounds_clamped 20 4 0 1 5 10). vm_compute. reflexivity. Defined.

(** C4 as stated fails on its literal values: the second bin holds
    -1, 8, 0, -8, 3, whose minimum is -8, so [outMin] is not
    [-5, -1, -9, -7]. *)
Lemma aggregate_MinMax_scenario_C4_counterexample :
  exists mn mx mn' mx',
    prepare_AggregationMinMax zero_libc (Some s4_input) (Some blank) (Some blank) 4
      = Done (0, Some mn, Some mx)
    /\ aggregate_MinMax ptr_C (Some s4_input) (Some mn) (Some mx) 20 0
      = Done (0, Some mn', Some mx')
    /\ channel_s8 mn' 0 <> read_ok [-5; -1; -9; -7]
    /\ slice 5 10 s4_values = [-1; 8; 0; -8; 3].
Proof.
  do 4 eexists.
  split; [vm_compute; reflexivity |].
  split; [vm_compute; reflexivity |].
  split; [vm_compute; discriminate | reflexivity].
Qed.

(* ===================================================================== *)
(** ** The Bresenham kernel *)

(** The inner loop of the kernel at fraction zero copies the 8 lanes of
    input frame [i0] to output frame [i], and touches no other byte. *)
Lemma bresenham_frame_copy (src dst : list Z) (i0 i1 i : Z) :
  0 <= i0 < 2 ^ 28 -> 0 <= i1 < 2 ^ 28 -> 0 <= i < 2 ^ 28 ->
  16 * (i0 + 1) <= Z.of_nat (length src) ->
  16 * (i1 + 1) <= Z.of_nat (length src) ->
  16 * (i + 1) <= Z.of_nat (length dst) ->
  exists dst',
    for_each (trips 0 8) 0 (fun j dst =>
      v0 ← Mem.get_s16 (Some src) (u32 (u32 (i0 * 8) + j));
      v1 ← Mem.get_s16 (Some src) (u32 (u32 (i1 * 8) + j));
      v ← interp_s16 (S754_zero false) v0 v1;
      Mem.put_s16 dst (u32 (u32 (i * 8) + j)) v) (Some dst) = Done (Some dst')
    /\ length dst' = length dst
    /\ (forall j, 0 <= j < 8 ->
          Mem.load_s16 dst' (2 * (i * 8 + j)) = Mem.load_s16 src (2 * (i0 * 8 + j)))
    /\ (forall off, off < 16 * i \/ 16 * (i + 1) <= off ->
          Mem.load_u8 dst' off = Mem.load_u8 dst off).
Proof.
  intros H0 H1 Hi L0 L1 Li.
  change (2 ^ 28) with 268435456 in *.
  set (body := fun (j : Z) (dst : option (list Z)) => _).
  set (P := fun (k : Z) (s : option (list Z)) =>
    exists d, s = Some d /\ length d = length dst
      /\ (forall j, 0 <= j < k ->
            Mem.load_s16 d (2 * (i * 8 + j)) = Mem.load_s16 src (2 * (i0 * 8 + j)))
      /\ (forall off, off < 16 * i \/ 16 * i + 2 * k <= off ->
            Mem.load_u8 d off = Mem.load_u8 dst off)).
  destruct (for_each_inv P body (trips 0 8) 0 (Some dst)) as (s' & E & d & -> & Ld & Hc & Hf).
  - exists dst. split; [reflexivity |]. split; [reflexivity |].
    split; [intros; lia | reflexivity].
  - intros k s Hk (d & -> & Ld & Hc & Hf).
    change (Z.of_nat (trips 0 8)) with 8 in Hk.
    assert (U0 : u32 (u32 (i0 * 8) + k) = i0 * 8 + k)
      by (rewrite (u32_small (i0 * 8)) by lia; apply u32_small; lia).
    assert (U1 : u32 (u32 (i1 * 8) + k) = i1 * 8 + k)
      by (rewrite (u32_small (i1 * 8)) by lia; apply u32_small; lia).
    assert (Ui : u32 (u32 (i * 8) + k) = i * 8 + k)
      by (rewrite (u32_small (i * 8)) by lia; apply u32_small; lia).
    destruct (MemFacts.load_s16_Some src (2 * (i0 * 8 + k))) as (v0 & E0 & R0); [lia | lia |].
    destruct (MemFacts.load_s16_Some src (2 * (i1 * 8 + k))) as (v1 & E1 & R1); [lia | lia |].
    assert (Es : Mem.store_16 d (2 * (i * 8 + k)) v0
                 = Some (<[Z.to_nat (2 * (i * 8 + k) + 1) := u8 (u16 v0 / 256)]>
                           (<[Z.to_nat (2 * (i * 8 + k)) := u8 v0]> d)))
      by (apply MemFacts.store_16_Some; lia).
    destruct (MemFacts.load_s16_store_16 d _ (2 * (i * 8 + k)) v0 R0 ltac:(lia) ltac:(lia) Es)
      as (Er & Ll & Hfr).
    eexists. split.
    + subst body. cbn beta. rewrite U0, U1, Ui.
      unfold Mem.get_s16, Mem.put_s16. cbn [access mbind outcome_mbind outcome_bind].
      rewrite E0, E1. cbn [access mbind outcome_mbind outcome_bind].
      rewrite (interp_s16_frac0 v0 v1 R0 R1). cbn [access mbind outcome_mbind outcome_bind].
      rewrite Es. reflexivity.
    + eexists. split; [reflexivity |]. split; [congruence |]. split.
      * intros j Hj. destruct (Z.eq_dec j k) as [->|Hne].
        -- now rewrite Er, E0.
        -- rewrite <- (Hc j) by lia.
           apply MemFacts.load_s16_ext; apply Hfr; lia.
      * intros off Ho. rewrite <- (Hf off) by lia. apply Hfr; lia.
  - exists d. split; [exact E |]. split; [exact Ld |]. split.
    + intros j Hj. apply Hc. change (Z.of_nat (trips 0 8)) with 8. lia.
    + intros off Ho. apply Hf. change (Z.of_nat (trips 0 8)) with 8. lia.
Qed.

Lemma set_valueBuffer_same b : set_valueBuffer (valueBuffer b) b = b.
Proof. now destruct b. Qed.

Lemma convert_sample_rate_SIMD (g : backend_ptr) (input output : RawTimelineValuesBuf) :
  value_type input = TR_SIMD_sint16x8 ->
  convert_sample_rate g (Some input) (Some output)
  = '(st, output) ← convert_sample_rate_SIMD_s16x8_bresenham input output;
    mret (st, Some output).
Proof.
  intros Hv. unfold convert_sample_rate. rewrite Hv.
  destruct (decide _) as [?|_]; [discriminate |].
  destruct (decide _) as [_|?]; [| congruence].
  now destruct g.
Qed.

(** C6, as the code has it. Sample-rate conversion has no check of the
    sample count: for an 8-channel [Simd_I16x8] source with fewer than 2
    samples and an output of the same sample count, [convert_sample_rate]
    returns 0. For an empty source nothing is written; for a source of one
    sample the 8 lanes of the output's only frame are those of the input's
    frame. *)
Theorem convert_sample_rate_short_input_C6
    (g : backend_ptr) (input output : RawTimelineValuesBuf) (src dst : list Z) :
  value_type input = TR_SIMD_sint16x8 ->
  nr_of_channels input = 8 ->
  valueBuffer input = Some src ->
  valueBuffer output = Some dst ->
  nr_of_samples output = nr_of_samples input ->
  nr_of_samples input = 0
  \/ (nr_of_samples input = 1 /\ (16 <= length src)%nat /\ (16 <= length dst)%nat) ->
  exists dst',
    convert_sample_rate g (Some input) (Some output)
    = Done (0, Some (set_valueBuffer (Some dst') output))
    /\ length dst' = length dst
    /\ (nr_of_samples input = 0 -> dst' = dst)
    /\ (nr_of_samples input = 1 ->
        forall j, 0 <= j < 8 -> Mem.load_s16 dst' (2 * j) = Mem.load_s16 src (2 * j)).
Proof.
  intros Hv Hc Hs Hd Hn Hcase.
  rewrite (convert_sample_rate_SIMD g input output Hv).
  unfold convert_sample_rate_SIMD_s16x8_bresenham.
  rewrite Hc, Hs, Hd, Hn. cbn [negb Z.eqb Pos.eqb].
  destruct Hcase as [H0 | (H1 & Ls & Ld)].
  - rewrite H0. exists dst.
    split; [reflexivity |]. split; [reflexivity |]. split; [reflexivity | intros; lia].
  - rewrite H1.
    destruct (bresenham_frame_copy src dst 0 0 0) as (dst' & E & L & Cp & _);
      try lia.
    exists dst'. split; [| split; [exact L | split; [intros; lia |]]].
    + change (trips 0 1) with 1%nat. cbn [for_each].
      change (if u32 (0 + 1) <? 1 then u32 (0 + 1) else 0) with 0.
      change (D.div (D.of_Z 0) (D.of_Z 1)) with (S754_zero false).
      cbn [mbind outcome_mbind outcome_bind]. rewrite E.
      reflexivity.
    + intros _ j Hj. specialize (Cp j Hj). now rewrite !Z.add_0_l in Cp.
Qed.

Lemma convert_sample_rate_short_input_C6_witness :
  exists dst',
    convert_sample_rate ptr_C (Some one_sample_input) (Some (src_output_buf 1))
    = Done (0, Some (set_valueBuffer (Some dst') (src_output_buf 1)))
    /\ length dst' = length (replicate (Z.to_nat (128 * 1)) 0)
    /\ (nr_of_samples one_sample_input = 0 -> dst' = replicate (Z.to_nat (128 * 1)) 0)
    /\ (nr_of_samples one_sample_input = 1 ->
        forall j, 0 <= j < 8 ->
          Mem.load_s16 dst' (2 * j) = Mem.load_s16 (flat_map frame0 [1234]) (2 * j)).
Proof.
  apply (convert_sample_rate_short_input_C6 ptr_C one_sample_input (src_output_buf 1)
           (flat_map frame0 [1234]) (replicate (Z.to_nat (128 * 1)) 0));
    try reflexivity.
  right. split; [reflexivity |]. split; vm_compute; lia.
Defined.

(** C6 as stated fails. An empty source is prepared and converted with
    status 0 both times; a source of one sample is converted with status 0,
    and its sample is written to the output. *)
Lemma convert_sample_rate_short_input_C6_counterexample :
  nr_of_samples empty_input = 0
  /\ (exists out,
        prepare_SampleRateConversion zero_libc (Some empty_input) 1000000 (Some blank)
          = Done (0, Some out)
        /\ convert_sample_rate ptr_C (Some empty_input) (Some out) = Done (0, Some out))
  /\ nr_of_samples one_sample_input = 1
  /\ (exists out,
        convert_sample_rate ptr_C (Some one_sample_input) (Some (src_output_buf 1))
          = Done (0, Some out)
        /\ channel_s16 out 0 = read_ok [1234]).
Proof.
  split; [reflexivity |]. split.
  - eexists. split; [vm_compute; reflexivity |]. vm_compute. reflexivity.
  - split; [reflexivity |].
    eexists. split; [vm_compute; reflexivity |]. vm_compute. reflexivity.
Qed.

(** At identity length the accumulator is zero at every step, so the
    fraction is zero. *)
Lemma bresenham_frac_zero n :
  0 < n < 2 ^ 32 -> D.div (D.of_Z 0) (D.of_Z n) = S754_zero false.
Proof.
  intros Hn. destruct (Round64.of_Z_normal n Hn) as (m & e & -> & _). reflexivity.
Qed.

(** With as many output as input samples, the position advances by one
    sample per step and stops at the last but one. *)
Lemma bresenham_advance_identity n k :
  2 <= n < 2 ^ 28 -> 0 <= k < n ->
  bresenham_advance n n n (Z.min k (n - 2)) 0 = (Z.min (k + 1) (n - 2), 0).
Proof.
  intros Hn Hk. change (2 ^ 28) with 268435456 in Hn.
  unfold bresenham_advance.
  rewrite (u32_small (0 + n)) by lia.
  replace (n <=? 0 + n) with true by (symmetry; apply Z.leb_le; lia).
  replace (0 + n - n) with 0 by lia.
  rewrite (u32_small (Z.min k (n - 2) + 1)), (u32_small (n - 1)), (u32_small (n - 2)),
    (u32_small 0) by lia.
  destruct (n - 1 <=? Z.min k (n - 2) + 1) eqn:E.
  - apply Z.leb_le in E. f_equal. lia.
  - apply Z.leb_gt in E. f_equal. lia.
Qed.

(** The kernel at identity length, for every input of at least two samples:
    output sample [i] is input sample [i], except the last one, which is
    the input sample before the last. *)
Lemma bresenham_identity (input output : RawTimelineValuesBuf) (src dst : list Z) (n : Z) :
  nr_of_channels input = 8 ->
  nr_of_samples input = n -> nr_of_samples output = n ->
  2 <= n < 2 ^ 28 ->
  valueBuffer input = Some src -> valueBuffer output = Some dst ->
  16 * n <= Z.of_nat (length src) -> 16 * n <= Z.of_nat (length dst) ->
  exists dst',
    convert_sample_rate_SIMD_s16x8_bresenham input output
    = Done (0, set_valueBuffer (Some dst') output)
    /\ length dst' = length dst
    /\ forall i j, 0 <= i < n -> 0 <= j < 8 ->
         Mem.load_s16 dst' (2 * (i * 8 + j))
         = Mem.load_s16 src (2 * (Z.min i (n - 2) * 8 + j)).
Proof.
  intros Hc Hi Ho Hn Hs Hd Ls Ld.
  assert (Hn' : 2 <= n < 268435456) by exact Hn.
  unfold convert_sample_rate_SIMD_s16x8_bresenham.
  rewrite Hc, Hi, Ho, Hs, Hd. cbn [negb Z.eqb Pos.eqb].
  set (body := fun (i : Z) (st : Z * Z * option (list Z)) => _).
  set (P := fun (k : Z) (st : Z * Z * option (list Z)) =>
    exists d, st = (Z.min k (n - 2), 0, Some d) /\ length d = length dst
      /\ forall i j, 0 <= i < k -> 0 <= j < 8 ->
           Mem.load_s16 d (2 * (i * 8 + j))
           = Mem.load_s16 src (2 * (Z.min i (n - 2) * 8 + j))).
  destruct (for_each_inv P body (trips 0 n) 0 (0, 0, Some dst))
    as (st & E & d & -> & Ll & Hcp).
  - exists dst. split; [f_equal; f_equal; lia |]. split; [reflexivity | intros; lia].
  - intros k st Hk (d & -> & Ll & Hcp).
    assert (Hk' : 0 <= k < n) by (unfold trips in Hk; lia).
    set (a := Z.min k (n - 2)) in *.
    destruct (bresenham_frame_copy src d a (a + 1) k) as (d' & E & L' & Cp & Fr);
      try (change (2 ^ 28) with 268435456; lia).
    exists (Z.min (k + 1) (n - 2), 0, Some d'). split.
    + subst body. cbn beta iota.
      rewrite (u32_small (a + 1)) by lia.
      replace (a + 1 <? n) with true by (symmetry; apply Z.ltb_lt; lia).
      rewrite (bresenham_frac_zero n) by (change (2 ^ 32) with 4294967296; lia).
      rewrite E. cbn [mbind outcome_mbind outcome_bind].
      subst a. rewrite (bresenham_advance_identity n k Hn Hk'). reflexivity.
    + exists d'. split; [reflexivity |]. split; [congruence |].
      intros i j Hi' Hj. destruct (Z.eq_dec i k) as [->|Hne].
      * apply Cp, Hj.
      * rewrite <- (Hcp i j) by lia.
        apply MemFacts.load_s16_ext; apply Fr; lia.
  - exists d. split.
    + rewrite E. reflexivity.
    + split; [exact Ll |]. intros i j Hi' Hj. apply Hcp; [unfold trips; lia | exact Hj].
Qed.

(* ===================================================================== *)
(** ** Scenario S1: identity conversion *)

Lemma getSampleValue_SIMD_sint16x8_at (b : RawTimelineValuesBuf) (d : list Z) (i ch : Z) :
  bitwidth b = 16 -> bytes_per_sample b = 16 -> valueBuffer b = Some d ->
  0 <= i < nr_of_samples b -> nr_of_samples b < 2 ^ 28 ->
  0 <= ch < nr_of_channels b -> nr_of_channels b <= 8 ->
  getSampleValue_SIMD_sint16x8 b i ch
  = v ← access (Mem.load_s16 d (2 * (i * 8 + ch))); mret (Some v).
Proof.
  intros Hb Hs Hd Hi Hn Hc Hc8. change (2 ^ 28) with 268435456 in Hn.
  unfold getSampleValue_SIMD_sint16x8, getSampleByteOffset.
  rewrite Hb, Hs, Hd.
  replace (nr_of_samples b <=? i) with false by (symmetry; apply Z.leb_gt; lia).
  replace (nr_of_channels b <=? ch) with false by (symmetry; apply Z.leb_gt; lia).
  cbn [orb negb Z.eqb Pos.eqb access mbind outcome_mbind outcome_bind].
  rewrite (u32_small (i * 16)) by lia.
  replace (ch * 16 / 8) with (2 * ch) by (apply Z.div_unique with (r := 0); lia).
  rewrite u32_small by lia.
  replace (i * 16 + 2 * ch) with (2 * (i * 8 + ch)) by lia.
  reflexivity.
Qed.

(** Checked on the 1000 frames of S1's input: lane 0 of frame [i] holds [i]. *)
Lemma s1_input_frames :
  (fun m =>
     forallb (fun i =>
       match Mem.load_s16 m (2 * (i * 8 + 0)) with
       | Some v => v =? i
       | None => false
       end) (zrange 1000 0)) (flat_map frame0 s1_channel0) = true.
Proof. vm_compute. reflexivity. Qed.

Lemma s1_input_frame i :
  0 <= i < 1000 -> Mem.load_s16 (flat_map frame0 s1_channel0) (2 * (i * 8 + 0)) = Some i.
Proof.
  intros Hi.
  pose proof s1_input_frames as H. cbn beta in H.
  pose proof (proj1 (forallb_forall _ _) H i (zrange_complete 1000 0 i ltac:(lia))) as Hi'.
  cbn beta in Hi'. destruct (Mem.load_s16 _ _) as [v|]; [| discriminate].
  apply Z.eqb_eq in Hi'. now subst.
Qed.

Lemma s1_output_alloc : src_output zero_libc 1000 = Done (Some (src_output_buf 1000)).
Proof.
  unfold src_output, alloc_RawTimelineValuesBuf, alloc_raw_aligned, zero_libc.
  cbn [aligned_alloc malloc].
  change (u8 ((8 * 16 + 7) / 8)) with 16.
  change (u32 (u32 (1000 * 8) * 16)) with 128000.
  change (16 <=? 1) with false. cbn iota.
  change (u64 (Z.land (u64 (128000 + 16 - 1)) (Z.lnot (16 - 1)))) with 128000.
  reflexivity.
Qed.

(** For S1 the conversion completes with status 0 on either backend, and
    output sample [i] of channel 0 is [min i 998]. *)
Lemma s1_conversion :
  exists dst',
    (forall g, convert_sample_rate g (Some s1_input) (Some (src_output_buf 1000))
               = Done (0, Some (set_valueBuffer (Some dst') (src_output_buf 1000))))
    /\ forall i, 0 <= i < 1000 ->
         getSampleValue_SIMD_sint16x8 (set_valueBuffer (Some dst') (src_output_buf 1000)) i 0
         = Done (Some (Z.min i 998)).
Proof.
  assert (Hn : 2 <= 1000 < 2 ^ 28) by (change (2 ^ 28) with 268435456; lia).
  assert (Hi : nr_of_samples s1_input = 1000) by (vm_compute; reflexivity).
  assert (Ls : 16 * 1000 <= Z.of_nat (length (flat_map frame0 s1_channel0)))
    by (vm_compute; discriminate).
  assert (Ld : 16 * 1000 <= Z.of_nat (length (replicate (Z.to_nat (128 * 1000)) 0)))
    by (rewrite length_replicate; lia).
  destruct (bresenham_identity s1_input (src_output_buf 1000)
              (flat_map frame0 s1_channel0) (replicate (Z.to_nat (128 * 1000)) 0) 1000
              eq_refl Hi eq_refl Hn eq_refl eq_refl Ls Ld)
    as (dst' & E & L & Cp).
  exists dst'. split.
  - intros g. rewrite convert_sample_rate_SIMD by reflexivity.
    rewrite E. reflexivity.
  - intros i Hi'.
    rewrite (getSampleValue_SIMD_sint16x8_at _ dst' i 0); try reflexivity;
      try (cbn; change (2 ^ 28) with 268435456; lia).
    rewrite (Cp i 0) by lia.
    replace (1000 - 2) with 998 by reflexivity.
    rewrite s1_input_frame by lia. reflexivity.
Qed.

Lemma zrange_sound n : forall lo v, In v (zrange n lo) -> lo <= v < lo + Z.of_nat n.
Proof.
  induction n as [|n IH]; intros lo v H; [destruct H |].
  cbn [zrange] in H. destruct H as [<-|H]; [lia |].
  apply IH in H. lia.
Qed.

(** C1, on the code. For S1 the output length is 1000 and the conversion
    returns 0 on either backend, but channel 0 of the output is
    0, 1, ..., 998, 998: the last output sample is input sample 998, not
    999. *)
Theorem identity_src_last_sample_C1 :
  src_new_nr_samples s1_input 1000000 = Done 1000
  /\ src_output zero_libc 1000 = Done (Some (src_output_buf 1000))
  /\ exists out',
      (forall g, convert_sample_rate g (Some s1_input) (Some (src_output_buf 1000))
                 = Done (0, Some out'))
      /\ channel_s16 out' 0 = read_ok (zrange 999 0 ++ [998])
      /\ getSampleValue_SIMD_sint16x8 out' 999 0 = Done (Some 998)
      /\ getSampleValue_SIMD_sint16x8 s1_input 999 0 = Done (Some 999).
Proof.
  split; [vm_compute; reflexivity |].
  split; [exact s1_output_alloc |].
  destruct s1_conversion as (dst' & E & R).
  eexists. split; [exact E |]. split; [| split].
  - unfold channel_s16.
    change (Z.to_nat (nr_of_samples (set_valueBuffer (Some dst') (src_output_buf 1000))))
      with 1000%nat.
    transitivity (map (fun i => Done (Some (Z.min i 998)) : outcome (option Z)) (zrange 1000 0)).
    + apply map_ext_in. intros i Hi. apply zrange_sound in Hi. apply R. lia.
    + vm_compute. reflexivity.
  - rewrite R by lia. reflexivity.
  - vm_compute. reflexivity.
Qed.

(** In ISO C the plan of S1 has no defined last entry: its fraction is 1.0,
    and 65536.0 does not fit [uint16_t]. *)
Lemma s1_plan_last_entry :
  interp_entry 1000 1000 998 = Done {| idx0 := 998; idx1 := 999; frac := 0; inv_frac := 0 |}
  /\ interp_entry 1000 1000 999 = Undefined
  /\ prepare_SampleRateConversion zero_libc (Some s1_input) 1000000 (Some blank) = Undefined.
Proof. repeat split; vm_compute; reflexivity. Qed.

(** The division variant of the kernel, which the table does not use, gets
    the last sample right on a 4-sample identity conversion; the Bresenham
    kernel repeats the third sample. *)
Lemma identity_division_variant :
  let input := simd_input [0; 100; 200; 300] 1 (-6) in
  let output := set_sample_rate_info (Some {| rate_ratio := d_1 |}) (src_output_buf 4) in
  (exists out, convert_sample_rate_SIMD_s16x8_c input output = Done (0, out)
               /\ channel_s16 out 0 = read_ok [0; 100; 200; 300])
  /\ (exists out, convert_sample_rate_SIMD_s16x8_bresenham input output = Done (0, out)
               /\ channel_s16 out 0 = read_ok [0; 100; 200; 200]).
Proof.
  split.
  - eexists. split; [vm_compute; reflexivity |]. vm_compute. reflexivity.
  - eexists. split; [vm_compute; reflexivity |]. vm_compute. reflexivity.
Qed.

(** C2, on the code. For S2 the output length is 8 and the conversion
    returns 0 on either backend, but channel 0 of the output is
    0, 50, 100, 150, 200, 250, 200, 250: after the clamp the last two samples
    start again from input sample 2 instead of holding 300. *)
Theorem upsample_2x_tail_C2 :
  src_new_nr_samples s2_input 2000000 = Done 8
  /\ src_output zero_libc 8 = Done (Some (src_output_buf 8))
  /\ exists out',
      (forall g, convert_sample_rate g (Some s2_input) (Some (src_output_buf 8))
                 = Done (0, Some out'))
      /\ channel_s16 out' 0 = read_ok [0; 50; 100; 150; 200; 250; 200; 250].
Proof.
  split; [vm_compute; reflexivity |].
  split; [vm_compute; reflexivity |].
  eexists. split; [intros []; vm_compute; reflexivity | vm_compute; reflexivity].
Qed.

(* ===================================================================== *)
(** ** The interpolation plan *)



(** Entry 0 of every plan: position 0, fraction 0, and 0x10000 taken to 16
    bits, which is 0. *)
Lemma interp_entry_first (in_samples new_nr_samples : Z) :
  2 <= in_samples < 2 ^ 32 -> 1 <= new_nr_samples < 2 ^ 32 ->
  interp_entry in_samples new_nr_samples 0
  = Done {| idx0 := 0; idx1 := 1; frac := 0; inv_frac := 0 |}.
Proof.
  intros Hi Ho. unfold interp_entry.
  destruct (Round64.of_Z_normal new_nr_samples ltac:(lia)) as (m1 & e1 & -> & D1 & B1).
  destruct (Round64.of_Z_normal in_samples ltac:(lia)) as (m2 & e2 & -> & D2 & B2).
  destruct (Round64.div_normal m1 e1 m2 e2 D1 D2 ltac:(lia) ltac:(lia))
    as (m & e & -> & _).
  change (D.div (D.of_Z 0) (S754_finite false m e)) with (S754_zero false).
  change (D.to_u32 (S754_zero false)) with (Done 0 : outcome Z).
  cbn [mbind outcome_mbind outcome_bind].
  change (2 ^ 32) with 4294967296 in Hi.
  rewrite (u32_small (in_samples - 1)) by (change (2 ^ 32) with 4294967296; lia).
  replace (in_samples - 1 <=? 0) with false by (symmetry; apply Z.leb_gt; lia).
  change (u32 (0 + 1)) with 1.
  replace (1 <? in_samples) with true by (symmetry; apply Z.ltb_lt; lia).
  reflexivity.
Qed.

(** C3, on the code. For every 8-channel input of at least 2 samples and
    every non-empty output, the plan that [init_InterpInfo] builds starts
    with idx0 = 0, idx1 = 1, frac = 0, inv_frac = 0: the two fractions of
    entry 0 sum to 0, not to 0x10000. *)
Theorem plan_entry0_sum_C3 (libc : Libc) (input output out' : RawTimelineValuesBuf) (st : Z) :
  nr_of_channels input = 8 ->
  2 <= nr_of_samples input < 2 ^ 32 ->
  1 <= nr_of_samples output < 2 ^ 32 ->
  init_InterpInfo libc input output = Done (st, out') ->
  exists plan e,
    prepared_data_src out' = Some plan
    /\ plan !! 0%nat = Some e
    /\ e = {| idx0 := 0; idx1 := 1; frac := 0; inv_frac := 0 |}
    /\ frac e + inv_frac e <> 65536.
Proof.
  intros Hc Hi Ho E.
  destruct (init_InterpInfo_entries libc input output out' st Hc ltac:(lia) E)
    as (_ & plan & Hp & _ & Hent).
  destruct (Hent 0 ltac:(lia)) as (e & He & Hi0).
  rewrite (interp_entry_first _ _ Hi Ho) in Hi0. injection Hi0 as <-.
  exists plan. eexists. split; [exact Hp |]. split; [exact He |].
  split; [reflexivity | cbn; lia].
Qed.

Lemma s3_init_InterpInfo :
  init_InterpInfo zero_libc s3_input (src_output_buf 3)
  = Done (0, set_prepared_data_src (Some s3_plan_entries) (src_output_buf 3)).
Proof. vm_compute. reflexivity. Qed.

Lemma plan_entry0_sum_C3_witness :
  exists plan e,
    prepared_data_src (set_prepared_data_src (Some s3_plan_entries) (src_output_buf 3))
      = Some plan
    /\ plan !! 0%nat = Some e
    /\ e = {| idx0 := 0; idx1 := 1; frac := 0; inv_frac := 0 |}
    /\ frac e + inv_frac e <> 65536.
Proof.
  apply (plan_entry0_sum_C3 zero_libc s3_input (src_output_buf 3) _ 0);
    [reflexivity | vm_compute; split; [discriminate | reflexivity]
     | vm_compute; split; [discriminate | reflexivity] | exact s3_init_InterpInfo].
Defined.





(** The plan that [prepare_SampleRateConversion] builds for S3 (10 samples
    at 1 MHz, target 300 kHz). *)
Lemma s3_plan :
  exists out,
    prepare_SampleRateConversion zero_libc (Some s3_input) 300000 (Some blank)
      = Done (0, Some out)
    /\ nr_of_samples out = 3
    /\ prepared_data_src out
       = Some [ {| idx0 := 0; idx1 := 1; frac := 0; inv_frac := 0 |};
                {| idx0 := 3; idx1 := 4; frac := 21845; inv_frac := 43691 |};
                {| idx0 := 6; idx1 := 7; frac := 43690; inv_frac := 21846 |} ].
Proof. eexists. split; [vm_compute; reflexivity |]. split; reflexivity. Qed.

(* ===================================================================== *)
(** ** The kernel at identity length, for every input *)

(** For every 8-lane input of [n >= 2] frames converted to [n] frames, the
    installed kernel returns 0, copies frames [0 .. n-2] unchanged, and
    writes input frame [n-2] once more as output frame [n-1]. *)
Theorem bresenham_identity_last_frame (input output : RawTimelineValuesBuf)
    (src dst : list Z) (n : Z) :
  nr_of_channels input = 8 ->
  nr_of_samples input = n -> nr_of_samples output = n ->
  2 <= n < 2 ^ 28 ->
  valueBuffer input = Some src -> valueBuffer output = Some dst ->
  16 * n <= Z.of_nat (length src) -> 16 * n <= Z.of_nat (length dst) ->
  exists dst',
    convert_sample_rate_SIMD_s16x8_bresenham input output
    = Done (0, set_valueBuffer (Some dst') output)
    /\ (forall i j, 0 <= i < n - 1 -> 0 <= j < 8 ->
          Mem.load_s16 dst' (2 * (i * 8 + j)) = Mem.load_s16 src (2 * (i * 8 + j)))
    /\ (forall j, 0 <= j < 8 ->
          Mem.load_s16 dst' (2 * ((n - 1) * 8 + j))
          = Mem.load_s16 src (2 * ((n - 2) * 8 + j))).
Proof.
  intros Hc Hi Ho Hn Hs Hd Ls Ld.
  destruct (bresenham_identity input output src dst n Hc Hi Ho Hn Hs Hd Ls Ld)
    as (dst' & E & _ & Cp).
  exists dst'. split; [exact E |]. split.
  - intros i j Hi' Hj. rewrite (Cp i j ltac:(lia) Hj).
    replace (Z.min i (n - 2)) with i by lia. reflexivity.
  - intros j Hj. rewrite (Cp (n - 1) j ltac:(lia) Hj).
    replace (Z.min (n - 1) (n - 2)) with (n - 2) by lia. reflexivity.
Qed.

Lemma bresenham_identity_last_frame_witness :
  exists dst',
    convert_sample_rate_SIMD_s16x8_bresenham s2_input (src_output_buf 4)
    = Done (0, set_valueBuffer (Some dst') (src_output_buf 4))
    /\ (forall i j, 0 <= i < 4 - 1 -> 0 <= j < 8 ->
          Mem.load_s16 dst' (2 * (i * 8 + j))
          = Mem.load_s16 (flat_map frame0 [0; 100; 200; 300]) (2 * (i * 8 + j)))
    /\ (forall j, 0 <= j < 8 ->
          Mem.load_s16 dst' (2 * ((4 - 1) * 8 + j))
          = Mem.load_s16 (flat_map frame0 [0; 100; 200; 300]) (2 * ((4 - 2) * 8 + j))).
Proof.
  apply (bresenham_identity_last_frame s2_input (src_output_buf 4)
           (flat_map frame0 [0; 100; 200; 300]) (replicate (Z.to_nat (128 * 4)) 0) 4);
    [reflexivity | reflexivity | reflexivity
     | vm_compute; split; [discriminate | reflexivity]
     | reflexivity | reflexivity
     | vm_compute; discriminate | vm_compute; discriminate].
Defined.

(* ===================================================================== *)
(** ** Engineering frequency *)

(** C8, as the code has it. For every buffer with [time_step] from 1 to
    [UINT32_MAX] and an [int8_t] exponent, the unit is one of the six of
    the table and the mantissa is the raw frequency divided by 1000 once
    per step of the unit. The mantissa is below 1000 unless the unit is
    PHz. It is at least 1 when the raw frequency is; the code never scales
    up, so a raw frequency below 1 Hz is returned as it is, in Hz. *)
Theorem getEngineeringSampleRateFrequency_range_C8 (buf : RawTimelineValuesBuf) :
  1 <= time_step buf < 2 ^ 32 -> -128 <= time_exponent buf < 128 ->
  exists (m : spec_float) (k : nat),
    getEngineeringSampleRateFrequency buf = (m, nth k units EmptyString)
    /\ (k <= 5)%nat
    /\ m = Nat.iter k div_1000 (raw_frequency buf)
    /\ (k = 5%nat \/ D.ltb m d_1000 = true)
    /\ (D.geb (raw_frequency buf) d_1 = true -> D.geb m d_1 = true)
    /\ (D.geb (raw_frequency buf) d_1 = false ->
        m = raw_frequency buf /\ k = 0%nat).
Proof.
  intros Hs He.
  pose proof (Engineering.raw_frequency_normal buf Hs He) as Hraw.
  destruct (Engineering.engineering_scale_spec 5 (raw_frequency buf) 0
              ltac:(lia) ltac:(lia)
              (Round64.normal_weaken (-509) 375 (-1074) 971 _ ltac:(lia) ltac:(lia) Hraw))
    as (m & k & E & Hk & Hm & _ & Hexit & Hlow & Hkeep).
  exists m, k. unfold getEngineeringSampleRateFrequency. rewrite E.
  rewrite Z.add_0_l, Nat2Z.id.
  split; [reflexivity |]. split; [lia |]. split; [exact Hm |].
  split; [destruct Hexit; [left; lia | now right] |].
  split; [exact Hlow |].
  intros Hlt. apply Hkeep.
  destruct Hraw as (mr & er & Er & Dr & Br). rewrite Er in *.
  destruct (D.geb (S754_finite false mr er) d_1000) eqn:Hge; [| reflexivity].
  apply Engineering.geb_1000_normal in Hge as [Hge _].
  assert (D.geb (S754_finite false mr er) d_1 = true)
    by (apply Engineering.geb_1_normal; [exact Dr | lia]).
  congruence.
Qed.

Lemma getEngineeringSampleRateFrequency_range_C8_witness :
  exists (m : spec_float) (k : nat),
    getEngineeringSampleRateFrequency buf_48us = (m, nth k units EmptyString)
    /\ (k <= 5)%nat
    /\ m = Nat.iter k div_1000 (raw_frequency buf_48us)
    /\ (k = 5%nat \/ D.ltb m d_1000 = true)
    /\ (D.geb (raw_frequency buf_48us) d_1 = true -> D.geb m d_1 = true)
    /\ (D.geb (raw_frequency buf_48us) d_1 = false ->
        m = raw_frequency buf_48us /\ k = 0%nat).
Proof.
  apply (getEngineeringSampleRateFrequency_range_C8 buf_48us); cbn; lia.
Defined.

(** S5: 48 microseconds per sample is about 20.833 kHz. *)
Lemma engineering_48us :
  getEngineeringSampleRateFrequency buf_48us
  = (S754_finite false 5864062014805333 (-48), "kHz"%string)
  /\ D.geb (S754_finite false 5864062014805333 (-48)) d_1 = true
  /\ D.ltb (S754_finite false 5864062014805333 (-48)) d_1000 = true.
Proof. repeat split; vm_compute; reflexivity. Qed.

(** C8 as stated fails: with [time_step = 2] and [time_exponent = 0] the
    result is 0.5 Hz, a mantissa below 1 with a unit that is not PHz. *)
Lemma getEngineeringSampleRateFrequency_range_C8_counterexample :
  1 <= time_step buf_2s
  /\ getEngineeringSampleRateFrequency buf_2s = (d_0_5, "Hz"%string)
  /\ D.geb d_0_5 d_1 = false
  /\ D.ltb d_0_5 d_1 = true.
Proof. repeat split; vm_compute; try reflexivity; discriminate. Qed.

(* ===================================================================== *)
(** ** The min/max kernels *)

(** The loop rule for a [for_loop] none of whose turns leaves early. *)
Lemma for_loop_inv {S R} (P : Z -> S -> Prop) (body : Z -> S -> outcome (S + R)) :
  forall (n : nat) (i : Z) (s : S),
    P i s ->
    (forall k s, i <= k < i + Z.of_nat n -> P k s ->
                 exists s', body k s = Done (inl s') /\ P (k + 1) s') ->
    exists s', for_loop n i body s = Done (inl s') /\ P (i + Z.of_nat n) s'.
Proof.
  induction n as [|n IH]; intros i s Hi Hstep.
  - exists s. split; [reflexivity |]. now replace (i + Z.of_nat 0) with i by lia.
  - destruct (Hstep i s ltac:(lia) Hi) as (s1 & E1 & P1).
    destruct (IH (i + 1) s1 P1) as (s2 & E2 & P2).
    { intros k s' Hk. apply Hstep. lia. }
    exists s2. split.
    + cbn [for_loop]. rewrite E1. exact E2.
    + now replace (i + Z.of_nat (Datatypes.S n)) with (i + 1 + Z.of_nat n) by lia.
Qed.

Lemma zrange_snoc n : forall lo, zrange (Datatypes.S n) lo = zrange n lo ++ [lo + Z.of_nat n].
Proof.
  induction n as [|n IH]; intros lo.
  - cbn. now rewrite Z.add_0_r.
  - change (zrange (Datatypes.S (Datatypes.S n)) lo)
      with (lo :: zrange (Datatypes.S n) (lo + 1)).
    rewrite IH. rewrite (Nat2Z.inj_succ n).
    change (zrange (Datatypes.S n) lo) with (lo :: zrange n (lo + 1)).
    cbn [app]. f_equal. f_equal. f_equal. lia.
Qed.

Lemma zrange_length n : forall lo, length (zrange n lo) = n.
Proof. induction n as [|n IH]; intros lo; cbn; [reflexivity | now rewrite IH]. Qed.

Lemma list_min_snoc seed l v : list_min seed (l ++ [v]) = Z.min (list_min seed l) v.
Proof. unfold list_min. now rewrite fold_left_app. Qed.

Lemma list_max_snoc seed l v : list_max seed (l ++ [v]) = Z.max (list_max seed l) v.
Proof. unfold list_max. now rewrite fold_left_app. Qed.

Lemma read_ok_snoc l v : read_ok (l ++ [v]) = read_ok l ++ [Done (Some v)].
Proof. unfold read_ok. now rewrite map_app. Qed.

Lemma s8_range x : -128 <= s8 x < 128.
Proof.
  unfold s8, signed. change (2 ^ (8 - 1)) with 128.
  assert (H := Z.mod_pos_bound (x + 128) (2 ^ 8) ltac:(lia)).
  change (2 ^ 8) with 256 in *. lia.
Qed.

Lemma s8_u8 v : -128 <= v < 128 -> s8 (u8 v) = v.
Proof.
  intros H. unfold s8, signed, u8. change (2 ^ (8 - 1)) with 128. change (2 ^ 8) with 256.
  rewrite Z.add_mod_idemp_l by lia. rewrite Z.mod_small; lia.
Qed.

Module MemFacts8.
Import Mem.

Lemma load_s8_Some (m : list Z) off :
  0 <= off < Z.of_nat (length m) -> exists v, load_s8 m off = Some v /\ -128 <= v < 128.
Proof.
  intros H. unfold load_s8.
  destruct (MemFacts.load_u8_Some m off H) as (b & _ & ->). cbn.
  eexists. split; [reflexivity | apply s8_range].
Qed.

Lemma store_8_Some (m : list Z) off v :
  0 <= off < Z.of_nat (length m) -> store_8 m off v = Some (<[Z.to_nat off := u8 v]> m).
Proof.
  intros H. unfold store_8.
  destruct (MemFacts.load_u8_Some m off H) as (b & _ & ->). reflexivity.
Qed.

Lemma load_s8_store_8 (m m' : list Z) off v :
  -128 <= v < 128 -> 0 <= off < Z.of_nat (length m) ->
  store_8 m off v = Some m' ->
  load_s8 m' off = Some v /\ length m' = length m
  /\ (forall off', off' <> off -> load_u8 m' off' = load_u8 m off').
Proof.
  intros Hv H E. rewrite store_8_Some in E by lia. injection E as <-.
  split; [| split].
  - unfold load_s8. rewrite MemFacts.load_u8_insert_eq by lia. cbn.
    now rewrite s8_u8.
  - now rewrite length_insert.
  - intros off' N. now rewrite MemFacts.load_u8_insert_ne by lia.
Qed.

Lemma load_s8_ext (m m' : list Z) off :
  load_u8 m' off = load_u8 m off -> load_s8 m' off = load_s8 m off.
Proof. intros E. unfold load_s8. now rewrite E. Qed.

End MemFacts8.

(** The accessor on a sample inside the buffer reads the byte at
    [sample_index * bytes_per_sample + channel]. *)
Lemma getSampleValue_int8_at (b : RawTimelineValuesBuf) (src : list Z) (j ch : Z) :
  bitwidth b = 8 -> valueBuffer b = Some src ->
  0 <= j < nr_of_samples b -> 0 <= ch < nr_of_channels b ->
  0 <= bytes_per_sample b -> j * bytes_per_sample b + ch < 2 ^ 32 ->
  getSampleValue_int8 b j ch
  = v ← access (Mem.load_s8 src (j * bytes_per_sample b + ch)); mret (Some v).
Proof.
  intros Hb Hs Hj Hc Hp Hr. change (2 ^ 32) with 4294967296 in Hr.
  unfold getSampleValue_int8, getSampleByteOffset. rewrite Hb, Hs.
  replace (nr_of_samples b <=? j) with false by (symmetry; apply Z.leb_gt; lia).
  replace (nr_of_channels b <=? ch) with false by (symmetry; apply Z.leb_gt; lia).
  cbn [orb negb Z.eqb Pos.eqb access mbind outcome_mbind outcome_bind].
  rewrite Z.div_mul by lia.
  assert (0 <= j * bytes_per_sample b) by nia.
  rewrite (u32_small (j * bytes_per_sample b)) by (change (2 ^ 32) with 4294967296; lia).
  rewrite u32_small by (change (2 ^ 32) with 4294967296; lia).
  reflexivity.
Qed.

Lemma getSampleByteOffset_at (b : RawTimelineValuesBuf) (i ch : Z) :
  0 <= i < nr_of_samples b -> 0 <= ch < nr_of_channels b ->
  0 <= bytes_per_sample b -> 0 <= bitwidth b ->
  i * bytes_per_sample b + ch * bitwidth b / 8 < 2 ^ 32 ->
  getSampleByteOffset b i ch = Some (i * bytes_per_sample b + ch * bitwidth b / 8).
Proof.
  intros Hi Hc Hp Hb Hr. change (2 ^ 32) with 4294967296 in Hr.
  unfold getSampleByteOffset.
  replace (nr_of_samples b <=? i) with false by (symmetry; apply Z.leb_gt; lia).
  replace (nr_of_channels b <=? ch) with false by (symmetry; apply Z.leb_gt; lia).
  cbn [orb].
  assert (0 <= i * bytes_per_sample b) by nia.
  assert (0 <= ch * bitwidth b / 8) by (apply Z.div_pos; nia).
  rewrite (u32_small (i * bytes_per_sample b)) by (change (2 ^ 32) with 4294967296; lia).
  rewrite u32_small by (change (2 ^ 32) with 4294967296; lia).
  reflexivity.
Qed.

Lemma getSampleValue_SIMD_sint16x8_off (b : RawTimelineValuesBuf) (src : list Z) (j ch : Z) :
  bitwidth b = 16 -> valueBuffer b = Some src ->
  0 <= j < nr_of_samples b -> 0 <= ch < nr_of_channels b ->
  0 <= bytes_per_sample b -> j * bytes_per_sample b + 2 * ch < 2 ^ 32 ->
  getSampleValue_SIMD_sint16x8 b j ch
  = v ← access (Mem.load_s16 src (j * bytes_per_sample b + 2 * ch)); mret (Some v).
Proof.
  intros Hb Hs Hj Hc Hp Hr.
  assert (Ediv : ch * 16 / 8 = 2 * ch)
    by (symmetry; apply Z.div_unique with (r := 0); lia).
  unfold getSampleValue_SIMD_sint16x8.
  rewrite (getSampleByteOffset_at b j ch Hj Hc Hp) by (rewrite Hb, ?Ediv; lia).
  rewrite Hb, Hs, Ediv.
  replace (nr_of_samples b <=? j) with false by (symmetry; apply Z.leb_gt; lia).
  replace (nr_of_channels b <=? ch) with false by (symmetry; apply Z.leb_gt; lia).
  reflexivity.
Qed.

(** The values of one channel over a range inside the buffer. *)
Lemma samples_s8_read (b : RawTimelineValuesBuf) (src : list Z) (ch start : Z) :
  bitwidth b = 8 -> valueBuffer b = Some src ->
  0 <= ch < nr_of_channels b -> 0 <= bytes_per_sample b ->
  (nr_of_samples b - 1) * bytes_per_sample b + nr_of_channels b <= Z.of_nat (length src) ->
  Z.of_nat (length src) <= 2 ^ 32 ->
  0 <= start ->
  forall n : nat, start + Z.of_nat n <= nr_of_samples b ->
    exists vs, map (fun j => getSampleValue_int8 b j ch) (zrange n start) = read_ok vs
               /\ Forall (fun v => -128 <= v < 128) vs /\ length vs = n.
Proof.
  intros Hb Hs Hc Hp Hl Hr H0.
  induction n as [|n IH]; intros Hn.
  - exists []. split; [reflexivity |]. split; [constructor | reflexivity].
  - destruct (IH ltac:(lia)) as (vs & E & F & L).
    rewrite zrange_snoc, map_app, E. cbn [map].
    set (j := start + Z.of_nat n).
    assert (Hj : 0 <= j < nr_of_samples b) by lia.
    assert (Ho : 0 <= j * bytes_per_sample b + ch < Z.of_nat (length src)) by nia.
    rewrite (getSampleValue_int8_at b src j ch Hb Hs Hj Hc Hp) by lia.
    destruct (MemFacts8.load_s8_Some src _ Ho) as (v & -> & Rv).
    exists (vs ++ [v]). split; [now rewrite read_ok_snoc |].
    split; [apply Forall_app; split; [exact F | now constructor] |].
    rewrite length_app, L. cbn. lia.
Qed.

Lemma list_min_range seed vs :
  -128 <= seed < 128 -> Forall (fun v => -128 <= v < 128) vs ->
  -128 <= list_min seed vs < 128.
Proof.
  intros Hs F. revert seed Hs. unfold list_min.
  induction F as [|v vs Hv F IH]; intros seed Hs; cbn; [exact Hs | apply IH; lia].
Qed.

Lemma list_max_range seed vs :
  -128 <= seed < 128 -> Forall (fun v => -128 <= v < 128) vs ->
  -128 <= list_max seed vs < 128.
Proof.
  intros Hs F. revert seed Hs. unfold list_max.
  induction F as [|v vs Hv F IH]; intros seed Hs; cbn; [exact Hs | apply IH; lia].
Qed.

(** The inner loop of [aggregate_minmax_s8_c] over a range inside the
    buffer: it completes, with the minimum and maximum of the values
    read. *)
Lemma minmax_s8_scan (b : RawTimelineValuesBuf) (src : list Z) (ch start end_ : Z) :
  bitwidth b = 8 -> valueBuffer b = Some src ->
  0 <= ch < nr_of_channels b -> 0 <= bytes_per_sample b ->
  (nr_of_samples b - 1) * bytes_per_sample b + nr_of_channels b <= Z.of_nat (length src) ->
  Z.of_nat (length src) <= 2 ^ 32 ->
  0 <= start <= end_ -> end_ <= nr_of_samples b ->
  exists vs,
    samples_s8 b ch start end_ = read_ok vs
    /\ Forall (fun v => -128 <= v < 128) vs
    /\ for_loop (trips start end_) start (fun j '(min_val, max_val) =>
         r ← getSampleValue_int8 b j ch;
         match r with
         | Some value =>
             let min_val := if value <? min_val then value else min_val in
             let max_val := if max_val <? value then value else max_val in
             mret (inl (min_val, max_val))
         | None => mret (inr tt)
         end) (INT8_MAX, INT8_MIN)
       = Done (inl (list_min INT8_MAX vs, list_max INT8_MIN vs)).
Proof.
  intros Hb Hs Hc Hp Hl Hr Hse He.
  set (body := fun (j : Z) (s : Z * Z) => _).
  set (P := fun (k : Z) (s : Z * Z) =>
    exists vs, map (fun j => getSampleValue_int8 b j ch) (zrange (Z.to_nat (k - start)) start)
               = read_ok vs
               /\ Forall (fun v => -128 <= v < 128) vs
               /\ s = (list_min INT8_MAX vs, list_max INT8_MIN vs)).
  destruct (for_loop_inv (R := unit) P body (trips start end_) start (INT8_MAX, INT8_MIN))
    as (s' & E & vs & Evs & F & ->).
  - exists []. rewrite Z.sub_diag. split; [reflexivity |]. split; [constructor | reflexivity].
  - intros k s Hk (vs & Evs & F & ->). unfold trips in Hk.
    assert (Hj : 0 <= k < nr_of_samples b) by lia.
    assert (Ho : 0 <= k * bytes_per_sample b + ch < Z.of_nat (length src)) by nia.
    destruct (MemFacts8.load_s8_Some src _ Ho) as (v & Ev & Rv).
    exists (Z.min (list_min INT8_MAX vs) v, Z.max (list_max INT8_MIN vs) v). split.
    + subst body. cbn beta iota.
      rewrite (getSampleValue_int8_at b src k ch Hb Hs Hj Hc Hp) by lia.
      rewrite Ev. cbn [access mbind outcome_mbind outcome_bind mret outcome_mret].
      do 3 f_equal.
      * destruct (v <? list_min INT8_MAX vs) eqn:C;
          [apply Z.ltb_lt in C | apply Z.ltb_ge in C]; lia.
      * destruct (list_max INT8_MIN vs <? v) eqn:C;
          [apply Z.ltb_lt in C | apply Z.ltb_ge in C]; lia.
    + exists (vs ++ [v]).
      replace (Z.to_nat (k + 1 - start)) with (Datatypes.S (Z.to_nat (k - start))) by lia.
      rewrite zrange_snoc, map_app, Evs. cbn [map].
      replace (start + Z.of_nat (Z.to_nat (k - start))) with k by lia.
      rewrite (getSampleValue_int8_at b src k ch Hb Hs Hj Hc Hp) by lia.
      rewrite Ev. cbn [access mbind outcome_mbind outcome_bind mret outcome_mret].
      split; [now rewrite read_ok_snoc |].
      split; [apply Forall_app; split; [exact F | now constructor] |].
      now rewrite list_min_snoc, list_max_snoc.
  - exists vs. unfold trips in Evs.
    replace (start + Z.of_nat (Z.to_nat (end_ - start)) - start) with (end_ - start) in Evs
      by lia.
    split; [exact Evs |]. split; [exact F | exact E].
Qed.

(** The scalar [int8_t] kernel on a bin inside the input: it returns 0, and
    element [i] of [outMin] and of [outMax] holds, for each channel, the
    minimum and the maximum of the samples [start, end) of that channel
    as the accessor reads them ([INT8_MAX] and [INT8_MIN] for an empty
    bin); no other element changes. *)
Theorem aggregate_minmax_s8_c_extremes
    (input outMin outMax : RawTimelineValuesBuf) (src mn mx : list Z) (i start end_ : Z) :
  bitwidth input = 8 -> valueBuffer input = Some src ->
  0 <= nr_of_channels input -> 0 <= bytes_per_sample input ->
  (nr_of_samples input - 1) * bytes_per_sample input + nr_of_channels input
    <= Z.of_nat (length src) ->
  Z.of_nat (length src) <= 2 ^ 32 ->
  0 <= start <= end_ -> end_ <= nr_of_samples input ->
  valueBuffer outMin = Some mn -> valueBuffer outMax = Some mx ->
  0 <= i -> (i + 1) * nr_of_channels input <= 2 ^ 32 ->
  (i + 1) * nr_of_channels input <= Z.of_nat (length mn) ->
  (i + 1) * nr_of_channels input <= Z.of_nat (length mx) ->
  exists mn' mx',
    aggregate_minmax_s8_c input outMin outMax i start end_
    = Done (0, set_valueBuffer (Some mn') outMin, set_valueBuffer (Some mx') outMax)
    /\ length mn' = length mn /\ length mx' = length mx
    /\ (forall ch, 0 <= ch < nr_of_channels input ->
          exists vs,
            samples_s8 input ch start end_ = read_ok vs
            /\ Mem.load_s8 mn' (i * nr_of_channels input + ch) = Some (list_min INT8_MAX vs)
            /\ Mem.load_s8 mx' (i * nr_of_channels input + ch) = Some (list_max INT8_MIN vs))
    /\ (forall off, off < i * nr_of_channels input \/ (i + 1) * nr_of_channels input <= off ->
          Mem.load_u8 mn' off = Mem.load_u8 mn off
          /\ Mem.load_u8 mx' off = Mem.load_u8 mx off).
Proof.
  intros Hb Hs Hn Hp Hl Hr Hse He Hmn Hmx Hi Hr2 Lmn Lmx.
  change (2 ^ 32) with 4294967296 in Hr2.
  unfold aggregate_minmax_s8_c. rewrite Hmn, Hmx.
  set (nch := nr_of_channels input) in *.
  set (body := fun (ch : Z) (s : option (list Z) * option (list Z)) => _).
  set (P := fun (k : Z) (s : option (list Z) * option (list Z)) =>
    exists a b, s = (Some a, Some b)
      /\ length a = length mn /\ length b = length mx
      /\ (forall ch, 0 <= ch < k ->
            exists vs,
              samples_s8 input ch start end_ = read_ok vs
              /\ Mem.load_s8 a (i * nch + ch) = Some (list_min INT8_MAX vs)
              /\ Mem.load_s8 b (i * nch + ch) = Some (list_max INT8_MIN vs))
      /\ (forall off, off < i * nch \/ i * nch + k <= off ->
            Mem.load_u8 a off = Mem.load_u8 mn off /\ Mem.load_u8 b off = Mem.load_u8 mx off)).
  destruct (for_loop_inv (R := option (list Z) * option (list Z)) P body
              (trips 0 nch) 0 (Some mn, Some mx))
    as (s' & E & a & b & -> & La & Lb & Hv & Hf).
  - exists mn, mx. split; [reflexivity |]. split; [reflexivity |]. split; [reflexivity |].
    split; [intros; lia | intros; split; reflexivity].
  - intros k s Hk (a & b & -> & La & Lb & Hv & Hf). unfold trips in Hk.
    assert (Hk' : 0 <= k < nch) by lia.
    destruct (minmax_s8_scan input src k start end_ Hb Hs Hk' Hp Hl Hr Hse He)
      as (vs & Evs & F & Escan).
    assert (Ho : 0 <= i * nch + k < 4294967296) by nia.
    assert (U : u32 (u32 (i * nch) + k) = i * nch + k).
    { rewrite (u32_small (i * nch)) by (change (2 ^ 32) with 4294967296; nia).
      apply u32_small. change (2 ^ 32) with 4294967296. lia. }
    pose proof (list_min_range INT8_MAX vs ltac:(unfold INT8_MAX; lia) F) as Rmin.
    pose proof (list_max_range INT8_MIN vs ltac:(unfold INT8_MIN; lia) F) as Rmax.
    assert (Ea : Mem.store_8 a (i * nch + k) (list_min INT8_MAX vs)
                 = Some (<[Z.to_nat (i * nch + k) := u8 (list_min INT8_MAX vs)]> a))
      by (apply MemFacts8.store_8_Some; nia).
    assert (Eb : Mem.store_8 b (i * nch + k) (list_max INT8_MIN vs)
                 = Some (<[Z.to_nat (i * nch + k) := u8 (list_max INT8_MIN vs)]> b))
      by (apply MemFacts8.store_8_Some; nia).
    destruct (MemFacts8.load_s8_store_8 a _ (i * nch + k) _ Rmin ltac:(nia) Ea)
      as (Ra & La' & Fa).
    destruct (MemFacts8.load_s8_store_8 b _ (i * nch + k) _ Rmax ltac:(nia) Eb)
      as (Rb & Lb' & Fb).
    eexists. split.
    + subst body. cbv beta iota zeta. cbv zeta in Escan. rewrite Escan.
      cbn [mbind outcome_mbind outcome_bind mret outcome_mret].
      rewrite U. unfold Mem.put_s8.
      cbn [access mbind outcome_mbind outcome_bind mret outcome_mret].
      rewrite Ea, Eb. cbn [access mbind outcome_mbind outcome_bind mret outcome_mret].
      reflexivity.
    + eexists _, _. split; [reflexivity |].
      split; [congruence |]. split; [congruence |]. split.
      * intros ch Hch. destruct (Z.eq_dec ch k) as [->|Hne].
        -- exists vs. split; [exact Evs |]. split; [exact Ra | exact Rb].
        -- destruct (Hv ch ltac:(lia)) as (vs' & E1 & E2 & E3).
           exists vs'. split; [exact E1 |].
           rewrite <- E2, <- E3.
           split; apply MemFacts8.load_s8_ext; [apply Fa | apply Fb]; lia.
      * intros off Ho'.
        destruct (Hf off ltac:(lia)) as [H1 H2]. rewrite <- H1, <- H2.
        split; [apply Fa | apply Fb]; lia.
  - exists a, b. split.
    + rewrite E. reflexivity.
    + split; [exact La |]. split; [exact Lb |]. split.
      * intros ch Hch. apply Hv. unfold trips. lia.
      * intros off Ho. apply Hf. unfold trips. lia.
Qed.

(** A bin that starts at or after the end of the input: the first sample
    cannot be read, and the scalar [int8_t] kernel returns -1 without
    writing. *)
Lemma aggregate_minmax_s8_c_outside
    (input outMin outMax : RawTimelineValuesBuf) (i start end_ : Z) :
  1 <= nr_of_channels input ->
  nr_of_samples input <= start -> start < end_ ->
  aggregate_minmax_s8_c input outMin outMax i start end_ = Done (-1, outMin, outMax).
Proof.
  intros Hc Hs He. unfold aggregate_minmax_s8_c.
  assert (T1 : trips 0 (nr_of_channels input)
               = Datatypes.S (Z.to_nat (nr_of_channels input - 1)))
    by (unfold trips; lia).
  assert (T2 : trips start end_ = Datatypes.S (Z.to_nat (end_ - start - 1)))
    by (unfold trips; lia).
  rewrite T1. cbn [for_loop]. rewrite T2. cbn [for_loop].
  unfold getSampleValue_int8.
  replace (nr_of_samples input <=? start) with true by (symmetry; apply Z.leb_le; lia).
  cbn [orb mbind outcome_mbind outcome_bind mret outcome_mret].
  now rewrite !set_valueBuffer_same.
Qed.

Lemma list_min_range16 seed vs :
  - 2 ^ 15 <= seed < 2 ^ 15 -> Forall (fun v => - 2 ^ 15 <= v < 2 ^ 15) vs ->
  - 2 ^ 15 <= list_min seed vs < 2 ^ 15.
Proof.
  intros Hs F. revert seed Hs. unfold list_min.
  induction F as [|v vs Hv F IH]; intros seed Hs; cbn [fold_left]; [exact Hs | apply IH; lia].
Qed.

Lemma list_max_range16 seed vs :
  - 2 ^ 15 <= seed < 2 ^ 15 -> Forall (fun v => - 2 ^ 15 <= v < 2 ^ 15) vs ->
  - 2 ^ 15 <= list_max seed vs < 2 ^ 15.
Proof.
  intros Hs F. revert seed Hs. unfold list_max.
  induction F as [|v vs Hv F IH]; intros seed Hs; cbn [fold_left]; [exact Hs | apply IH; lia].
Qed.

(** The inner loop of [aggregate_minmax_SIMD_s16x8_c]: it completes with the
    minimum and maximum of the samples of [start, end) that lie inside the
    input; the others are skipped. *)
Lemma minmax_s16_scan (b : RawTimelineValuesBuf) (src : list Z) (ch start end_ : Z) :
  bitwidth b = 16 -> bytes_per_sample b = 16 -> valueBuffer b = Some src ->
  0 <= ch < nr_of_channels b -> nr_of_channels b <= 8 ->
  0 <= nr_of_samples b < 2 ^ 28 ->
  16 * nr_of_samples b <= Z.of_nat (length src) ->
  0 <= start <= end_ ->
  exists vs,
    samples_s16 b ch start (Z.min end_ (nr_of_samples b)) = read_ok vs
    /\ Forall (fun v => - 2 ^ 15 <= v < 2 ^ 15) vs
    /\ for_each (trips start end_) start (fun j '(min_val, max_val) =>
         r ← getSampleValue_SIMD_sint16x8 b j ch;
         match r with
         | Some value =>
             let min_val := if value <? min_val then value else min_val in
             let max_val := if max_val <? value then value else max_val in
             mret (min_val, max_val)
         | None => mret (min_val, max_val)
         end) (INT16_MAX, INT16_MIN)
       = Done (list_min INT16_MAX vs, list_max INT16_MIN vs).
Proof.
  intros Hb Hp Hs Hc Hc8 Hn Hl Hse.
  set (n := nr_of_samples b) in *.
  set (body := fun (j : Z) (s : Z * Z) => _).
  set (P := fun (k : Z) (s : Z * Z) =>
    exists vs, map (fun j => getSampleValue_SIMD_sint16x8 b j ch)
                   (zrange (Z.to_nat (Z.min k n - start)) start)
               = read_ok vs
               /\ Forall (fun v => - 2 ^ 15 <= v < 2 ^ 15) vs
               /\ s = (list_min INT16_MAX vs, list_max INT16_MIN vs)).
  destruct (for_each_inv P body (trips start end_) start (INT16_MAX, INT16_MIN))
    as (s' & E & vs & Evs & F & ->).
  - exists []. replace (Z.to_nat (Z.min start n - start)) with 0%nat by lia.
    split; [reflexivity |]. split; [constructor | reflexivity].
  - intros k s Hk (vs & Evs & F & ->). unfold trips in Hk.
    destruct (Z.lt_ge_cases k n) as [Hlt|Hge].
    + assert (Ho : 0 <= 2 * (k * 8 + ch) /\ 2 * (k * 8 + ch) + 1 < Z.of_nat (length src))
        by lia.
      destruct (MemFacts.load_s16_Some src _ (proj1 Ho) (proj2 Ho)) as (v & Ev & Rv).
      assert (Eacc : getSampleValue_SIMD_sint16x8 b k ch = Done (Some v)).
      { rewrite (getSampleValue_SIMD_sint16x8_at b src k ch Hb Hp Hs) by (fold n; lia).
        rewrite Ev. reflexivity. }
      exists (Z.min (list_min INT16_MAX vs) v, Z.max (list_max INT16_MIN vs) v). split.
      * subst body. cbv beta iota zeta. rewrite Eacc.
        cbn [mbind outcome_mbind outcome_bind mret outcome_mret].
        do 2 f_equal.
        -- destruct (v <? list_min INT16_MAX vs) eqn:C;
             [apply Z.ltb_lt in C | apply Z.ltb_ge in C]; lia.
        -- destruct (list_max INT16_MIN vs <? v) eqn:C;
             [apply Z.ltb_lt in C | apply Z.ltb_ge in C]; lia.
      * exists (vs ++ [v]).
        replace (Z.to_nat (Z.min (k + 1) n - start))
          with (Datatypes.S (Z.to_nat (Z.min k n - start))) by lia.
        rewrite zrange_snoc, map_app, Evs. cbn [map].
        replace (start + Z.of_nat (Z.to_nat (Z.min k n - start))) with k by lia.
        rewrite Eacc.
        split; [now rewrite read_ok_snoc |].
        split; [apply Forall_app; split; [exact F | now constructor] |].
        now rewrite list_min_snoc, list_max_snoc.
    + exists (list_min INT16_MAX vs, list_max INT16_MIN vs). split.
      * subst body. cbv beta iota zeta. unfold getSampleValue_SIMD_sint16x8.
        fold n. replace (n <=? k) with true by (symmetry; apply Z.leb_le; lia).
        reflexivity.
      * exists vs. replace (Z.min (k + 1) n) with (Z.min k n) by lia.
        split; [exact Evs |]. split; [exact F | reflexivity].
  - exists vs. unfold samples_s16, trips. unfold trips in Evs.
    replace (Z.min (start + Z.of_nat (Z.to_nat (end_ - start))) n - start)
      with (Z.min end_ n - start) in Evs by lia.
    split; [exact Evs |]. split; [exact F | exact E].
Qed.

(** The scalar [int16_t] kernel on any bin: it returns 0, and element [i] of
    [outMin] and of [outMax] holds, for each channel, the minimum and the
    maximum of those samples of [start, end) that lie inside the input;
    samples past the end of the input are skipped, and a bin without any
    sample inside gives [INT16_MAX] and [INT16_MIN]. No other element
    changes. *)
Theorem aggregate_minmax_SIMD_s16x8_c_extremes
    (input outMin outMax : RawTimelineValuesBuf) (src mn mx : list Z) (i start end_ : Z) :
  bitwidth input = 16 -> bytes_per_sample input = 16 -> valueBuffer input = Some src ->
  0 <= nr_of_channels input <= 8 ->
  0 <= nr_of_samples input < 2 ^ 28 ->
  16 * nr_of_samples input <= Z.of_nat (length src) ->
  0 <= start <= end_ ->
  valueBuffer outMin = Some mn -> valueBuffer outMax = Some mx ->
  0 <= i < 2 ^ 28 ->
  2 * (i + 1) * nr_of_channels input <= Z.of_nat (length mn) ->
  2 * (i + 1) * nr_of_channels input <= Z.of_nat (length mx) ->
  exists mn' mx',
    aggregate_minmax_SIMD_s16x8_c input outMin outMax i start end_
    = Done (0, set_valueBuffer (Some mn') outMin, set_valueBuffer (Some mx') outMax)
    /\ length mn' = length mn /\ length mx' = length mx
    /\ (forall ch, 0 <= ch < nr_of_channels input ->
          exists vs,
            samples_s16 input ch start (Z.min end_ (nr_of_samples input)) = read_ok vs
            /\ Mem.load_s16 mn' (2 * (i * nr_of_channels input + ch))
               = Some (list_min INT16_MAX vs)
            /\ Mem.load_s16 mx' (2 * (i * nr_of_channels input + ch))
               = Some (list_max INT16_MIN vs))
    /\ (forall off,
          off < 2 * i * nr_of_channels input \/ 2 * (i + 1) * nr_of_channels input <= off ->
          Mem.load_u8 mn' off = Mem.load_u8 mn off
          /\ Mem.load_u8 mx' off = Mem.load_u8 mx off).
Proof.
  intros Hb Hp Hs Hn Hns Hl Hse Hmn Hmx Hi Lmn Lmx.
  change (2 ^ 28) with 268435456 in Hi.
  unfold aggregate_minmax_SIMD_s16x8_c. rewrite Hmn, Hmx.
  set (nch := nr_of_channels input) in *.
  set (body := fun (ch : Z) (s : option (list Z) * option (list Z)) => _).
  set (P := fun (k : Z) (s : option (list Z) * option (list Z)) =>
    exists a b, s = (Some a, Some b)
      /\ length a = length mn /\ length b = length mx
      /\ (forall ch, 0 <= ch < k ->
            exists vs,
              samples_s16 input ch start (Z.min end_ (nr_of_samples input)) = read_ok vs
              /\ Mem.load_s16 a (2 * (i * nch + ch)) = Some (list_min INT16_MAX vs)
              /\ Mem.load_s16 b (2 * (i * nch + ch)) = Some (list_max INT16_MIN vs))
      /\ (forall off, off < 2 * i * nch \/ 2 * i * nch + 2 * k <= off ->
            Mem.load_u8 a off = Mem.load_u8 mn off /\ Mem.load_u8 b off = Mem.load_u8 mx off)).
  destruct (for_each_inv P body (trips 0 nch) 0 (Some mn, Some mx))
    as (s' & E & a & b & -> & La & Lb & Hv & Hf).
  - exists mn, mx. split; [reflexivity |]. split; [reflexivity |]. split; [reflexivity |].
    split; [intros; lia | intros; split; reflexivity].
  - intros k s Hk (a & b & -> & La & Lb & Hv & Hf). unfold trips in Hk.
    assert (Hk' : 0 <= k < nch) by lia.
    destruct (minmax_s16_scan input src k start end_ Hb Hp Hs Hk' ltac:(lia) Hns Hl Hse)
      as (vs & Evs & F & Escan).
    assert (U : u32 (u32 (i * nch) + k) = i * nch + k).
    { rewrite (u32_small (i * nch)) by (change (2 ^ 32) with 4294967296; nia).
      apply u32_small. change (2 ^ 32) with 4294967296. nia. }
    pose proof (list_min_range16 INT16_MAX vs ltac:(unfold INT16_MAX; lia) F) as Rmin.
    pose proof (list_max_range16 INT16_MIN vs ltac:(unfold INT16_MIN; lia) F) as Rmax.
    set (o := 2 * (i * nch + k)).
    assert (Ho : 0 <= o /\ o + 1 < Z.of_nat (length a) /\ o + 1 < Z.of_nat (length b))
      by (subst o; nia).
    destruct Ho as (Ho0 & Hoa & Hob).
    pose proof (MemFacts.store_16_Some a o (list_min INT16_MAX vs) Ho0 Hoa) as Ea.
    pose proof (MemFacts.store_16_Some b o (list_max INT16_MIN vs) Ho0 Hob) as Eb.
    destruct (MemFacts.load_s16_store_16 a _ o _ Rmin Ho0 Hoa Ea) as (Ra & La' & Fa).
    destruct (MemFacts.load_s16_store_16 b _ o _ Rmax Ho0 Hob Eb) as (Rb & Lb' & Fb).
    eexists. split.
    + subst body. cbv beta iota zeta. cbv zeta in Escan. rewrite Escan.
      cbn [mbind outcome_mbind outcome_bind mret outcome_mret].
      rewrite U. unfold Mem.put_s16.
      cbn [access mbind outcome_mbind outcome_bind mret outcome_mret].
      fold o. rewrite Ea, Eb. cbn [access mbind outcome_mbind outcome_bind mret outcome_mret].
      reflexivity.
    + eexists _, _. split; [reflexivity |].
      split; [congruence |]. split; [congruence |]. split.
      * intros ch Hch. destruct (Z.eq_dec ch k) as [->|Hne].
        -- exists vs. split; [exact Evs |]. split; [exact Ra | exact Rb].
        -- destruct (Hv ch ltac:(lia)) as (vs' & E1 & E2 & E3).
           exists vs'. split; [exact E1 |].
           rewrite <- E2, <- E3.
           split; apply MemFacts.load_s16_ext; first [apply Fa | apply Fb]; subst o; lia.
      * intros off Ho'.
        destruct (Hf off ltac:(lia)) as [H1 H2]. rewrite <- H1, <- H2.
        split; [apply Fa | apply Fb]; subst o; lia.
  - exists a, b. split.
    + rewrite E. reflexivity.
    + split; [exact La |]. split; [exact Lb |]. split.
      * intros ch Hch. apply Hv. unfold trips. lia.
      * intros off Ho. apply Hf. unfold trips. lia.
Qed.

(* ===================================================================== *)
(** ** [aggregate_MinMax] over all bins *)

Lemma set_valueBuffer_twice v w b : set_valueBuffer v (set_valueBuffer w b) = set_valueBuffer v b.
Proof. reflexivity. Qed.

Lemma aggregate_MinMax_analog (g : backend_ptr) (input outMin outMax : RawTimelineValuesBuf)
    (inSamples inOffset : Z) :
  value_type input = TR_analog_sint8 ->
  aggregate_MinMax g (Some input) (Some outMin) (Some outMax) inSamples inOffset
  = '(mn, mx) ←
      for_each (trips 0 (nr_of_samples outMin)) 0 (fun i '(mn, mx) =>
        '(start, end_) ← bin_bounds (if 0 <? inSamples then inSamples else nr_of_samples input)
                           (nr_of_samples outMin) inOffset i;
        '(_, mn, mx) ← aggregate_minmax_s8_c input mn mx i start end_;
        mret (mn, mx)) (outMin, outMax);
    mret (0, Some mn, Some mx).
Proof.
  intros Hv. unfold aggregate_MinMax. rewrite Hv.
  rewrite (bool_decide_eq_true_2 _ (eq_refl TR_analog_sint8)). cbn [negb andb].
  destruct (decide _) as [_|?]; [| congruence].
  now destruct g.
Qed.

(** [aggregate_MinMax] does not look at the status of the kernel. When every
    bin starts at or after the end of an [int8_t] input, each kernel call
    fails with -1 and writes nothing, yet the call returns 0 with [outMin]
    and [outMax] as they were. *)
Theorem aggregate_MinMax_ignores_kernel_status
    (g : backend_ptr) (input outMin outMax : RawTimelineValuesBuf) (inSamples inOffset : Z) :
  value_type input = TR_analog_sint8 ->
  1 <= nr_of_channels input ->
  0 < inSamples ->
  (forall i, 0 <= i < nr_of_samples outMin ->
     exists start end_,
       bin_bounds inSamples (nr_of_samples outMin) inOffset i = Done (start, end_)
       /\ nr_of_samples input <= start < end_) ->
  aggregate_MinMax g (Some input) (Some outMin) (Some outMax) inSamples inOffset
  = Done (0, Some outMin, Some outMax).
Proof.
  intros Hv Hc Hin Hbins.
  rewrite (aggregate_MinMax_analog g input outMin outMax inSamples inOffset Hv).
  replace (0 <? inSamples) with true by (symmetry; apply Z.ltb_lt; lia).
  set (body := fun (i : Z) (s : RawTimelineValuesBuf * RawTimelineValuesBuf) => _).
  destruct (for_each_inv (fun _ s => s = (outMin, outMax)) body
              (trips 0 (nr_of_samples outMin)) 0 (outMin, outMax) eq_refl)
    as (s' & E & ->).
  - intros k s Hk ->. unfold trips in Hk.
    destruct (Hbins k ltac:(lia)) as (start & end_ & Eb & Hse).
    pose proof (aggregate_minmax_s8_c_outside input outMin outMax k start end_ Hc
                  ltac:(lia) ltac:(lia)) as Ek.
    exists (outMin, outMax). split; [| reflexivity].
    subst body. cbv beta iota. rewrite Eb.
    cbn [mbind outcome_mbind outcome_bind mret outcome_mret]. rewrite Ek. reflexivity.
  - rewrite E. reflexivity.
Qed.

(** [aggregate_MinMax] on an [int8_t] input whose bins all lie inside the
    input, in terms of the bytes of the two blocks. *)
Lemma aggregate_MinMax_s8_bins
    (g : backend_ptr) (input outMin outMax : RawTimelineValuesBuf) (src mn mx : list Z)
    (inSamples inOffset : Z) :
  value_type input = TR_analog_sint8 ->
  bitwidth input = 8 -> valueBuffer input = Some src ->
  0 <= nr_of_channels input -> 0 <= bytes_per_sample input ->
  (nr_of_samples input - 1) * bytes_per_sample input + nr_of_channels input
    <= Z.of_nat (length src) ->
  Z.of_nat (length src) <= 2 ^ 32 ->
  valueBuffer outMin = Some mn -> valueBuffer outMax = Some mx ->
  0 <= nr_of_samples outMin ->
  nr_of_samples outMin * nr_of_channels input <= 2 ^ 32 ->
  nr_of_samples outMin * nr_of_channels input <= Z.of_nat (length mn) ->
  nr_of_samples outMin * nr_of_channels input <= Z.of_nat (length mx) ->
  (forall i, 0 <= i < nr_of_samples outMin ->
     exists start end_,
       bin_bounds (if 0 <? inSamples then inSamples else nr_of_samples input)
         (nr_of_samples outMin) inOffset i = Done (start, end_)
       /\ 0 <= start <= end_ /\ end_ <= nr_of_samples input) ->
  exists mn' mx',
    aggregate_MinMax g (Some input) (Some outMin) (Some outMax) inSamples inOffset
    = Done (0, Some (set_valueBuffer (Some mn') outMin),
               Some (set_valueBuffer (Some mx') outMax))
    /\ forall i start end_ ch,
         0 <= i < nr_of_samples outMin ->
         bin_bounds (if 0 <? inSamples then inSamples else nr_of_samples input)
           (nr_of_samples outMin) inOffset i = Done (start, end_) ->
         0 <= ch < nr_of_channels input ->
         exists vs,
           samples_s8 input ch start end_ = read_ok vs
           /\ Mem.load_s8 mn' (i * nr_of_channels input + ch) = Some (list_min INT8_MAX vs)
           /\ Mem.load_s8 mx' (i * nr_of_channels input + ch) = Some (list_max INT8_MIN vs).
Proof.
  intros Hv Hb Hs Hn Hp Hl Hr Hmn Hmx Ho Hr2 Lmn Lmx Hbins.
  rewrite (aggregate_MinMax_analog g input outMin outMax inSamples inOffset Hv).
  set (ins := if 0 <? inSamples then inSamples else nr_of_samples input) in *.
  set (out := nr_of_samples outMin) in *.
  set (nch := nr_of_channels input) in *.
  set (body := fun (i : Z) (s : RawTimelineValuesBuf * RawTimelineValuesBuf) => _).
  set (P := fun (k : Z) (s : RawTimelineValuesBuf * RawTimelineValuesBuf) =>
    exists a b,
      s = (set_valueBuffer (Some a) outMin, set_valueBuffer (Some b) outMax)
      /\ length a = length mn /\ length b = length mx
      /\ forall i start end_ ch,
           0 <= i < k -> bin_bounds ins out inOffset i = Done (start, end_) ->
           0 <= ch < nch ->
           exists vs,
             samples_s8 input ch start end_ = read_ok vs
             /\ Mem.load_s8 a (i * nch + ch) = Some (list_min INT8_MAX vs)
             /\ Mem.load_s8 b (i * nch + ch) = Some (list_max INT8_MIN vs)).
  destruct (for_each_inv P body (trips 0 out) 0 (outMin, outMax))
    as (s' & E & a & b & -> & La & Lb & Hres).
  - exists mn, mx. rewrite <- Hmn, <- Hmx, !set_valueBuffer_same.
    split; [reflexivity |]. split; [reflexivity |]. split; [reflexivity |]. intros; lia.
  - intros k s Hk (a & b & -> & La & Lb & Hres). unfold trips in Hk.
    destruct (Hbins k ltac:(lia)) as (start & end_ & Eb & Hse & He).
    destruct (aggregate_minmax_s8_c_extremes input
                (set_valueBuffer (Some a) outMin) (set_valueBuffer (Some b) outMax)
                src a b k start end_ Hb Hs Hn Hp Hl Hr Hse He eq_refl eq_refl
                ltac:(lia) ltac:(fold nch; nia) ltac:(fold nch; nia) ltac:(fold nch; nia))
      as (a' & b' & Ek & La' & Lb' & Hk' & Hfr).
    eexists. split.
    + subst body. cbv beta iota. rewrite Eb.
      cbn [mbind outcome_mbind outcome_bind mret outcome_mret]. rewrite Ek.
      cbn [mbind outcome_mbind outcome_bind mret outcome_mret]. reflexivity.
    + exists a', b'. split; [reflexivity |].
      split; [congruence |]. split; [congruence |].
      intros i s e ch Hi Ebi Hch.
      destruct (Z.eq_dec i k) as [->|Hne].
      * rewrite Eb in Ebi. injection Ebi as <- <-. apply Hk'. exact Hch.
      * destruct (Hres i s e ch ltac:(lia) Ebi Hch) as (vs & E1 & E2 & E3).
        exists vs. split; [exact E1 |].
        rewrite <- E2, <- E3.
        destruct (Hfr (i * nch + ch) ltac:(fold nch; nia)) as [F1 F2].
        split; apply MemFacts8.load_s8_ext; assumption.
  - exists a, b. split.
    + rewrite E. reflexivity.
    + intros i s e ch Hi. apply Hres. unfold trips. lia.
Qed.

(** [aggregate_MinMax] on an [int8_t] input whose bins all lie inside the
    input, with [outMin] and [outMax] laid out like the input (as
    [prepare_AggregationMinMax] leaves them): it returns 0, and afterwards
    the accessor reads, for every bin and channel, the minimum of the
    channel's samples over the bin from [outMin] and their maximum from
    [outMax]. *)
Theorem aggregate_MinMax_s8_extremes
    (g : backend_ptr) (input outMin outMax : RawTimelineValuesBuf) (src mn mx : list Z)
    (inSamples inOffset : Z) :
  value_type input = TR_analog_sint8 ->
  bitwidth input = 8 -> valueBuffer input = Some src ->
  0 <= nr_of_channels input -> 0 <= bytes_per_sample input ->
  (nr_of_samples input - 1) * bytes_per_sample input + nr_of_channels input
    <= Z.of_nat (length src) ->
  Z.of_nat (length src) <= 2 ^ 32 ->
  valueBuffer outMin = Some mn -> valueBuffer outMax = Some mx ->
  bitwidth outMin = 8 -> bitwidth outMax = 8 ->
  nr_of_channels outMin = nr_of_channels input ->
  nr_of_channels outMax = nr_of_channels input ->
  bytes_per_sample outMin = nr_of_channels input ->
  bytes_per_sample outMax = nr_of_channels input ->
  nr_of_samples outMax = nr_of_samples outMin ->
  0 <= nr_of_samples outMin ->
  nr_of_samples outMin * nr_of_channels input <= 2 ^ 32 ->
  nr_of_samples outMin * nr_of_channels input <= Z.of_nat (length mn) ->
  nr_of_samples outMin * nr_of_channels input <= Z.of_nat (length mx) ->
  (forall i, 0 <= i < nr_of_samples outMin ->
     exists start end_,
       bin_bounds (if 0 <? inSamples then inSamples else nr_of_samples input)
         (nr_of_samples outMin) inOffset i = Done (start, end_)
       /\ 0 <= start <= end_ /\ end_ <= nr_of_samples input) ->
  exists outMin' outMax',
    aggregate_MinMax g (Some input) (Some outMin) (Some outMax) inSamples inOffset
    = Done (0, Some outMin', Some outMax')
    /\ forall i start end_ ch,
         0 <= i < nr_of_samples outMin ->
         bin_bounds (if 0 <? inSamples then inSamples else nr_of_samples input)
           (nr_of_samples outMin) inOffset i = Done (start, end_) ->
         0 <= ch < nr_of_channels input ->
         exists vs,
           samples_s8 input ch start end_ = read_ok vs
           /\ getSampleValue_int8 outMin' i ch = Done (Some (list_min INT8_MAX vs))
           /\ getSampleValue_int8 outMax' i ch = Done (Some (list_max INT8_MIN vs)).
Proof.
  intros Hv Hb Hs Hn Hp Hl Hr Hmn Hmx Bmn Bmx Cmn Cmx Pmn Pmx Hnx Ho Hr2 Lmn Lmx Hbins.
  destruct (aggregate_MinMax_s8_bins g input outMin outMax src mn mx inSamples inOffset
              Hv Hb Hs Hn Hp Hl Hr Hmn Hmx Ho Hr2 Lmn Lmx Hbins)
    as (mn' & mx' & E & H).
  exists (set_valueBuffer (Some mn') outMin), (set_valueBuffer (Some mx') outMax).
  split; [exact E |].
  intros i start end_ ch Hi Eb Hch.
  destruct (H i start end_ ch Hi Eb Hch) as (vs & E1 & E2 & E3).
  exists vs. split; [exact E1 |].
  change (2 ^ 32) with 4294967296 in Hr2.
  split.
  - rewrite (getSampleValue_int8_at _ mn' i ch) by
      (cbn; rewrite ?Cmn, ?Pmn; first [assumption | reflexivity | nia]).
    cbn [bytes_per_sample set_valueBuffer]. rewrite Pmn, E2. reflexivity.
  - rewrite (getSampleValue_int8_at _ mx' i ch) by
      (cbn; rewrite ?Cmx, ?Pmx, ?Hnx; first [assumption | reflexivity | nia]).
    cbn [bytes_per_sample set_valueBuffer]. rewrite Pmx, E3. reflexivity.
Qed.

Lemma aggregate_MinMax_simd (g : backend_ptr) (input outMin outMax : RawTimelineValuesBuf)
    (inSamples inOffset : Z) :
  value_type input = TR_SIMD_sint16x8 ->
  aggregate_MinMax g (Some input) (Some outMin) (Some outMax) inSamples inOffset
  = '(mn, mx) ←
      for_each (trips 0 (nr_of_samples outMin)) 0 (fun i '(mn, mx) =>
        '(start, end_) ← bin_bounds (if 0 <? inSamples then inSamples else nr_of_samples input)
                           (nr_of_samples outMin) inOffset i;
        '(_, mn, mx) ← aggregate_minmax_SIMD_s16x8_c input mn mx i start end_;
        mret (mn, mx)) (outMin, outMax);
    mret (0, Some mn, Some mx).
Proof.
  intros Hv. unfold aggregate_MinMax. rewrite Hv.
  rewrite (bool_decide_eq_true_2 _ (eq_refl TR_SIMD_sint16x8)).
  rewrite andb_false_r.
  destruct (decide _) as [?|_]; [discriminate |].
  now destruct g.
Qed.

(** [aggregate_MinMax] on an 8-lane [int16_t] input, in terms of the bytes
    of the two blocks. *)
Lemma aggregate_MinMax_s16_bins
    (g : backend_ptr) (input outMin outMax : RawTimelineValuesBuf) (src mn mx : list Z)
    (inSamples inOffset : Z) :
  value_type input = TR_SIMD_sint16x8 ->
  bitwidth input = 16 -> bytes_per_sample input = 16 -> valueBuffer input = Some src ->
  0 <= nr_of_channels input <= 8 ->
  0 <= nr_of_samples input < 2 ^ 28 ->
  16 * nr_of_samples input <= Z.of_nat (length src) ->
  valueBuffer outMin = Some mn -> valueBuffer outMax = Some mx ->
  0 <= nr_of_samples outMin < 2 ^ 28 ->
  2 * nr_of_samples outMin * nr_of_channels input <= Z.of_nat (length mn) ->
  2 * nr_of_samples outMin * nr_of_channels input <= Z.of_nat (length mx) ->
  (forall i, 0 <= i < nr_of_samples outMin ->
     exists start end_,
       bin_bounds (if 0 <? inSamples then inSamples else nr_of_samples input)
         (nr_of_samples outMin) inOffset i = Done (start, end_)
       /\ 0 <= start <= end_) ->
  exists mn' mx',
    aggregate_MinMax g (Some input) (Some outMin) (Some outMax) inSamples inOffset
    = Done (0, Some (set_valueBuffer (Some mn') outMin),
               Some (set_valueBuffer (Some mx') outMax))
    /\ forall i start end_ ch,
         0 <= i < nr_of_samples outMin ->
         bin_bounds (if 0 <? inSamples then inSamples else nr_of_samples input)
           (nr_of_samples outMin) inOffset i = Done (start, end_) ->
         0 <= ch < nr_of_channels input ->
         exists vs,
           samples_s16 input ch start (Z.min end_ (nr_of_samples input)) = read_ok vs
           /\ Mem.load_s16 mn' (2 * (i * nr_of_channels input + ch))
              = Some (list_min INT16_MAX vs)
           /\ Mem.load_s16 mx' (2 * (i * nr_of_channels input + ch))
              = Some (list_max INT16_MIN vs)
           /\ (nr_of_samples input <= start ->
               vs = [] /\ list_min INT16_MAX vs = INT16_MAX
               /\ list_max INT16_MIN vs = INT16_MIN).
Proof.
  intros Hv Hb Hp Hs Hn Hns Hl Hmn Hmx Ho Lmn Lmx Hbins.
  rewrite (aggregate_MinMax_simd g input outMin outMax inSamples inOffset Hv).
  set (ins := if 0 <? inSamples then inSamples else nr_of_samples input) in *.
  set (out := nr_of_samples outMin) in *.
  set (nch := nr_of_channels input) in *.
  change (2 ^ 28) with 268435456 in Ho.
  set (body := fun (i : Z) (s : RawTimelineValuesBuf * RawTimelineValuesBuf) => _).
  set (P := fun (k : Z) (s : RawTimelineValuesBuf * RawTimelineValuesBuf) =>
    exists a b,
      s = (set_valueBuffer (Some a) outMin, set_valueBuffer (Some b) outMax)
      /\ length a = length mn /\ length b = length mx
      /\ forall i start end_ ch,
           0 <= i < k -> bin_bounds ins out inOffset i = Done (start, end_) ->
           0 <= ch < nch ->
           exists vs,
             samples_s16 input ch start (Z.min end_ (nr_of_samples input)) = read_ok vs
             /\ Mem.load_s16 a (2 * (i * nch + ch)) = Some (list_min INT16_MAX vs)
             /\ Mem.load_s16 b (2 * (i * nch + ch)) = Some (list_max INT16_MIN vs)).
  destruct (for_each_inv P body (trips 0 out) 0 (outMin, outMax))
    as (s' & E & a & b & -> & La & Lb & Hres).
  - exists mn, mx. rewrite <- Hmn, <- Hmx, !set_valueBuffer_same.
    split; [reflexivity |]. split; [reflexivity |]. split; [reflexivity |]. intros; lia.
  - intros k s Hk (a & b & -> & La & Lb & Hres). unfold trips in Hk.
    destruct (Hbins k ltac:(lia)) as (start & end_ & Eb & Hse).
    destruct (aggregate_minmax_SIMD_s16x8_c_extremes input
                (set_valueBuffer (Some a) outMin) (set_valueBuffer (Some b) outMax)
                src a b k start end_ Hb Hp Hs Hn Hns Hl Hse eq_refl eq_refl
                ltac:(change (2 ^ 28) with 268435456; lia)
                ltac:(fold nch; nia) ltac:(fold nch; nia))
      as (a' & b' & Ek & La' & Lb' & Hk' & Hfr).
    eexists. split.
    + subst body. cbv beta iota. rewrite Eb.
      cbn [mbind outcome_mbind outcome_bind mret outcome_mret]. rewrite Ek.
      cbn [mbind outcome_mbind outcome_bind mret outcome_mret]. reflexivity.
    + exists a', b'. split; [reflexivity |].
      split; [congruence |]. split; [congruence |].
      intros i s e ch Hi Ebi Hch.
      destruct (Z.eq_dec i k) as [->|Hne].
      * rewrite Eb in Ebi. injection Ebi as <- <-. apply Hk'. exact Hch.
      * destruct (Hres i s e ch ltac:(lia) Ebi Hch) as (vs & E1 & E2 & E3).
        exists vs. split; [exact E1 |].
        rewrite <- E2, <- E3.
        destruct (Hfr (2 * (i * nch + ch)) ltac:(fold nch; nia)) as [F1 F2].
        destruct (Hfr (2 * (i * nch + ch) + 1) ltac:(fold nch; nia)) as [F3 F4].
        split; apply MemFacts.load_s16_ext; assumption.
  - exists a, b. split.
    + rewrite E. reflexivity.
    + intros i s e ch Hi Ebi Hch.
      destruct (Hres i s e ch ltac:(unfold trips; lia) Ebi Hch) as (vs & E1 & E2 & E3).
      exists vs. split; [exact E1 |]. split; [exact E2 |]. split; [exact E3 |].
      intros Hout.
      assert (vs = []).
      { unfold samples_s16, trips in E1.
        replace (Z.to_nat (Z.min e (nr_of_samples input) - s)) with 0%nat in E1 by lia.
        cbn in E1. destruct vs; [reflexivity | discriminate E1]. }
      subst vs. repeat split.
Qed.

(** [aggregate_MinMax] on an 8-lane [int16_t] input, with [outMin] and
    [outMax] laid out like the input (as [prepare_AggregationMinMax] leaves
    them): it returns 0, and afterwards the accessor reads, for every bin
    and channel, the minimum and the maximum of the channel's samples over
    the part of the bin that lies inside the input. Samples of a bin past
    the end of the input are skipped without an error, and a bin wholly
    outside gives [INT16_MAX] and [INT16_MIN]. *)
Theorem aggregate_MinMax_s16_extremes
    (g : backend_ptr) (input outMin outMax : RawTimelineValuesBuf) (src mn mx : list Z)
    (inSamples inOffset : Z) :
  value_type input = TR_SIMD_sint16x8 ->
  bitwidth input = 16 -> bytes_per_sample input = 16 -> valueBuffer input = Some src ->
  0 <= nr_of_channels input <= 8 ->
  0 <= nr_of_samples input < 2 ^ 28 ->
  16 * nr_of_samples input <= Z.of_nat (length src) ->
  valueBuffer outMin = Some mn -> valueBuffer outMax = Some mx ->
  bitwidth outMin = 16 -> bitwidth outMax = 16 ->
  nr_of_channels outMin = nr_of_channels input ->
  nr_of_channels outMax = nr_of_channels input ->
  bytes_per_sample outMin = 2 * nr_of_channels input ->
  bytes_per_sample outMax = 2 * nr_of_channels input ->
  nr_of_samples outMax = nr_of_samples outMin ->
  0 <= nr_of_samples outMin < 2 ^ 28 ->
  2 * nr_of_samples outMin * nr_of_channels input <= Z.of_nat (length mn) ->
  2 * nr_of_samples outMin * nr_of_channels input <= Z.of_nat (length mx) ->
  (forall i, 0 <= i < nr_of_samples outMin ->
     exists start end_,
       bin_bounds (if 0 <? inSamples then inSamples else nr_of_samples input)
         (nr_of_samples outMin) inOffset i = Done (start, end_)
       /\ 0 <= start <= end_) ->
  exists outMin' outMax',
    aggregate_MinMax g (Some input) (Some outMin) (Some outMax) inSamples inOffset
    = Done (0, Some outMin', Some outMax')
    /\ forall i start end_ ch,
         0 <= i < nr_of_samples outMin ->
         bin_bounds (if 0 <? inSamples then inSamples else nr_of_samples input)
           (nr_of_samples outMin) inOffset i = Done (start, end_) ->
         0 <= ch < nr_of_channels input ->
         exists vs,
           samples_s16 input ch start (Z.min end_ (nr_of_samples input)) = read_ok vs
           /\ getSampleValue_SIMD_sint16x8 outMin' i ch = Done (Some (list_min INT16_MAX vs))
           /\ getSampleValue_SIMD_sint16x8 outMax' i ch = Done (Some (list_max INT16_MIN vs))
           /\ (nr_of_samples input <= start ->
               getSampleValue_SIMD_sint16x8 outMin' i ch = Done (Some INT16_MAX)
               /\ getSampleValue_SIMD_sint16x8 outMax' i ch = Done (Some INT16_MIN)).
Proof.
  intros Hv Hb Hp Hs Hn Hns Hl Hmn Hmx Bmn Bmx Cmn Cmx Pmn Pmx Hnx Ho Lmn Lmx Hbins.
  destruct (aggregate_MinMax_s16_bins g input outMin outMax src mn mx inSamples inOffset
              Hv Hb Hp Hs Hn Hns Hl Hmn Hmx Ho Lmn Lmx Hbins)
    as (mn' & mx' & E & H).
  exists (set_valueBuffer (Some mn') outMin), (set_valueBuffer (Some mx') outMax).
  split; [exact E |].
  intros i start end_ ch Hi Eb Hch.
  destruct (H i start end_ ch Hi Eb Hch) as (vs & E1 & E2 & E3 & E4).
  exists vs. split; [exact E1 |].
  change (2 ^ 28) with 268435456 in Ho.
  assert (A1 : getSampleValue_SIMD_sint16x8 (set_valueBuffer (Some mn') outMin) i ch
               = Done (Some (list_min INT16_MAX vs))).
  { rewrite (getSampleValue_SIMD_sint16x8_off _ mn' i ch) by
      (cbn; rewrite ?Cmn, ?Pmn; change (2 ^ 32) with 4294967296;
       first [assumption | reflexivity | nia]).
    cbn [bytes_per_sample set_valueBuffer]. rewrite Pmn.
    replace (i * (2 * nr_of_channels input) + 2 * ch)
      with (2 * (i * nr_of_channels input + ch)) by lia.
    rewrite E2. reflexivity. }
  assert (A2 : getSampleValue_SIMD_sint16x8 (set_valueBuffer (Some mx') outMax) i ch
               = Done (Some (list_max INT16_MIN vs))).
  { rewrite (getSampleValue_SIMD_sint16x8_off _ mx' i ch) by
      (cbn; rewrite ?Cmx, ?Pmx, ?Hnx; change (2 ^ 32) with 4294967296;
       first [assumption | reflexivity | nia]).
    cbn [bytes_per_sample set_valueBuffer]. rewrite Pmx.
    replace (i * (2 * nr_of_channels input) + 2 * ch)
      with (2 * (i * nr_of_channels input + ch)) by lia.
    rewrite E3. reflexivity. }
  split; [exact A1 |]. split; [exact A2 |].
  intros Hout. destruct (E4 Hout) as (_ & M1 & M2).
  rewrite A1, A2, M1, M2. split; reflexivity.
Qed.

(* ===================================================================== *)
(** ** Consecutive bins *)

(** Bins follow one another without a gap: the end of bin [i] is the start
    of bin [i + 1], moved up to [start + 1] when the bin would be empty and
    cut at the end of the window. *)
Theorem bin_bounds_contiguous (in_samples out_samples inOffset i s e s' e' : Z) :
  0 <= i -> i + 1 < 2 ^ 32 ->
  bin_bounds in_samples out_samples inOffset i = Done (s, e) ->
  bin_bounds in_samples out_samples inOffset (i + 1) = Done (s', e') ->
  s < UINT32_MAX ->
  e = Z.min (u32 (inOffset + in_samples)) (Z.max s' (s + 1))
  /\ (s < s' <= u32 (inOffset + in_samples) -> e = s').
Proof.
  intros Hi Hi1 E1 E2 Hs.
  assert (Hmain : e = Z.min (u32 (inOffset + in_samples)) (Z.max s' (s + 1))).
  { revert E1 E2. unfold bin_bounds.
    rewrite (u32_small (i + 1)) by lia.
    destruct (F.to_u32 (F.floorf (F.mul (F.of_Z i) _))) as [a| |]; try discriminate.
    destruct (F.to_u32 (F.floorf (F.mul (F.of_Z (i + 1)) _))) as [b| |]; try discriminate.
    cbn [mbind outcome_mbind outcome_bind mret outcome_mret].
    destruct (F.to_u32 _) as [c| |]; try discriminate.
    cbn [mbind outcome_mbind outcome_bind mret outcome_mret].
    intros H1 H2. injection H1 as <- <-. injection H2 as <- _.
    set (st := u32 (inOffset + a)) in *. set (nx := u32 (inOffset + b)).
    set (lim := u32 (inOffset + in_samples)).
    assert (Hst : 0 <= st < 2 ^ 32) by (apply Z.mod_pos_bound; lia).
    unfold UINT32_MAX in Hs. change (2 ^ 32) with 4294967296 in Hst.
    assert (U : u32 (st + 1) = st + 1)
      by (apply u32_small; change (2 ^ 32) with 4294967296; lia).
    rewrite U.
    destruct (nx <=? st) eqn:C1; [apply Z.leb_le in C1 | apply Z.leb_gt in C1].
    - destruct (lim <? st + 1) eqn:C2; [apply Z.ltb_lt in C2 | apply Z.ltb_ge in C2]; lia.
    - destruct (lim <? nx) eqn:C2; [apply Z.ltb_lt in C2 | apply Z.ltb_ge in C2]; lia. }
  split; [exact Hmain | intros H; lia].
Qed.

(* ===================================================================== *)
(** ** Positions of the Bresenham kernel *)

Lemma bresenham_position_succ (n m : Z) (i : nat) :
  bresenham_position n m (Datatypes.S i)
  = bresenham_advance n n m (fst (bresenham_position n m i)) (snd (bresenham_position n m i)).
Proof. reflexivity. Qed.

(** One advance without the clamp, for a step not above the scale. *)
Lemma bresenham_advance_exact (n m q r p : Z) :
  2 <= n -> n <= m -> m < 2 ^ 31 ->
  0 <= q -> 0 <= r < m -> p = q * m + r ->
  (p + n) / m < n - 1 ->
  bresenham_advance n n m q r = ((p + n) / m, (p + n) mod m).
Proof.
  intros Hn Hnm Hm Hq Hr -> Hlt. change (2 ^ 31) with 2147483648 in Hm.
  unfold bresenham_advance.
  rewrite (u32_small (r + n)) by (change (2 ^ 32) with 4294967296; lia).
  rewrite (u32_small (n - 1)) by (change (2 ^ 32) with 4294967296; lia).
  destruct (m <=? r + n) eqn:C; [apply Z.leb_le in C | apply Z.leb_gt in C].
  - assert (Ed : (q * m + r + n) / m = q + 1)
      by (symmetry; apply Z.div_unique with (r := r + n - m); lia).
    assert (Em : (q * m + r + n) mod m = r + n - m)
      by (symmetry; apply Z.mod_unique with (q := q + 1); lia).
    rewrite Ed in Hlt. rewrite Ed, Em.
    rewrite (u32_small (q + 1)) by (change (2 ^ 32) with 4294967296; lia).
    rewrite (u32_small (r + n - m)) by (change (2 ^ 32) with 4294967296; lia).
    replace (n - 1 <=? q + 1) with false by (symmetry; apply Z.leb_gt; lia).
    reflexivity.
  - assert (Ed : (q * m + r + n) / m = q)
      by (symmetry; apply Z.div_unique with (r := r + n); lia).
    assert (Em : (q * m + r + n) mod m = r + n)
      by (symmetry; apply Z.mod_unique with (q := q); lia).
    rewrite Ed in Hlt. rewrite Ed, Em.
    replace (n - 1 <=? q) with false by (symmetry; apply Z.leb_gt; lia).
    reflexivity.
Qed.

(** Conversion to at least as many frames ([in_samples <= out_samples]).
    Up to output frame [out_samples - out_samples / in_samples] the kernel
    stands at the exact position [i * in_samples / out_samples], with the
    remainder as accumulator. At that frame the clamp sets it back to input
    frame [in_samples - 2] with accumulator 0, and the remaining frames
    interpolate forward from there again. The position never leaves the
    input, and the accumulator stays below the scale. *)
Theorem bresenham_position_upsample (n m : Z) (i : nat) :
  2 <= n -> n <= m -> m < 2 ^ 31 -> Z.of_nat i < m ->
  bresenham_position n m i
  = (if Z.of_nat i <? m - m / n
     then (Z.of_nat i * n / m, (Z.of_nat i * n) mod m)
     else (n - 2, (Z.of_nat i - (m - m / n)) * n))
  /\ 0 <= fst (bresenham_position n m i) <= n - 2
  /\ 0 <= snd (bresenham_position n m i) < m.
Proof.
  intros Hn Hnm Hm. pose proof Hm as Hm'. change (2 ^ 31) with 2147483648 in Hm'.
  assert (Hq := Z.div_mod m n ltac:(lia)).
  assert (Hr := Z.mod_pos_bound m n ltac:(lia)).
  set (c := m / n) in *. set (r0 := m mod n) in *.
  assert (Hc : 1 <= c) by nia.
  assert (Hbefore : forall k, 0 <= k < m - c -> k * n / m < n - 1).
  { intros k Hk. apply Z.div_lt_upper_bound; [lia | nia]. }
  assert (Heq : forall k : nat, Z.of_nat k < m ->
            bresenham_position n m k
            = (if Z.of_nat k <? m - c
               then (Z.of_nat k * n / m, (Z.of_nat k * n) mod m)
               else (n - 2, (Z.of_nat k - (m - c)) * n))).
  { induction k as [|k IH]; intros Hk.
    - replace (Z.of_nat 0 <? m - c) with true by (symmetry; apply Z.ltb_lt; nia).
      cbn [Z.of_nat Z.mul]. rewrite Z.div_0_l, Z.mod_0_l by lia. reflexivity.
    - rewrite bresenham_position_succ, (IH ltac:(lia)).
      rewrite (Nat2Z.inj_succ k). set (z := Z.of_nat k) in *.
      assert (Hz : 0 <= z) by (subst z; lia).
      destruct (z <? m - c) eqn:C1; [apply Z.ltb_lt in C1 | apply Z.ltb_ge in C1];
        cbn [fst snd].
      + assert (Dz := Z.div_mod (z * n) m ltac:(lia)).
        assert (Rz := Z.mod_pos_bound (z * n) m ltac:(lia)).
        assert (Qz : 0 <= z * n / m) by (apply Z.div_pos; nia).
        destruct (Z.succ z <? m - c) eqn:C2;
          [apply Z.ltb_lt in C2 | apply Z.ltb_ge in C2].
        * rewrite (bresenham_advance_exact n m _ _ (z * n) Hn Hnm Hm Qz Rz) by
            first [ lia | replace (z * n + n) with (Z.succ z * n) by lia;
                          apply Hbefore; lia ].
          now replace (z * n + n) with (Z.succ z * n) by lia.
        * assert (Ez : z = m - c - 1) by lia.
          unfold bresenham_advance.
          set (q := z * n / m) in *. set (r := (z * n) mod m) in *.
          assert (Hqn : q = n - 2 /\ m <= r + n).
          { assert (q < n - 1) by (apply Hbefore; lia).
            assert (n - 2 <= q) by nia.
            split; [lia | nia]. }
          destruct Hqn as [Eq Hrn].
          rewrite (u32_small (r + n)) by (change (2 ^ 32) with 4294967296; lia).
          replace (m <=? r + n) with true by (symmetry; apply Z.leb_le; lia).
          rewrite (u32_small (q + 1)) by (change (2 ^ 32) with 4294967296; lia).
          rewrite (u32_small (n - 1)) by (change (2 ^ 32) with 4294967296; lia).
          replace (n - 1 <=? q + 1) with true by (symmetry; apply Z.leb_le; lia).
          rewrite (u32_small (n - 2)) by (change (2 ^ 32) with 4294967296; lia).
          f_equal. lia.
      + replace (Z.succ z <? m - c) with false by (symmetry; apply Z.ltb_ge; lia).
        unfold bresenham_advance.
        assert (Hacc : 0 <= (z - (m - c)) * n + n < m) by nia.
        rewrite (u32_small ((z - (m - c)) * n + n))
          by (change (2 ^ 32) with 4294967296; lia).
        replace (m <=? (z - (m - c)) * n + n) with false by (symmetry; apply Z.leb_gt; lia).
        rewrite (u32_small (n - 1)) by (change (2 ^ 32) with 4294967296; lia).
        replace (n - 1 <=? n - 2) with false by (symmetry; apply Z.leb_gt; lia).
        f_equal. lia. }
  intros Hi. rewrite (Heq i Hi). fold c. split; [reflexivity |].
  destruct (Z.of_nat i <? m - c) eqn:C; [apply Z.ltb_lt in C | apply Z.ltb_ge in C];
    cbn [fst snd].
  - assert (Rz := Z.mod_pos_bound (Z.of_nat i * n) m ltac:(lia)).
    assert (Z.of_nat i * n / m < n - 1) by (apply Hbefore; lia).
    assert (0 <= Z.of_nat i * n / m) by (apply Z.div_pos; nia).
    lia.
  - nia.
Qed.

(** Conversion to fewer frames ([out_samples < in_samples]). The kernel
    moves on by one input frame for each output frame, whatever the ratio:
    at output frame [i] it stands at input frame [i], and the accumulator is
    [i * (in_samples - out_samples)], which from some frame on is not below
    the scale. *)
Theorem bresenham_position_downsample (n m : Z) (i : nat) :
  1 <= m -> m < n -> n * m < 2 ^ 32 -> Z.of_nat i < m ->
  bresenham_position n m i = (Z.of_nat i, Z.of_nat i * (n - m)).
Proof.
  intros Hm Hmn Hnm. change (2 ^ 32) with 4294967296 in Hnm.
  induction i as [|i IH]; intros Hi; [reflexivity |].
  rewrite bresenham_position_succ, (IH ltac:(lia)). cbn [fst snd].
  rewrite (Nat2Z.inj_succ i). set (z := Z.of_nat i) in *.
  assert (Hz : 0 <= z) by (subst z; lia).
  unfold bresenham_advance.
  assert (Hacc : 0 <= z * (n - m) + n < 4294967296) by nia.
  rewrite (u32_small (z * (n - m) + n)) by (change (2 ^ 32) with 4294967296; lia).
  replace (m <=? z * (n - m) + n) with true by (symmetry; apply Z.leb_le; nia).
  rewrite (u32_small (z + 1)) by (change (2 ^ 32) with 4294967296; nia).
  rewrite (u32_small (z * (n - m) + n - m)) by (change (2 ^ 32) with 4294967296; nia).
  rewrite (u32_small (n - 1)) by (change (2 ^ 32) with 4294967296; nia).
  replace (n - 1 <=? z + 1) with false by (symmetry; apply Z.leb_gt; lia).
  f_equal; lia.
Qed.

(** The kernel computes output frame [i] at the position reached by [i]
    advances from the start. *)
Lemma bresenham_kernel_positions (input output : RawTimelineValuesBuf) :
  nr_of_channels input = 8 ->
  convert_sample_rate_SIMD_s16x8_bresenham input output
  = dst ← for_each (trips 0 (nr_of_samples output)) 0 (fun i dst =>
      let p := bresenham_position (nr_of_samples input) (nr_of_samples output)
                 (Z.to_nat i) in
      let idx1 := if u32 (fst p + 1) <? nr_of_samples input then u32 (fst p + 1) else fst p in
      let frac := D.div (D.of_Z (snd p)) (D.of_Z (nr_of_samples output)) in
      for_each (trips 0 8) 0 (fun j dst =>
        v0 ← Mem.get_s16 (valueBuffer input) (u32 (u32 (fst p * 8) + j));
        v1 ← Mem.get_s16 (valueBuffer input) (u32 (u32 (idx1 * 8) + j));
        v ← interp_s16 frac v0 v1;
        Mem.put_s16 dst (u32 (u32 (i * 8) + j)) v) dst) (valueBuffer output);
    mret (0, set_valueBuffer dst output).
Proof.
  intros Hc. unfold convert_sample_rate_SIMD_s16x8_bresenham. rewrite Hc.
  cbn [negb Z.eqb Pos.eqb].
  set (n := nr_of_samples input). set (m := nr_of_samples output).
  set (body := fun (i : Z) (s : Z * Z * option (list Z)) => _).
  set (body' := fun (i : Z) (dst : option (list Z)) => _).
  assert (Hbody : forall (i0 : nat) (dst : option (list Z)),
            body (Z.of_nat i0)
              (fst (bresenham_position n m i0), snd (bresenham_position n m i0), dst)
            = d ← body' (Z.of_nat i0) dst;
              mret (fst (bresenham_position n m (Datatypes.S i0)),
                    snd (bresenham_position n m (Datatypes.S i0)), d)).
  { intros i0 dst. subst body body'. cbv beta iota zeta. rewrite Nat2Z.id.
    destruct (for_each (trips 0 8) 0 _ dst) as [d| |];
      cbn [mbind outcome_mbind outcome_bind mret outcome_mret]; try reflexivity.
    rewrite (bresenham_position_succ n m i0).
    now destruct (bresenham_advance n n m _ _) as [a b]. }
  assert (H : forall (k i0 : nat) (dst : option (list Z)),
            for_each k (Z.of_nat i0) body
              (fst (bresenham_position n m i0), snd (bresenham_position n m i0), dst)
            = d ← for_each k (Z.of_nat i0) body' dst;
              mret (fst (bresenham_position n m (i0 + k)),
                    snd (bresenham_position n m (i0 + k)), d)).
  { induction k as [|k IH]; intros i0 dst.
    - cbn [for_each mbind outcome_mbind outcome_bind mret outcome_mret].
      now rewrite Nat.add_0_r.
    - cbn [for_each]. rewrite Hbody.
      destruct (body' (Z.of_nat i0) dst) as [d| |];
        cbn [mbind outcome_mbind outcome_bind mret outcome_mret]; try reflexivity.
      replace (Z.of_nat i0 + 1) with (Z.of_nat (Datatypes.S i0)) by lia.
      rewrite IH. now replace (Datatypes.S i0 + k)%nat with (i0 + Datatypes.S k)%nat by lia. }
  specialize (H (trips 0 m) 0%nat (valueBuffer output)).
  change (Z.of_nat 0) with 0 in H.
  change (fst (bresenham_position n m 0)) with 0 in H.
  change (snd (bresenham_position n m 0)) with 0 in H.
  rewrite H.
  destruct (for_each (trips 0 m) 0 body' (valueBuffer output)) as [d| |]; reflexivity.
Qed.

Lemma for_each_ext {S} (f g : Z -> S -> outcome S) :
  forall (n : nat) (i : Z) (s : S),
    (forall k s, i <= k < i + Z.of_nat n -> f k s = g k s) ->
    for_each n i f s = for_each n i g s.
Proof.
  induction n as [|n IH]; intros i s H; [reflexivity |].
  cbn [for_each]. rewrite (H i s) by lia.
  destruct (g i s) as [s'| |]; cbn [mbind outcome_mbind outcome_bind]; try reflexivity.
  apply IH. intros k t Hk. apply H. lia.
Qed.

(** Conversion to fewer frames, on the kernel itself: output frame [i] is
    computed from input frames [i] and [i + 1] alone, with the weight
    [i * (in_samples - out_samples) / out_samples], which is not confined
    to [0, 1). Input frames after [out_samples] are never read. *)
Theorem bresenham_downsample_frames (input output : RawTimelineValuesBuf) :
  nr_of_channels input = 8 ->
  1 <= nr_of_samples output -> nr_of_samples output < nr_of_samples input ->
  nr_of_samples input * nr_of_samples output < 2 ^ 32 ->
  convert_sample_rate_SIMD_s16x8_bresenham input output
  = dst ← for_each (trips 0 (nr_of_samples output)) 0 (fun i dst =>
      let frac := D.div (D.of_Z (i * (nr_of_samples input - nr_of_samples output)))
                        (D.of_Z (nr_of_samples output)) in
      for_each (trips 0 8) 0 (fun j dst =>
        v0 ← Mem.get_s16 (valueBuffer input) (i * 8 + j);
        v1 ← Mem.get_s16 (valueBuffer input) ((i + 1) * 8 + j);
        v ← interp_s16 frac v0 v1;
        Mem.put_s16 dst (i * 8 + j) v) dst) (valueBuffer output);
    mret (0, set_valueBuffer dst output).
Proof.
  intros Hc Hm Hmn Hnm.
  rewrite (bresenham_kernel_positions input output Hc).
  set (n := nr_of_samples input) in *. set (m := nr_of_samples output) in *.
  pose proof Hnm as Hnm'. change (2 ^ 32) with 4294967296 in Hnm'.
  f_equal. apply for_each_ext. intros i dst Hi. unfold trips in Hi.
  cbv zeta.
  rewrite (bresenham_position_downsample n m (Z.to_nat i) Hm Hmn Hnm ltac:(lia)).
  cbn [fst snd]. rewrite Z2Nat.id by lia.
  assert (Hi8 : 0 <= i * 8 /\ (i + 1) * 8 + 8 < 4294967296) by nia.
  rewrite (u32_small (i + 1)) by (change (2 ^ 32) with 4294967296; lia).
  replace (i + 1 <? n) with true by (symmetry; apply Z.ltb_lt; lia).
  rewrite (u32_small (i * 8)), (u32_small ((i + 1) * 8))
    by (change (2 ^ 32) with 4294967296; lia).
  apply for_each_ext. intros j d Hj. change (Z.of_nat (trips 0 8)) with 8 in Hj.
  rewrite !u32_small by (change (2 ^ 32) with 4294967296; lia).
  reflexivity.
Qed.

(* ===================================================================== *)
(** ** Conversion between the scalar and the 8-lane layout *)

(** One call of [convert_to_NeonAlignedBuffer], sample by sample. *)
Lemma convert_to_NeonAlignedBuffer_lanes
    (src d : RawTimelineValuesBuf) (ms md : list Z) (srcChannel dstChannel : Z) :
  value_type src = TR_analog_sint8 -> bitwidth src = 8 -> valueBuffer src = Some ms ->
  0 <= srcChannel < nr_of_channels src -> 0 <= bytes_per_sample src ->
  (nr_of_samples src - 1) * bytes_per_sample src + nr_of_channels src
    <= Z.of_nat (length ms) ->
  Z.of_nat (length ms) <= 2 ^ 32 ->
  value_type d = TR_SIMD_sint16x8 -> bitwidth d = 16 -> bytes_per_sample d = 16 ->
  nr_of_samples d = nr_of_samples src -> 0 <= nr_of_samples src < 2 ^ 28 ->
  0 <= dstChannel < nr_of_channels d -> nr_of_channels d <= 8 ->
  valueBuffer d = Some md -> 16 * nr_of_samples src <= Z.of_nat (length md) ->
  exists md',
    convert_to_NeonAlignedBuffer src (Some d) srcChannel dstChannel
    = Done (0, Some (set_valueBuffer (Some md') d))
    /\ length md' = length md
    /\ (forall i, 0 <= i < nr_of_samples src ->
          exists v,
            getSampleValue_int8 src i srcChannel = Done (Some v)
            /\ getSampleValue_SIMD_sint16x8 (set_valueBuffer (Some md') d) i dstChannel
               = Done (Some v))
    /\ (forall i c, 0 <= i < nr_of_samples src -> 0 <= c < nr_of_channels d ->
          c <> dstChannel ->
          getSampleValue_SIMD_sint16x8 (set_valueBuffer (Some md') d) i c
          = getSampleValue_SIMD_sint16x8 d i c).
Proof.
  intros Hvs Hbs Hms Hsc Hps Hls Hrs Hvd Hbd Hpd Hnd Hn Hdc Hc8 Hmd Hld.
  change (2 ^ 28) with 268435456 in Hn.
  unfold convert_to_NeonAlignedBuffer.
  rewrite Hvs, Hbs, Hvd, Hbd, Hnd, Hms, Hmd.
  rewrite (bool_decide_eq_true_2 _ (eq_refl TR_analog_sint8)).
  rewrite (bool_decide_eq_true_2 _ (eq_refl TR_SIMD_sint16x8)).
  rewrite !Z.eqb_refl.
  replace (8 <? nr_of_channels d) with false by (symmetry; apply Z.ltb_ge; lia).
  cbn [negb orb Z.eqb Pos.eqb].
  set (n := nr_of_samples src) in *.
  set (body := fun (i : Z) (buf : option (list Z)) => _).
  set (P := fun (k : Z) (buf : option (list Z)) =>
    exists m, buf = Some m /\ length m = length md
      /\ (forall i, 0 <= i < k ->
            exists v, Mem.load_s8 ms (i * bytes_per_sample src + srcChannel) = Some v
                      /\ Mem.load_s16 m (16 * i + 2 * dstChannel) = Some v)
      /\ (forall off, (forall i, 0 <= i < k ->
                         off <> 16 * i + 2 * dstChannel
                         /\ off <> 16 * i + 2 * dstChannel + 1) ->
            Mem.load_u8 m off = Mem.load_u8 md off)).
  destruct (for_loop_inv (R := option (list Z)) P body (trips 0 n) 0 (Some md))
    as (s' & E & m & -> & Lm & Hw & Hf).
  - exists md. split; [reflexivity |]. split; [reflexivity |].
    split; [intros; lia | reflexivity].
  - intros k s Hk (m & -> & Lm & Hw & Hf). unfold trips in Hk.
    assert (Hk' : 0 <= k < n) by lia.
    assert (Hos : 0 <= k * bytes_per_sample src + srcChannel < Z.of_nat (length ms))
      by (fold n in Hls; nia).
    destruct (MemFacts8.load_s8_Some ms _ Hos) as (v & Ev & Rv).
    assert (Eso : getSampleByteOffset src k srcChannel
                  = Some (k * bytes_per_sample src + srcChannel)).
    { rewrite (getSampleByteOffset_at src k srcChannel) by
        (rewrite ?Hbs, ?Z.div_mul; lia).
      now rewrite Hbs, Z.div_mul by lia. }
    assert (Edo : getSampleByteOffset d k dstChannel = Some (16 * k + 2 * dstChannel)).
    { assert (Ediv : dstChannel * 16 / 8 = 2 * dstChannel)
        by (symmetry; apply Z.div_unique with (r := 0); lia).
      rewrite (getSampleByteOffset_at d k dstChannel) by
        (rewrite ?Hbd, ?Hpd, ?Hnd, ?Ediv; fold n; lia).
      rewrite Hbd, Hpd, Ediv. f_equal. lia. }
    set (o := 16 * k + 2 * dstChannel).
    assert (Ho0 : 0 <= o) by (subst o; lia).
    assert (Ho1 : o + 1 < Z.of_nat (length m)) by (subst o; lia).
    pose proof (MemFacts.store_16_Some m o v Ho0 Ho1) as Est.
    destruct (MemFacts.load_s16_store_16 m _ o v ltac:(change (2 ^ 15) with 32768; lia)
                Ho0 Ho1 Est) as (Rd & Ll & Hfr).
    eexists. split.
    + subst body. cbv beta. rewrite Eso, Edo.
      cbn [access mbind outcome_mbind outcome_bind mret outcome_mret].
      rewrite Ev. cbn [access mbind outcome_mbind outcome_bind mret outcome_mret].
      fold o. rewrite Est. reflexivity.
    + eexists. split; [reflexivity |]. split; [congruence |]. split.
      * intros i Hi. destruct (Z.eq_dec i k) as [->|Hne].
        -- exists v. split; [exact Ev | exact Rd].
        -- destruct (Hw i ltac:(lia)) as (w & E1 & E2).
           exists w. split; [exact E1 |]. rewrite <- E2.
           apply MemFacts.load_s16_ext; apply Hfr; subst o; lia.
      * intros off Hoff. rewrite <- (Hf off).
        -- apply Hfr; subst o; destruct (Hoff k ltac:(lia)); lia.
        -- intros i Hi. apply Hoff. lia.
  - exists m. split; [rewrite E; reflexivity |]. split; [exact Lm |].
    unfold trips in Hw, Hf. replace (0 + Z.of_nat (Z.to_nat (n - 0))) with n in Hw, Hf by lia.
    split.
    + intros i Hi. destruct (Hw i Hi) as (v & E1 & E2). exists v. split.
      * rewrite (getSampleValue_int8_at src ms i srcChannel Hbs Hms) by (fold n in Hls; nia).
        rewrite E1. reflexivity.
      * rewrite (getSampleValue_SIMD_sint16x8_at _ m i dstChannel) by
          (cbn; rewrite ?Hnd; fold n; first [assumption | reflexivity | lia]).
        replace (2 * (i * 8 + dstChannel)) with (16 * i + 2 * dstChannel) by lia.
        rewrite E2. reflexivity.
    + intros i c Hi Hc Hne.
      rewrite (getSampleValue_SIMD_sint16x8_at _ m i c) by
        (cbn; rewrite ?Hnd; fold n; first [assumption | reflexivity | lia]).
      rewrite (getSampleValue_SIMD_sint16x8_at d md i c) by
        (rewrite ?Hnd; fold n; first [assumption | reflexivity | lia]).
      do 2 f_equal. apply MemFacts.load_s16_ext; apply Hf; intros i' Hi'; lia.
Qed.

(** Widening one channel. For an [int8_t] source and an 8-lane [int16_t]
    destination of the same length, [convert_to_NeonAlignedBuffer] returns
    0; afterwards lane [dstChannel] of the destination reads, over the whole
    buffer, as channel [srcChannel] of the source, sign included, and every
    other lane reads as it did before, so that lanes can be filled one call
    after the other. *)
Theorem convert_to_NeonAlignedBuffer_widens
    (src d : RawTimelineValuesBuf) (ms md : list Z) (srcChannel dstChannel : Z) :
  value_type src = TR_analog_sint8 -> bitwidth src = 8 -> valueBuffer src = Some ms ->
  0 <= srcChannel < nr_of_channels src -> 0 <= bytes_per_sample src ->
  (nr_of_samples src - 1) * bytes_per_sample src + nr_of_channels src
    <= Z.of_nat (length ms) ->
  Z.of_nat (length ms) <= 2 ^ 32 ->
  value_type d = TR_SIMD_sint16x8 -> bitwidth d = 16 -> bytes_per_sample d = 16 ->
  nr_of_samples d = nr_of_samples src -> 0 <= nr_of_samples src < 2 ^ 28 ->
  0 <= dstChannel < nr_of_channels d -> nr_of_channels d <= 8 ->
  valueBuffer d = Some md -> 16 * nr_of_samples src <= Z.of_nat (length md) ->
  exists d',
    convert_to_NeonAlignedBuffer src (Some d) srcChannel dstChannel = Done (0, Some d')
    /\ (exists vs, channel_s8 src srcChannel = read_ok vs
                   /\ channel_s16 d' dstChannel = read_ok vs)
    /\ (forall c, 0 <= c < nr_of_channels d -> c <> dstChannel ->
          channel_s16 d' c = channel_s16 d c).
Proof.
  intros Hvs Hbs Hms Hsc Hps Hls Hrs Hvd Hbd Hpd Hnd Hn Hdc Hc8 Hmd Hld.
  destruct (convert_to_NeonAlignedBuffer_lanes src d ms md srcChannel dstChannel
              Hvs Hbs Hms Hsc Hps Hls Hrs Hvd Hbd Hpd Hnd Hn Hdc Hc8 Hmd Hld)
    as (md' & E & _ & Hrd & Hoth).
  exists (set_valueBuffer (Some md') d). split; [exact E |].
  unfold channel_s8, channel_s16.
  cbn [nr_of_samples set_valueBuffer]. rewrite Hnd. split.
  - destruct (samples_s8_read src ms srcChannel 0 Hbs Hms Hsc Hps Hls Hrs ltac:(lia)
                (Z.to_nat (nr_of_samples src)) ltac:(lia)) as (vs & Evs & _ & _).
    exists vs. split; [exact Evs |]. rewrite <- Evs.
    apply map_ext_in. intros i Hi. apply zrange_sound in Hi.
    destruct (Hrd i ltac:(lia)) as (v & E1 & E2). now rewrite E1, E2.
  - intros c Hc Hne. apply map_ext_in. intros i Hi. apply zrange_sound in Hi.
    apply Hoth; [lia | exact Hc | exact Hne].
Qed.

(** Narrowing. [convert_from_NeonAlignedBuffer] uses the byte offset of a
    source sample as its index into the array of [int16_t], so with the
    16-byte stride destination sample [i] is taken from the bytes at
    [32 * i]: lane 0 of source frame [2 * i], not of frame [i]. The value is
    reduced to 8 bits. The call returns 0 when those bytes exist, and sets
    the destination's sample count to the source's. *)
Theorem convert_from_NeonAlignedBuffer_reads
    (src d : RawTimelineValuesBuf) (ms md : list Z) :
  value_type src = TR_SIMD_sint16x8 -> bitwidth src = 16 -> bytes_per_sample src = 16 ->
  valueBuffer src = Some ms ->
  1 <= nr_of_channels src <= 8 -> 0 <= nr_of_samples src < 2 ^ 26 ->
  32 * nr_of_samples src <= Z.of_nat (length ms) + 30 ->
  value_type d = TR_analog_sint8 -> bitwidth d = 8 ->
  nr_of_samples src <= nr_of_samples d -> 1 <= nr_of_channels d ->
  1 <= bytes_per_sample d -> valueBuffer d = Some md ->
  (nr_of_samples src - 1) * bytes_per_sample d < Z.of_nat (length md) ->
  Z.of_nat (length md) <= 2 ^ 32 ->
  exists md',
    convert_from_NeonAlignedBuffer src (Some d)
    = Done (0, Some (set_nr_of_samples (nr_of_samples src) (set_valueBuffer (Some md') d)))
    /\ length md' = length md
    /\ forall i, 0 <= i < nr_of_samples src ->
         exists v,
           Mem.load_s16 ms (32 * i) = Some v
           /\ getSampleValue_int8
                (set_nr_of_samples (nr_of_samples src) (set_valueBuffer (Some md') d)) i 0
              = Done (Some (s8 v))
           /\ (2 * i < nr_of_samples src ->
               getSampleValue_SIMD_sint16x8 src (2 * i) 0 = Done (Some v)).
Proof.
  intros Hvs Hbs Hps Hms Hcs Hn Hls Hvd Hbd Hnd Hcd Hpd Hmd Hld Hrd.
  change (2 ^ 26) with 67108864 in Hn. change (2 ^ 32) with 4294967296 in Hrd.
  unfold convert_from_NeonAlignedBuffer.
  rewrite Hvs, Hbs, Hvd, Hbd, Hms, Hmd.
  rewrite (bool_decide_eq_true_2 _ (eq_refl TR_analog_sint8)).
  rewrite (bool_decide_eq_true_2 _ (eq_refl TR_SIMD_sint16x8)).
  cbn [negb orb Z.eqb Pos.eqb].
  set (n := nr_of_samples src) in *. set (bp := bytes_per_sample d) in *.
  set (body := fun (i : Z) (buf : option (list Z)) => _).
  set (P := fun (k : Z) (buf : option (list Z)) =>
    exists m, buf = Some m /\ length m = length md
      /\ forall i, 0 <= i < k ->
           exists v, Mem.load_s16 ms (32 * i) = Some v
                     /\ Mem.load_s8 m (i * bp) = Some (s8 v)).
  destruct (for_loop_inv (R := option (list Z)) P body (trips 0 n) 0 (Some md))
    as (s' & E & m & -> & Lm & Hw).
  - exists md. split; [reflexivity |]. split; [reflexivity | intros; lia].
  - intros k s Hk (m & -> & Lm & Hw). unfold trips in Hk.
    assert (Hk' : 0 <= k < n) by lia.
    assert (Eso : getSampleByteOffset src k 0 = Some (16 * k)).
    { rewrite (getSampleByteOffset_at src k 0);
        rewrite ?Hbs, ?Hps; change (0 * 16 / 8) with 0;
        change (2 ^ 32) with 4294967296; fold n; try lia.
      f_equal. lia. }
    assert (Hkb : 0 <= k * bp < Z.of_nat (length md)) by nia.
    assert (Edo : getSampleByteOffset d k 0 = Some (k * bp)).
    { rewrite (getSampleByteOffset_at d k 0);
        rewrite ?Hbd; change (0 * 8 / 8) with 0;
        change (2 ^ 32) with 4294967296; fold bp; try lia.
      f_equal. lia. }
    destruct (MemFacts.load_s16_Some ms (32 * k) ltac:(lia) ltac:(lia)) as (v & Ev & Rv).
    pose proof (MemFacts8.store_8_Some m (k * bp) (s8 v) ltac:(lia)) as Est.
    destruct (MemFacts8.load_s8_store_8 m _ (k * bp) (s8 v) (s8_range v) ltac:(lia) Est)
      as (Rd & Ll & Hfr).
    eexists. split.
    + subst body. cbv beta. rewrite Eso, Edo. unfold Mem.get_s16, Mem.put_s8.
      cbn [access mbind outcome_mbind outcome_bind mret outcome_mret].
      replace (2 * (16 * k)) with (32 * k) by lia. rewrite Ev.
      cbn [access mbind outcome_mbind outcome_bind mret outcome_mret].
      rewrite Est. reflexivity.
    + eexists. split; [reflexivity |]. split; [congruence |].
      intros i Hi. destruct (Z.eq_dec i k) as [->|Hne].
      * exists v. split; [exact Ev | exact Rd].
      * destruct (Hw i ltac:(lia)) as (w & E1 & E2).
        exists w. split; [exact E1 |]. rewrite <- E2.
        apply MemFacts8.load_s8_ext. apply Hfr. nia.
  - exists m. split; [rewrite E; reflexivity |]. split; [exact Lm |].
    unfold trips in Hw. replace (0 + Z.of_nat (Z.to_nat (n - 0))) with n in Hw by lia.
    intros i Hi. destruct (Hw i Hi) as (v & E1 & E2). exists v.
    split; [exact E1 |]. split.
    + rewrite (getSampleValue_int8_at _ m i 0) by
        (cbn; fold bp; first [assumption | reflexivity | nia]).
      cbn [bytes_per_sample set_nr_of_samples set_valueBuffer]. fold bp.
      rewrite Z.add_0_r, E2. reflexivity.
    + intros H2.
      rewrite (getSampleValue_SIMD_sint16x8_at src ms (2 * i) 0 Hbs Hps Hms) by
        (fold n; lia).
      replace (2 * (2 * i * 8 + 0)) with (32 * i) by lia. rewrite E1. reflexivity.
Qed.

(* ===================================================================== *)
(** ** Allocation *)

Lemma ldiff_land_split a b : a = Z.ldiff a b + Z.land a b.
Proof.
  rewrite Z.add_nocarry_lor; [now rewrite Z.lor_ldiff_and |].
  apply Z.bits_inj'. intros n Hn.
  rewrite !Z.land_spec, Z.ldiff_spec, Z.bits_0.
  destruct (Z.testbit a n), (Z.testbit b n); reflexivity.
Qed.

(** Clearing the bits of a mask takes off at most the mask. *)
Lemma land_lnot_bounds x m :
  0 <= x -> 0 <= m -> x - m <= Z.land x (Z.lnot m) <= x.
Proof.
  intros Hx Hm. rewrite <- Z.ldiff_land.
  pose proof (ldiff_land_split x m) as Ex.
  pose proof (ldiff_land_split m x) as Em.
  assert (0 <= Z.ldiff x m) by (apply Z.ldiff_nonneg; now left).
  assert (0 <= Z.ldiff m x) by (apply Z.ldiff_nonneg; now left).
  assert (0 <= Z.land x m) by (apply Z.land_nonneg; now left).
  rewrite (Z.land_comm m x) in Em. lia.
Qed.

Lemma aligned_size_bounds (size alignment : Z) :
  0 <= size < 2 ^ 32 -> 2 <= alignment < 2 ^ 8 ->
  u64 (Z.land (u64 (size + alignment - 1)) (Z.lnot (alignment - 1)))
  = Z.land (size + alignment - 1) (Z.lnot (alignment - 1))
  /\ size <= Z.land (size + alignment - 1) (Z.lnot (alignment - 1)) < size + alignment.
Proof.
  intros Hs Ha. change (2 ^ 32) with 4294967296 in Hs. change (2 ^ 8) with 256 in Ha.
  assert (U : u64 (size + alignment - 1) = size + alignment - 1)
    by (unfold u64; apply Z.mod_small; change (2 ^ 64) with 18446744073709551616; lia).
  rewrite U.
  pose proof (land_lnot_bounds (size + alignment - 1) (alignment - 1) ltac:(lia) ltac:(lia))
    as B.
  split; [| lia].
  unfold u64; apply Z.mod_small; change (2 ^ 64) with 18446744073709551616; lia.
Qed.

(** The size handed to [aligned_alloc] is the requested size rounded up
    by less than the alignment; it is a multiple of the alignment when
    that is a power of two, which the code does not check. For an alignment
    of 0 or 1 the block comes from [malloc] with the size as it is. *)
Theorem alloc_raw_aligned_size (libc : Libc) (size alignment : Z) :
  0 <= size < 2 ^ 32 -> 0 <= alignment < 2 ^ 8 ->
  (alignment <= 1 -> alloc_raw_aligned libc size alignment = malloc libc size)
  /\ (2 <= alignment ->
      exists aligned_size,
        alloc_raw_aligned libc size alignment = aligned_alloc libc alignment aligned_size
        /\ size <= aligned_size < size + alignment
        /\ (forall k, 0 <= k -> alignment = 2 ^ k -> aligned_size mod alignment = 0)).
Proof.
  intros Hs Ha.
  unfold alloc_raw_aligned. split.
  - intros H1. now replace (alignment <=? 1) with true by (symmetry; apply Z.leb_le; lia).
  - intros H2. replace (alignment <=? 1) with false by (symmetry; apply Z.leb_gt; lia).
    destruct (aligned_size_bounds size alignment Hs ltac:(lia)) as [U B].
    eexists. split; [reflexivity |]. rewrite U. split; [exact B |].
    intros k Hk ->. rewrite <- Z.ldiff_land.
    replace (2 ^ k - 1) with (Z.ones k) by (rewrite Z.ones_equiv; lia).
    rewrite Z.ldiff_ones_r by lia. rewrite Z.shiftl_mul_pow2 by lia.
    apply Z.mod_mul. lia.
Qed.

Lemma zero_libc_sized : libc_sized zero_libc.
Proof.
  split.
  - intros size m H. injection H as <-. apply length_replicate.
  - intros al size m H. injection H as <-. apply length_replicate.
Qed.

(** With a library whose blocks have the size asked for, the block behind
    a new buffer holds at least [size] bytes. *)
Lemma alloc_raw_aligned_length (libc : Libc) (size alignment : Z) (m : list Z) :
  libc_sized libc -> 0 <= size < 2 ^ 32 -> 0 <= alignment < 2 ^ 8 ->
  alloc_raw_aligned libc size alignment = Some m ->
  size <= Z.of_nat (length m).
Proof.
  intros [Hm Ha] Hs Hal E. unfold alloc_raw_aligned in E.
  destruct (alignment <=? 1) eqn:C; [apply Z.leb_le in C | apply Z.leb_gt in C].
  - rewrite (Hm _ _ E). lia.
  - destruct (aligned_size_bounds size alignment Hs ltac:(lia)) as [U B].
    rewrite U in E. rewrite (Ha _ _ _ E). lia.
Qed.

(** Every sample of a newly allocated buffer of 8-bit or 16-bit samples
    can be read: the accessor finds its bytes inside the block and returns
    status 0, for every sample index and channel of the buffer. *)
Theorem alloc_then_read (libc : Libc) (b b' : RawTimelineValuesBuf)
    (n ch bw al : Z) (vt : RawTimelineValueEnum) :
  libc_sized libc ->
  0 <= n -> 1 <= ch -> 0 <= bw -> ch * bw <= 2040 -> 0 <= al < 2 ^ 8 ->
  n * ch * ((ch * bw + 7) / 8) < 2 ^ 32 ->
  alloc_RawTimelineValuesBuf libc (Some b) n ch bw al vt = Done (Some b') ->
  (bw = 8 ->
   forall i c, 0 <= i < n -> 0 <= c < ch ->
     exists v, getSampleValue_int8 b' i c = Done (Some v))
  /\ (bw = 16 ->
      forall i c, 0 <= i < n -> 0 <= c < ch ->
        exists v, getSampleValue_SIMD_sint16x8 b' i c = Done (Some v)).
Proof.
  intros Hl Hn Hch Hbw Hw Hal Hsz E.
  change (2 ^ 32) with 4294967296 in Hsz.
  destruct (alloc_fields _ _ _ _ _ _ _ _ E) as (En & Ec & Eb & _ & Ep & Es & Ev).
  destruct (valueBuffer b') as [m|] eqn:Em.
  2:{ exfalso. pose proof E as E2. unfold alloc_RawTimelineValuesBuf in E2.
      destruct (alloc_raw_aligned libc _ al) in E2; [| discriminate E2].
      injection E2 as E2. rewrite <- E2 in Em. discriminate Em. }
  assert (Hq : 0 <= (ch * bw + 7) / 8 < 256).
  { split; [apply Z.div_pos; nia | apply Z.div_lt_upper_bound; lia]. }
  assert (Up : bytes_per_sample b' = (ch * bw + 7) / 8).
  { rewrite Ep. unfold u8. apply Z.mod_small. change (2 ^ 8) with 256. lia. }
  assert (Us : buffer_size b' = n * ch * ((ch * bw + 7) / 8)).
  { rewrite Es, <- Ep, Up.
    assert (0 <= n * ch) by nia.
    assert (n * ch <= n * ch * ((ch * bw + 7) / 8) \/ (ch * bw + 7) / 8 = 0) by nia.
    assert (0 <= n * ch * ((ch * bw + 7) / 8)) by nia.
    destruct (Z.eq_dec ((ch * bw + 7) / 8) 0) as [Z0|NZ].
    - rewrite Z0, !Z.mul_0_r. reflexivity.
    - rewrite (u32_small (n * ch)) by (change (2 ^ 32) with 4294967296; nia).
      apply u32_small. change (2 ^ 32) with 4294967296. lia. }
  assert (Lm : buffer_size b' <= Z.of_nat (length m)).
  { apply (alloc_raw_aligned_length libc (buffer_size b') al m Hl);
      [rewrite Us; change (2 ^ 32) with 4294967296; nia | exact Hal | now rewrite <- Ev]. }
  rewrite Us in Lm.
  split; intros ->.
  - assert (Eq : (ch * 8 + 7) / 8 = ch)
      by (symmetry; apply Z.div_unique with (r := 7); lia).
    rewrite Eq in *.
    intros i c Hi Hc.
    assert (Ho : 0 <= i * ch + c < Z.of_nat (length m)) by nia.
    rewrite (getSampleValue_int8_at b' m i c Eb Em) by (rewrite ?En, ?Ec, ?Up; nia).
    rewrite Up. destruct (MemFacts8.load_s8_Some m _ Ho) as (v & -> & _).
    exists v. reflexivity.
  - assert (Eq : (ch * 16 + 7) / 8 = 2 * ch)
      by (symmetry; apply Z.div_unique with (r := 7); lia).
    rewrite Eq in *.
    intros i c Hi Hc.
    assert (Ho : 0 <= i * (2 * ch) + 2 * c /\ i * (2 * ch) + 2 * c + 1 < Z.of_nat (length m))
      by nia.
    rewrite (getSampleValue_SIMD_sint16x8_off b' m i c Eb Em) by (rewrite ?En, ?Ec, ?Up; nia).
    rewrite Up.
    destruct (MemFacts.load_s16_Some m _ (proj1 Ho) (proj2 Ho)) as (v & -> & _).
    exists v. reflexivity.
Qed.


(** Preparing and filling the 8-lane copy. For an [int8_t] source,
    [prepare_NeonAlignedBuffer] never returns -1: when it returns, the status
    is 0 and the destination has 8 lanes of 16 bits, a stride of 16 bytes,
    the sample count and the time base of the source and a block of
    [128 * nr_of_samples] bytes (a failed allocation ends the process
    inside [alloc_RawTimelineValuesBuf]). [convert_to_NeonAlignedBuffer]
    into that destination then returns 0 for every lane, and the lane reads
    back as the source channel. *)
Theorem prepare_then_convert_to_Neon
    (libc : Libc) (src dst d : RawTimelineValuesBuf) (ms : list Z) (st srcChannel : Z) :
  libc_sized libc ->
  value_type src = TR_analog_sint8 -> bitwidth src = 8 -> valueBuffer src = Some ms ->
  0 <= srcChannel < nr_of_channels src -> 0 <= bytes_per_sample src ->
  (nr_of_samples src - 1) * bytes_per_sample src + nr_of_channels src
    <= Z.of_nat (length ms) ->
  Z.of_nat (length ms) <= 2 ^ 32 ->
  0 <= nr_of_samples src < 2 ^ 24 ->
  prepare_NeonAlignedBuffer libc (Some src) (Some dst) = Done (st, Some d) ->
  st = 0
  /\ value_type d = TR_SIMD_sint16x8 /\ nr_of_samples d = nr_of_samples src
  /\ nr_of_channels d = 8 /\ bitwidth d = 16 /\ bytes_per_sample d = 16
  /\ buffer_size d = 128 * nr_of_samples src
  /\ time_step d = time_step src /\ time_exponent d = time_exponent src
  /\ forall dstChannel, 0 <= dstChannel < 8 ->
       exists d',
         convert_to_NeonAlignedBuffer src (Some d) srcChannel dstChannel = Done (0, Some d')
         /\ forall i, 0 <= i < nr_of_samples src ->
              exists v,
                getSampleValue_int8 src i srcChannel = Done (Some v)
                /\ getSampleValue_SIMD_sint16x8 d' i dstChannel = Done (Some v).
Proof.
  intros Hl Hvs Hbs Hms Hsc Hps Hls Hrs Hn E.
  change (2 ^ 24) with 16777216 in Hn.
  set (n := nr_of_samples src) in *.
  assert (Hsize : u32 (u32 (n * 8) * u8 ((8 * 16 + 7) / 8)) = 128 * n).
  { change (u8 ((8 * 16 + 7) / 8)) with 16.
    rewrite (u32_small (n * 8)) by (change (2 ^ 32) with 4294967296; lia).
    rewrite u32_small by (change (2 ^ 32) with 4294967296; lia). lia. }
  unfold prepare_NeonAlignedBuffer in E. rewrite Hvs, Hbs in E.
  rewrite (bool_decide_eq_true_2 _ (eq_refl TR_analog_sint8)) in E.
  cbn [negb orb Z.eqb Pos.eqb] in E. fold n in E.
  unfold alloc_RawTimelineValuesBuf in E. rewrite Hsize in E.
  destruct (alloc_raw_aligned libc (128 * n) 16) as [block|] eqn:Ea; [| discriminate E].
  cbn [access mbind outcome_mbind outcome_bind mret outcome_mret valueBuffer] in E.
  injection E as <- <-.
  pose proof (alloc_raw_aligned_length libc (128 * n) 16 block Hl
                ltac:(change (2 ^ 32) with 4294967296; lia)
                ltac:(change (2 ^ 8) with 256; lia) Ea) as Lb.
  split; [reflexivity |].
  split; [reflexivity |]. split; [reflexivity |]. split; [reflexivity |].
  split; [reflexivity |]. split; [reflexivity |]. split; [reflexivity |].
  split; [reflexivity |]. split; [reflexivity |].
  intros dstChannel Hdc.
  match goal with
  | |- context [convert_to_NeonAlignedBuffer src (Some ?b) _ _] => set (d := b)
  end.
  destruct (convert_to_NeonAlignedBuffer_lanes src d ms block srcChannel dstChannel
              Hvs Hbs Hms Hsc Hps Hls Hrs eq_refl eq_refl eq_refl eq_refl
              ltac:(fold n; change (2 ^ 28) with 268435456; lia)
              ltac:(cbn; lia) ltac:(cbn; lia) eq_refl ltac:(fold n; lia))
    as (md' & Ec & _ & Hrd & _).
  eexists. split; [exact Ec |]. exact Hrd.
Qed.

(* ===================================================================== *)
(** ** Preparing a sample-rate conversion *)

(** An 8-lane buffer type with a channel count other than 8.
    [prepare_SampleRateConversion] does not look at the status of
    [init_InterpInfo]: it can return 0, with no interpolation plan, and the
    following [convert_sample_rate] then returns -1 on either backend and
    leaves the output as prepared. *)
Theorem prepare_then_convert_wrong_lanes
    (libc : Libc) (input output out' : RawTimelineValuesBuf) (new_sample_rate_hz : Z) :
  value_type input = TR_SIMD_sint16x8 -> nr_of_channels input <> 8 ->
  prepare_SampleRateConversion libc (Some input) new_sample_rate_hz (Some output)
  = Done (0, Some out') ->
  prepared_data_src out' = None
  /\ value_type out' = TR_SIMD_sint16x8
  /\ forall g, convert_sample_rate g (Some input) (Some out') = Done (-1, Some out').
Proof.
  intros Hv Hc E.
  assert (Hc' : (nr_of_channels input =? 8) = false) by (apply Z.eqb_neq; exact Hc).
  unfold prepare_SampleRateConversion in E.
  destruct (src_new_nr_samples input new_sample_rate_hz) as [n| |]; try discriminate E.
  cbn [mbind outcome_mbind outcome_bind] in E.
  destruct (pick_time_base _ _) as [[exp step]| |]; try discriminate E.
  cbn [mbind outcome_mbind outcome_bind] in E.
  destruct (malloc libc 8) as [blk|]; [| discriminate E].
  unfold alloc_RawTimelineValuesBuf in E.
  destruct (alloc_raw_aligned libc _ _) as [block|]; [| discriminate E].
  cbn [access mbind outcome_mbind outcome_bind mret outcome_mret value_type] in E.
  rewrite Hv in E.
  destruct (decide (TR_SIMD_sint16x8 = TR_SIMD_sint16x8)) as [_|N]; [| congruence].
  unfold init_InterpInfo in E. rewrite Hc' in E.
  cbn [negb mbind outcome_mbind outcome_bind mret outcome_mret
       valueBuffer set_prepared_data_src] in E.
  injection E as <-.
  split; [reflexivity |]. split; [reflexivity |].
  intros g. rewrite (convert_sample_rate_SIMD g input _ Hv).
  unfold convert_sample_rate_SIMD_s16x8_bresenham. rewrite Hc'. reflexivity.
Qed.

(** A target rate of 0 Hz is not rejected. For an input with a valid time
    base the ratio of the rates is 0, so the output gets 0 samples, and no
    exponent of the table fits the infinite sample time, so [time_step] and
    [time_exponent] stay 0. The status is that of [malloc] for the rate
    information: 0 when it succeeds, -1 otherwise. *)
Theorem prepare_SampleRateConversion_rate_zero
    (libc : Libc) (input output out' : RawTimelineValuesBuf) (st : Z) :
  1 <= time_step input < 2 ^ 32 -> -128 <= time_exponent input < 128 ->
  0 <= nr_of_samples input < 2 ^ 32 ->
  prepare_SampleRateConversion libc (Some input) 0 (Some output) = Done (st, Some out') ->
  time_step out' = 0 /\ time_exponent out' = 0
  /\ (malloc libc 8 = None -> st = -1 /\ sample_rate_info out' = None)
  /\ (malloc libc 8 <> None ->
      st = 0 /\ nr_of_samples out' = 0
      /\ sample_rate_info out' = Some {| rate_ratio := S754_zero false |}).
Proof.
  intros Hs He Hn E.
  assert (Hr : src_rate_ratio input 0 = S754_zero false).
  { unfold src_rate_ratio.
    destruct (Engineering.raw_frequency_normal input Hs He) as (m & e & Er & _).
    unfold raw_frequency in Er. rewrite Er. reflexivity. }
  assert (Hnew : src_new_nr_samples input 0 = Done 0).
  { unfold src_new_nr_samples. rewrite Hr.
    destruct (Z.eq_dec (nr_of_samples input) 0) as [->|Hz]; [reflexivity |].
    destruct (Round64.of_Z_normal (nr_of_samples input) ltac:(lia)) as (m & e & -> & _).
    reflexivity. }
  assert (Hpick : pick_time_base time_exponents (D.div d_1 (D.of_Z 0)) = Done (0, 0))
    by (vm_compute; reflexivity).
  unfold prepare_SampleRateConversion in E. rewrite Hnew, Hr in E.
  cbn [mbind outcome_mbind outcome_bind] in E. rewrite Hpick in E.
  cbn [mbind outcome_mbind outcome_bind] in E.
  destruct (malloc libc 8) as [blk|] eqn:Em.
  - unfold alloc_RawTimelineValuesBuf in E.
    destruct (alloc_raw_aligned libc _ _) as [block|]; [| discriminate E].
    cbn [access mbind outcome_mbind outcome_bind mret outcome_mret value_type] in E.
    destruct (decide (value_type input = TR_SIMD_sint16x8)) as [Hv|Hv].
    + unfold init_InterpInfo in E.
      destruct (negb (nr_of_channels input =? 8)).
      * cbn [mbind outcome_mbind outcome_bind mret outcome_mret valueBuffer
             set_prepared_data_src] in E.
        injection E as <- <-.
        split; [reflexivity |]. split; [reflexivity |].
        split; [intros; discriminate | intros _; repeat split].
      * cbn [nr_of_samples set_prepared_data_src] in E.
        change (trips 0 0) with 0%nat in E.
        cbn [for_each mbind outcome_mbind outcome_bind mret outcome_mret valueBuffer
             set_prepared_data_src] in E.
        injection E as <- <-.
        split; [reflexivity |]. split; [reflexivity |].
        split; [intros; discriminate | intros _; repeat split].
    + cbn [mbind outcome_mbind outcome_bind mret outcome_mret valueBuffer] in E.
      injection E as <- <-.
      split; [reflexivity |]. split; [reflexivity |].
      split; [intros; discriminate | intros _; repeat split].
  - injection E as <- <-.
    split; [reflexivity |]. split; [reflexivity |].
    split; [intros _; split; reflexivity | intros N; congruence].
Qed.

(* ===================================================================== *)
(** ** Exact binary64 results *)

Module Exact64.

(** A mantissa of 53 digits is not shifted. *)
Lemma shr_fexp_53 (q : positive) (e : Z) (l : location) :
  Z.pos (digits2_pos q) = 53 -> -1074 <= e ->
  shr_fexp 53 1024 (Z.pos q) e l = (shr_record_of_loc (Z.pos q) l, e).
Proof.
  intros Hd He. unfold shr_fexp, fexp, emin. cbn [Zdigits2]. rewrite Hd.
  replace (Z.max (53 + e - 53) (3 - 1024 - 53) - e) with 0 by lia.
  reflexivity.
Qed.

(** One of 54 digits whose last digit is 0 loses that digit, exactly. *)
Lemma shr_fexp_54 (q : positive) (e : Z) :
  Z.pos (digits2_pos q) = 53 -> -1075 <= e ->
  shr_fexp 53 1024 (Z.pos q~0) e loc_Exact
  = (shr_record_of_loc (Z.pos q) loc_Exact, e + 1).
Proof.
  intros Hd He. unfold shr_fexp, fexp, emin. cbn [Zdigits2 digits2_pos].
  rewrite Pos2Z.inj_succ, Hd.
  replace (Z.max (Z.succ 53 + e - 53) (3 - 1024 - 53) - e) with 1 by lia.
  reflexivity.
Qed.

(** Rounding leaves a value that has 53 digits as it is. *)
Lemma binary_round_aux_exact (q : positive) (e : Z) :
  Z.pos (digits2_pos q) = 53 -> -1074 <= e <= 971 ->
  binary_round_aux 53 1024 false (Z.pos q) e loc_Exact = S754_finite false q e.
Proof.
  intros Hd He. unfold binary_round_aux.
  rewrite (shr_fexp_53 q e loc_Exact Hd) by lia.
  cbn [shr_record_of_loc shr_m loc_of_shr_record round_nearest_even].
  rewrite (shr_fexp_53 q e loc_Exact Hd) by lia.
  cbn [shr_record_of_loc shr_m].
  replace (e <=? 1024 - 53) with true by (symmetry; apply Z.leb_le; lia).
  reflexivity.
Qed.

Lemma binary_round_aux_exact2 (q : positive) (e : Z) :
  Z.pos (digits2_pos q) = 53 -> -1075 <= e <= 970 ->
  binary_round_aux 53 1024 false (Z.pos q~0) e loc_Exact = S754_finite false q (e + 1).
Proof.
  intros Hd He. unfold binary_round_aux.
  rewrite (shr_fexp_54 q e Hd) by lia.
  cbn [shr_record_of_loc shr_m loc_of_shr_record round_nearest_even].
  rewrite (shr_fexp_53 q (e + 1) loc_Exact Hd) by lia.
  cbn [shr_record_of_loc shr_m].
  replace (e + 1 <=? 1024 - 53) with true by (symmetry; apply Z.leb_le; lia).
  reflexivity.
Qed.

Lemma iter_xO_value (p k : positive) : Z.pos (Pos.iter xO p k) = Z.pos p * 2 ^ Z.pos k.
Proof.
  induction k as [|k IH] using Pos.peano_ind.
  - cbn. lia.
  - rewrite Pos.iter_succ, (Pos2Z.inj_xO (Pos.iter xO p k)), IH, Pos2Z.inj_succ.
    rewrite Z.pow_succ_r by lia. lia.
Qed.

(** The double of a positive integer below [2^32]: the integer shifted up
    to 53 digits. *)
Lemma of_Z_pos (p : positive) :
  Z.pos p < 2 ^ 32 ->
  exists m e,
    D.of_Z (Z.pos p) = S754_finite false m e
    /\ Z.pos (digits2_pos m) = 53 /\ -52 <= e <= -21
    /\ Z.pos m = Z.pos p * 2 ^ (- e).
Proof.
  intros Hn.
  destruct (Round64.digits2_bounds p) as [Blo Bhi].
  assert (Hd : Z.pos (digits2_pos p) <= 32).
  { assert (Z.pos (digits2_pos p) - 1 < 32); [| lia].
    apply (Z.pow_lt_mono_r_iff 2); lia. }
  unfold D.of_Z, fl_of_Z, binary_normalize, binary_round, shl_align, fexp, emin.
  change D.prec with 53. change D.emax with 1024.
  replace (Z.max (Z.pos (digits2_pos p) + 0 - 53) (3 - 1024 - 53) - 0)
    with (Z.pos (digits2_pos p) - 53) by lia.
  destruct (Z.pos (digits2_pos p) - 53) as [|k|k] eqn:Ek; try lia.
  pose proof (Round64.digits2_iter_xO p k) as Dk.
  replace (Z.max (Z.pos (digits2_pos p) + 0 - 53) (3 - 1024 - 53)) with (Z.neg k) by lia.
  rewrite binary_round_aux_exact by lia.
  exists (Pos.iter xO p k), (Z.neg k).
  split; [reflexivity |]. split; [lia |]. split; [lia |].
  rewrite iter_xO_value. reflexivity.
Qed.

Lemma div_eucl_eq a b : Z.div_eucl a b = (a / b, a mod b).
Proof. unfold Z.div, Z.modulo. now destruct (Z.div_eucl a b). Qed.

(** Division by 1.0 is exact. *)
Lemma div_one (m : positive) (e : Z) :
  Z.pos (digits2_pos m) = 53 -> -1073 <= e <= 971 ->
  D.div (S754_finite false m e) d_1 = S754_finite false m e.
Proof.
  intros Hd He.
  change d_1 with (S754_finite false 4503599627370496 (-52)).
  unfold D.div, SFdiv, SFdiv_core_binary, fexp, emin. cbn [xorb Zdigits2].
  change D.prec with 53. change D.emax with 1024. rewrite Hd.
  change (Z.pos (digits2_pos 4503599627370496)) with 53.
  replace (Z.min (Z.max (53 + e - (53 + -52) - 53) (3 - 1024 - 53)) (e - -52))
    with (e - 1) by lia.
  replace (e - -52 - (e - 1)) with 53 by lia.
  rewrite div_eucl_eq.
  rewrite Z.shiftl_mul_pow2 by lia.
  assert (Eq : Z.pos m * 2 ^ 53 / 4503599627370496 = Z.pos m~0).
  { symmetry. apply Z.div_unique with (r := 0); [lia |].
    change (2 ^ 53) with 9007199254740992. lia. }
  assert (Er : (Z.pos m * 2 ^ 53) mod 4503599627370496 = 0).
  { symmetry. apply Z.mod_unique with (q := Z.pos m~0); [lia |].
    change (2 ^ 53) with 9007199254740992. lia. }
  rewrite Eq, Er.
  change (new_location 4503599627370496 0) with loc_Exact.
  rewrite binary_round_aux_exact2 by lia. f_equal. lia.
Qed.

(** An integer below [2^32] survives the division by 1.0, [floor] and the
    conversion back. *)
Lemma of_Z_div_one (i : Z) :
  0 <= i < 2 ^ 32 -> D.div (D.of_Z i) d_1 = D.of_Z i.
Proof.
  intros Hi. destruct i as [|p|p]; [reflexivity | | lia].
  destruct (of_Z_pos p ltac:(lia)) as (m & e & -> & Hd & He & _).
  apply div_one; [exact Hd | lia].
Qed.

Lemma floor_of_Z (i : Z) :
  0 <= i < 2 ^ 32 -> D.floor (D.of_Z i) = D.of_Z i.
Proof.
  intros Hi. destruct i as [|p|p]; [reflexivity | | lia].
  destruct (of_Z_pos p ltac:(lia)) as (m & e & E & Hd & He & Hv).
  rewrite E. unfold D.floor, fl_floor.
  replace (0 <=? e) with false by (symmetry; apply Z.leb_gt; lia).
  assert (Hq : Z.shiftr (Z.pos m) (- e) = Z.pos p).
  { rewrite Z.shiftr_div_pow2 by lia. rewrite Hv.
    apply Z.div_mul. apply Z.pow_nonzero; lia. }
  rewrite Hq.
  replace (Z.shiftl (Z.pos p) (- e) =? Z.pos m) with true
    by (symmetry; apply Z.eqb_eq; rewrite Z.shiftl_mul_pow2 by lia; lia).
  exact E.
Qed.

Lemma to_u32_of_Z (i : Z) :
  0 <= i < 2 ^ 32 -> D.to_u32 (D.of_Z i) = Done i.
Proof.
  intros Hi. destruct i as [|p|p]; [reflexivity | | lia].
  destruct (of_Z_pos p ltac:(lia)) as (m & e & E & Hd & He & Hv).
  rewrite E. unfold D.to_u32, fl_to_unsigned, fl_trunc, trunc_mag.
  replace (0 <=? e) with false by (symmetry; apply Z.leb_gt; lia).
  assert (Hq : Z.shiftr (Z.pos m) (- e) = Z.pos p).
  { rewrite Z.shiftr_div_pow2 by lia. rewrite Hv.
    apply Z.div_mul. apply Z.pow_nonzero; lia. }
  rewrite Hq.
  replace (Z.pos p <? 2 ^ 32) with true by (symmetry; apply Z.ltb_lt; lia).
  reflexivity.
Qed.

(** A double minus itself is +0. *)
Lemma sub_self (i : Z) :
  0 <= i < 2 ^ 32 -> D.sub (D.of_Z i) (D.of_Z i) = S754_zero false.
Proof.
  intros Hi. destruct i as [|p|p]; [reflexivity | | lia].
  destruct (of_Z_pos p ltac:(lia)) as (m & e & -> & _).
  unfold D.sub, SFsub. rewrite Z.min_id. unfold shl_align. rewrite Z.sub_diag.
  cbn [fst cond_Zopp]. rewrite ?Z.sub_diag. reflexivity.
Qed.

(** [iter_pos] is iteration. *)
Lemma iter_pos_iter {A : Type} (f : A -> A) (n : positive) (x : A) :
  SpecFloat.iter_pos f n x = Pos.iter f x n.
Proof.
  revert x. induction n as [n IH|n IH|]; intros x; cbn [SpecFloat.iter_pos Pos.iter].
  - rewrite !IH, <- !Pos.iter_swap. reflexivity.
  - rewrite !IH. reflexivity.
  - reflexivity.
Qed.

(** Shifting out the zeros that were shifted in loses nothing. *)
Lemma shr_iter_xO (m k : positive) :
  SpecFloat.iter_pos shr_1 k {| shr_m := Z.pos (Pos.iter xO m k); shr_r := false; shr_s := false |}
  = {| shr_m := Z.pos m; shr_r := false; shr_s := false |}.
Proof.
  rewrite iter_pos_iter.
  induction k as [|k IH] using Pos.peano_ind.
  - reflexivity.
  - rewrite (Pos.iter_succ k _ xO), (Pos.iter_succ_r k _ shr_1). cbn [shr_1 orb]. exact IH.
Qed.

(** Rounding a mantissa of 53 digits followed by [k] zeros gives the
    mantissa. *)
Lemma binary_round_aux_shifted (m k : positive) (e : Z) :
  Z.pos (digits2_pos m) = 53 -> -1074 <= e <= 971 ->
  binary_round_aux 53 1024 false (Z.pos (Pos.iter xO m k)) (e - Z.pos k) loc_Exact
  = S754_finite false m e.
Proof.
  intros Hd He. unfold binary_round_aux.
  assert (Es : shr_fexp 53 1024 (Z.pos (Pos.iter xO m k)) (e - Z.pos k) loc_Exact
               = ({| shr_m := Z.pos m; shr_r := false; shr_s := false |}, e)).
  { unfold shr_fexp, fexp, emin. cbn [Zdigits2].
    rewrite (Round64.digits2_iter_xO m k), Hd.
    replace (Z.max (53 + Z.pos k + (e - Z.pos k) - 53) (3 - 1024 - 53) - (e - Z.pos k))
      with (Z.pos k) by lia.
    cbn [shr shr_record_of_loc]. rewrite shr_iter_xO. f_equal. lia. }
  rewrite Es. cbn [shr_m loc_of_shr_record round_nearest_even].
  rewrite (shr_fexp_53 m e loc_Exact Hd) by lia.
  cbn [shr_record_of_loc shr_m].
  replace (e <=? 1024 - 53) with true by (symmetry; apply Z.leb_le; lia).
  reflexivity.
Qed.

(** Multiplication by 1.0 is exact. *)
Lemma mul_one (m : positive) (e : Z) :
  Z.pos (digits2_pos m) = 53 -> -1074 <= e <= 971 ->
  D.mul (S754_finite false m e) d_1 = S754_finite false m e.
Proof.
  intros Hd He.
  change d_1 with (S754_finite false 4503599627370496 (-52)).
  unfold D.mul, SFmul. cbn [xorb].
  change D.prec with 53. change D.emax with 1024.
  replace (m * 4503599627370496)%positive with (Pos.iter xO m 52).
  - replace (e + -52) with (e - Z.pos 52) by lia.
    apply binary_round_aux_shifted; assumption.
  - apply Pos2Z.inj. rewrite iter_xO_value, Pos2Z.inj_mul. reflexivity.
Qed.

Lemma of_Z_mul_one (i : Z) :
  0 <= i < 2 ^ 32 -> D.mul (D.of_Z i) d_1 = D.of_Z i.
Proof.
  intros Hi. destruct i as [|p|p]; [reflexivity | | lia].
  destruct (of_Z_pos p ltac:(lia)) as (m & e & -> & Hd & He & _).
  apply mul_one; [exact Hd | lia].
Qed.

(** One step of the shift on a mantissa that is not negative. *)
Lemma shr_1_nonneg (z : Z) (r s : bool) :
  0 <= z ->
  shr_1 {| shr_m := z; shr_r := r; shr_s := s |}
  = {| shr_m := Z.div2 z; shr_r := Z.odd z; shr_s := r || s |}.
Proof. intros Hz. destruct z as [|[p|p|]|]; try reflexivity; lia. Qed.

(** [k] steps: the quotient, the last digit shifted out, and whether a
    digit before it was 1. *)
Lemma shr_iter (z : Z) (k : positive) :
  0 <= z ->
  SpecFloat.iter_pos shr_1 k {| shr_m := z; shr_r := false; shr_s := false |}
  = {| shr_m := z / 2 ^ Z.pos k;
       shr_r := Z.odd (z / 2 ^ (Z.pos k - 1));
       shr_s := negb (z mod 2 ^ (Z.pos k - 1) =? 0) |}.
Proof.
  intros Hz. rewrite iter_pos_iter.
  induction k as [|k IH] using Pos.peano_ind.
  - cbn [Pos.iter]. rewrite shr_1_nonneg by exact Hz.
    rewrite Z.div2_div. change (Z.pos 1 - 1) with 0. change (2 ^ 0) with 1.
    rewrite Z.div_1_r, Z.mod_1_r. reflexivity.
  - rewrite (Pos.iter_succ k _ shr_1), IH.
    assert (Hp : 0 < 2 ^ (Z.pos k - 1)) by (apply Z.pow_pos_nonneg; lia).
    assert (Hk : 2 ^ Z.pos k = 2 ^ (Z.pos k - 1) * 2).
    { replace (Z.pos k) with (Z.succ (Z.pos k - 1)) at 1 by lia.
      rewrite Z.pow_succ_r by lia. lia. }
    rewrite shr_1_nonneg by (apply Z.div_pos; lia).
    rewrite Z.div2_div, Z.div_div by lia.
    rewrite Pos2Z.inj_succ. replace (Z.succ (Z.pos k) - 1) with (Z.pos k) by lia.
    rewrite (Z.pow_succ_r 2 (Z.pos k)) by lia.
    rewrite (Z.mul_comm 2 (2 ^ Z.pos k)).
    f_equal.
    rewrite Hk. rewrite Z.rem_mul_r by lia.
    pose proof (Zmod_odd (z / 2 ^ (Z.pos k - 1))) as Hodd.
    pose proof (Z.mod_pos_bound z (2 ^ (Z.pos k - 1)) Hp) as Hm.
    destruct (Z.odd (z / 2 ^ (Z.pos k - 1))); rewrite Hodd.
    + cbn [orb]. symmetry. apply negb_true_iff, Z.eqb_neq. lia.
    + cbn [orb]. rewrite Z.mul_0_r, Z.add_0_r. reflexivity.
Qed.

(** Multiplication by the largest double below 1.0 gives the double
    before, for a mantissa that is not the smallest of its binade. *)
Lemma mul_below_one (m : positive) (e : Z) :
  Z.pos (digits2_pos m) = 53 -> 2 ^ 52 < Z.pos m -> -1074 <= e <= 971 ->
  exists m',
    D.mul (S754_finite false m e) d_below_1 = S754_finite false m' e
    /\ Z.pos m' = Z.pos m - 1.
Proof.
  intros Hd Hm He.
  destruct (Round64.digits2_bounds m) as [_ Bhi]. rewrite Hd in Bhi.
  change (2 ^ 53) with 9007199254740992 in Bhi.
  change (2 ^ 52) with 4503599627370496 in Hm.
  set (P := (m * 9007199254740991)%positive).
  assert (HP : Z.pos P = (Z.pos m - 1) * 2 ^ 53 + (2 ^ 53 - Z.pos m)).
  { unfold P. rewrite Pos2Z.inj_mul. change (2 ^ 53) with 9007199254740992. lia. }
  assert (Dg : Z.pos (digits2_pos P) = 106).
  { destruct (Round64.digits2_bounds P) as [Blo Bup].
    assert (L : 2 ^ 105 <= Z.pos P)
      by (rewrite HP; change (2 ^ 105) with (4503599627370496 * 2 ^ 53);
          change (2 ^ 53) with 9007199254740992; lia).
    assert (U : Z.pos P < 2 ^ 106)
      by (rewrite HP; change (2 ^ 106) with (9007199254740992 * 2 ^ 53);
          change (2 ^ 53) with 9007199254740992; lia).
    assert (Z.pos (digits2_pos P) - 1 < 106)
      by (apply (Z.pow_lt_mono_r_iff 2); lia).
    assert (105 < Z.pos (digits2_pos P))
      by (apply (Z.pow_lt_mono_r_iff 2); lia).
    lia. }
  assert (Q : Z.pos P / 2 ^ 53 = Z.pos m - 1).
  { symmetry. apply Z.div_unique with (r := 2 ^ 53 - Z.pos m); [| lia].
    change (2 ^ 53) with 9007199254740992. lia. }
  assert (Q2 : Z.pos P / 2 ^ 52 = 2 * (Z.pos m - 1)).
  { symmetry. apply Z.div_unique with (r := 2 ^ 53 - Z.pos m).
    - change (2 ^ 53) with 9007199254740992. change (2 ^ 52) with 4503599627370496. lia.
    - rewrite HP. change (2 ^ 53) with (2 ^ 52 * 2). lia. }
  assert (R2 : Z.pos P mod 2 ^ 52 = 2 ^ 53 - Z.pos m).
  { symmetry. apply Z.mod_unique with (q := 2 * (Z.pos m - 1)).
    - change (2 ^ 53) with 9007199254740992. change (2 ^ 52) with 4503599627370496. lia.
    - rewrite HP. change (2 ^ 53) with (2 ^ 52 * 2). lia. }
  destruct (Z.pos m - 1) as [|m'|m'] eqn:Em; try lia.
  exists m'. split; [| reflexivity].
  assert (Hd' : Z.pos (digits2_pos m') = 53).
  { destruct (Round64.digits2_bounds m') as [Blo Bup].
    assert (Z.pos (digits2_pos m') - 1 < 53)
      by (apply (Z.pow_lt_mono_r_iff 2); [lia | lia |];
          change (2 ^ 53) with 9007199254740992; lia).
    assert (52 < Z.pos (digits2_pos m'))
      by (apply (Z.pow_lt_mono_r_iff 2); [lia | lia |];
          change (2 ^ 52) with 4503599627370496; lia).
    lia. }
  unfold d_below_1, D.mul, SFmul. cbn [xorb]. fold P.
  change D.prec with 53. change D.emax with 1024.
  unfold binary_round_aux.
  assert (Es : shr_fexp 53 1024 (Z.pos P) (e + -53) loc_Exact
               = ({| shr_m := Z.pos m'; shr_r := false; shr_s := true |}, e)).
  { unfold shr_fexp, fexp, emin. cbn [Zdigits2]. rewrite Dg.
    replace (Z.max (106 + (e + -53) - 53) (3 - 1024 - 53) - (e + -53)) with (Z.pos 53)
      by lia.
    cbn [shr shr_record_of_loc]. rewrite shr_iter by lia.
    change (Z.pos 53 - 1) with 52. change (Z.pos 53) with 53.
    rewrite Q, Q2, R2, Z.odd_mul. cbn [Z.odd andb].
    replace (2 ^ 53 - Z.pos m =? 0) with false
      by (symmetry; apply Z.eqb_neq; change (2 ^ 53) with 9007199254740992; lia).
    cbn [negb]. f_equal. lia. }
  rewrite Es. cbn [shr_m shr_r shr_s loc_of_shr_record round_nearest_even].
  rewrite (shr_fexp_53 m' e loc_Exact Hd') by lia.
  cbn [shr_record_of_loc shr_m].
  replace (e <=? 1024 - 53) with true by (symmetry; apply Z.leb_le; lia).
  reflexivity.
Qed.

(** The conversion of a positive double with a negative exponent to
    [uint32_t]. *)
Lemma to_u32_finite (m : positive) (e v : Z) :
  e < 0 -> Z.pos m / 2 ^ (- e) = v -> v < 2 ^ 32 ->
  D.to_u32 (S754_finite false m e) = Done v.
Proof.
  intros He Hv Hlt.
  assert (0 <= v) by (subst v; apply Z.div_pos; [lia | apply Z.pow_pos_nonneg; lia]).
  unfold D.to_u32, fl_to_unsigned, fl_trunc, trunc_mag.
  replace (0 <=? e) with false by (symmetry; apply Z.leb_gt; lia).
  rewrite Z.shiftr_div_pow2 by lia. rewrite Hv.
  replace (0 <=? v) with true by (symmetry; apply Z.leb_le; lia).
  replace (v <? 2 ^ 32) with true by (symmetry; apply Z.ltb_lt; lia).
  reflexivity.
Qed.

(** A sample count times the largest double below 1.0, as [uint32_t], is
    the count less one. *)
Lemma to_u32_mul_below_one (n : Z) :
  1 <= n < 2 ^ 32 -> D.to_u32 (D.mul (D.of_Z n) d_below_1) = Done (n - 1).
Proof.
  intros Hn. destruct n as [|p|p]; try lia.
  destruct (of_Z_pos p ltac:(lia)) as (m & e & E & Hd & He & Hv).
  rewrite E.
  assert (Hpw : 0 < 2 ^ (- e)) by (apply Z.pow_pos_nonneg; lia).
  assert (H2 : 2 <= 2 ^ (- e)).
  { change 2 with (2 ^ 1) at 1. apply Z.pow_le_mono_r; lia. }
  destruct (Round64.digits2_bounds m) as [Blo _]. rewrite Hd in Blo.
  change (2 ^ (53 - 1)) with (2 ^ 52) in Blo.
  destruct (Z.eq_dec (Z.pos m) (2 ^ 52)) as [Heq|Hne].
  - assert (Em : m = 4503599627370496%positive) by (apply Pos2Z.inj; exact Heq).
    subst m.
    assert (Ex : D.mul (S754_finite false 4503599627370496 e) d_below_1
                 = S754_finite false 9007199254740991 (e - 1)).
    { unfold d_below_1, D.mul, SFmul. cbn [xorb].
      change D.prec with 53. change D.emax with 1024.
      change (4503599627370496 * 9007199254740991)%positive
        with (Pos.iter xO 9007199254740991%positive 52%positive).
      replace (e + -53) with (e - 1 - Z.pos 52) by lia.
      apply binary_round_aux_shifted; [reflexivity | lia]. }
    rewrite Ex. apply to_u32_finite; [lia | | lia].
    symmetry. apply Z.div_unique with (r := 2 ^ (- (e - 1)) - 1).
    + assert (0 < 2 ^ (- (e - 1))) by (apply Z.pow_pos_nonneg; lia). lia.
    + replace (- (e - 1)) with (Z.succ (- e)) by lia.
      rewrite Z.pow_succ_r by lia.
      nia.
  - destruct (mul_below_one m e Hd ltac:(lia) ltac:(lia)) as (m' & Em & Hm').
    rewrite Em. apply to_u32_finite; [lia | | lia].
    symmetry. apply Z.div_unique with (r := 2 ^ (- e) - 1); [lia |].
    rewrite Hm', Hv. lia.
Qed.

End Exact64.

(* ===================================================================== *)
(** ** Floating-point interpolation of [int8_t] samples *)

(** With fraction zero the interpolation returns the lower sample. *)
Lemma interp_s8_frac0 (v1 v2 : Z) :
  -128 <= v1 < 128 -> -128 <= v2 < 128 ->
  D.to_s8 (D.round (D.add (D.mul (D.sub d_1 (S754_zero false)) (D.of_Z v1))
                          (D.mul (S754_zero false) (D.of_Z v2))))
  = Done v1.
Proof.
  intros H1 H2.
  pose proof (interp_s16_frac0 v1 v2 ltac:(change (2 ^ 15) with 32768; lia)
                ltac:(change (2 ^ 15) with 32768; lia)) as E.
  unfold interp_s16, D.to_s16, fl_to_signed in E. unfold D.to_s8, fl_to_signed.
  destruct (fl_trunc _) as [z|]; [| discriminate E].
  destruct ((- 2 ^ (16 - 1) <=? z) && (z <? 2 ^ (16 - 1))); [| discriminate E].
  injection E as ->.
  replace ((- 2 ^ (8 - 1) <=? v1) && (v1 <? 2 ^ (8 - 1))) with true; [reflexivity |].
  symmetry. apply andb_true_intro. change (2 ^ (8 - 1)) with 128.
  split; [apply Z.leb_le | apply Z.ltb_lt]; lia.
Qed.

(** One output frame of the identity conversion: the frame of the input at
    the same index, copied. *)
Lemma analog_frame_copy (src m : list Z) (nch n i iu : Z) :
  0 <= nch -> 0 <= i < n -> 0 <= iu < n -> n * nch < 2 ^ 32 ->
  n * nch <= Z.of_nat (length src) -> n * nch <= Z.of_nat (length m) ->
  exists m',
    for_each (trips 0 nch) 0 (fun ch dst =>
      v1 ← Mem.get_s8 (Some src) (u32 (u32 (i * nch) + ch));
      v2 ← Mem.get_s8 (Some src) (u32 (u32 (iu * nch) + ch));
      let interpolated :=
        D.add (D.mul (D.sub d_1 (S754_zero false)) (D.of_Z v1))
              (D.mul (S754_zero false) (D.of_Z v2)) in
      v ← D.to_s8 (D.round interpolated);
      Mem.put_s8 dst (u32 (u32 (i * nch) + ch)) v) (Some m) = Done (Some m')
    /\ length m' = length m
    /\ (forall ch, 0 <= ch < nch ->
          Mem.load_s8 m' (i * nch + ch) = Mem.load_s8 src (i * nch + ch))
    /\ (forall off, off < i * nch \/ (i + 1) * nch <= off ->
          Mem.load_u8 m' off = Mem.load_u8 m off).
Proof.
  intros Hc Hi Hu Hr Ls Lm. change (2 ^ 32) with 4294967296 in Hr.
  set (body := fun (ch : Z) (dst : option (list Z)) => _).
  set (P := fun (k : Z) (s : option (list Z)) =>
    exists d, s = Some d /\ length d = length m
      /\ (forall ch, 0 <= ch < k ->
            Mem.load_s8 d (i * nch + ch) = Mem.load_s8 src (i * nch + ch))
      /\ (forall off, off < i * nch \/ i * nch + k <= off ->
            Mem.load_u8 d off = Mem.load_u8 m off)).
  destruct (for_each_inv P body (trips 0 nch) 0 (Some m)) as (s' & E & d & -> & Ld & Hcp & Hf).
  - exists m. split; [reflexivity |]. split; [reflexivity |].
    split; [intros; lia | reflexivity].
  - intros k s Hk (d & -> & Ld & Hcp & Hf). unfold trips in Hk.
    assert (Hk' : 0 <= k < nch) by lia.
    assert (B1 : 0 <= i * nch + k < n * nch) by nia.
    assert (B2 : 0 <= iu * nch + k < n * nch) by nia.
    assert (U1 : u32 (u32 (i * nch) + k) = i * nch + k).
    { rewrite (u32_small (i * nch)) by (change (2 ^ 32) with 4294967296; nia).
      apply u32_small. change (2 ^ 32) with 4294967296. lia. }
    assert (U2 : u32 (u32 (iu * nch) + k) = iu * nch + k).
    { rewrite (u32_small (iu * nch)) by (change (2 ^ 32) with 4294967296; nia).
      apply u32_small. change (2 ^ 32) with 4294967296. lia. }
    destruct (MemFacts8.load_s8_Some src (i * nch + k) ltac:(lia)) as (v1 & E1 & R1).
    destruct (MemFacts8.load_s8_Some src (iu * nch + k) ltac:(lia)) as (v2 & E2 & R2).
    pose proof (MemFacts8.store_8_Some d (i * nch + k) v1 ltac:(lia)) as Est.
    destruct (MemFacts8.load_s8_store_8 d _ (i * nch + k) v1 R1 ltac:(lia) Est)
      as (Rd & Ll & Hfr).
    eexists. split.
    + subst body. cbv beta zeta. rewrite U1, U2. unfold Mem.get_s8, Mem.put_s8.
      cbn [access mbind outcome_mbind outcome_bind mret outcome_mret].
      rewrite E1, E2. cbn [access mbind outcome_mbind outcome_bind mret outcome_mret].
      rewrite (interp_s8_frac0 v1 v2 R1 R2).
      cbn [access mbind outcome_mbind outcome_bind mret outcome_mret].
      rewrite Est. reflexivity.
    + eexists. split; [reflexivity |]. split; [congruence |]. split.
      * intros ch Hch. destruct (Z.eq_dec ch k) as [->|Hne].
        -- now rewrite Rd, E1.
        -- rewrite <- (Hcp ch) by lia. apply MemFacts8.load_s8_ext. apply Hfr. lia.
      * intros off Ho. rewrite <- (Hf off) by lia. apply Hfr. lia.
  - exists d. split; [exact E |]. split; [exact Ld |].
    unfold trips in Hcp, Hf. replace (0 + Z.of_nat (Z.to_nat (nch - 0))) with nch in Hcp, Hf
      by lia.
    split; [exact Hcp |]. intros off Ho. apply Hf. lia.
Qed.

(** With a rate ratio of 1.0 and an output of the input's length,
    [convert_sample_rate] on an [int8_t] input returns 0 and copies the
    samples byte by byte. Bytes of the output block after the samples are
    not touched. *)
Lemma convert_sample_rate_analog_copy
    (g : backend_ptr) (input output : RawTimelineValuesBuf) (src dst : list Z) :
  value_type input = TR_analog_sint8 ->
  valueBuffer input = Some src -> valueBuffer output = Some dst ->
  sample_rate_info output = Some {| rate_ratio := d_1 |} ->
  nr_of_samples output = nr_of_samples input ->
  0 <= nr_of_channels input -> 0 <= nr_of_samples input ->
  nr_of_samples input * nr_of_channels input < 2 ^ 32 ->
  nr_of_samples input < 2 ^ 32 ->
  nr_of_samples input * nr_of_channels input <= Z.of_nat (length src) ->
  nr_of_samples input * nr_of_channels input <= Z.of_nat (length dst) ->
  exists dst',
    convert_sample_rate g (Some input) (Some output)
    = Done (0, Some (set_valueBuffer (Some dst') output))
    /\ length dst' = length dst
    /\ (forall k, 0 <= k < nr_of_samples input * nr_of_channels input ->
          Mem.load_s8 dst' k = Mem.load_s8 src k)
    /\ (forall k, nr_of_samples input * nr_of_channels input <= k ->
          Mem.load_u8 dst' k = Mem.load_u8 dst k).
Proof.
  intros Hv Hs Hd Hinfo Hno Hc Hn Hr Hn32 Ls Ld.
  unfold convert_sample_rate. rewrite Hv.
  destruct (decide (TR_analog_sint8 = TR_analog_sint8)) as [_|N]; [| congruence].
  rewrite Hinfo. cbn [access mbind outcome_mbind outcome_bind rate_ratio].
  unfold convert_sample_rate_analog_sint8. rewrite Hs, Hd, Hno.
  set (n := nr_of_samples input) in *. set (nch := nr_of_channels input) in *.
  set (body := fun (i : Z) (dst : option (list Z)) => _).
  set (P := fun (k : Z) (s : option (list Z)) =>
    exists d, s = Some d /\ length d = length dst
      /\ (forall j, 0 <= j < k * nch -> Mem.load_s8 d j = Mem.load_s8 src j)
      /\ (forall off, k * nch <= off -> Mem.load_u8 d off = Mem.load_u8 dst off)).
  destruct (for_each_inv P body (trips 0 n) 0 (Some dst)) as (s' & E & d & -> & Ll & Hcp & Hf).
  - exists dst. split; [reflexivity |]. split; [reflexivity |].
    split; [intros; lia | reflexivity].
  - intros k s Hk (d & -> & Ll & Hcp & Hf). unfold trips in Hk.
    assert (Hk' : 0 <= k < n) by lia.
    assert (Hk32 : 0 <= k < 2 ^ 32) by lia.
    set (iu := if u32 (k + 1) <? n then u32 (k + 1) else k).
    assert (Hiu : 0 <= iu < n).
    { subst iu. change (2 ^ 32) with 4294967296 in *.
      destruct (u32 (k + 1) <? n) eqn:C; [apply Z.ltb_lt in C | lia].
      assert (0 <= u32 (k + 1)) by (apply Z.mod_pos_bound; lia). lia. }
    destruct (analog_frame_copy src d nch n k iu Hc Hk' Hiu Hr Ls ltac:(lia))
      as (m' & Em & Lm' & Hrow & Hfr).
    exists (Some m'). split.
    + subst body. cbv beta zeta.
      rewrite (Exact64.of_Z_div_one k Hk32), (Exact64.floor_of_Z k Hk32),
        (Exact64.to_u32_of_Z k Hk32).
      cbn [mbind outcome_mbind outcome_bind]. rewrite (Exact64.sub_self k Hk32).
      fold iu. exact Em.
    + exists m'. split; [reflexivity |]. split; [congruence |]. split.
      * intros j Hj. destruct (Z.lt_ge_cases j (k * nch)) as [Hlt|Hge].
        -- rewrite <- (Hcp j) by lia. apply MemFacts8.load_s8_ext. apply Hfr. lia.
        -- replace j with (k * nch + (j - k * nch)) by lia. apply Hrow. lia.
      * intros off Ho. rewrite <- (Hf off) by lia. apply Hfr. lia.
  - exists d. split; [rewrite E; reflexivity |]. split; [exact Ll |].
    unfold trips in Hcp, Hf. replace (0 + Z.of_nat (Z.to_nat (n - 0))) with n in Hcp, Hf by lia.
    split; [exact Hcp | exact Hf].
Qed.

(** Resampling an [int8_t] buffer to its own rate. When the ratio that
    [prepare_SampleRateConversion] computes is exactly 1.0 (as for a time
    base of 1 us and a target of 1 MHz) and the call returns 0, the
    output has the sample count of the input, and [convert_sample_rate]
    then returns 0 on either backend with an output whose every sample
    reads as the sample of the input at the same index and channel, the
    last frame included. *)
Theorem resample_same_rate_analog
    (libc : Libc) (input output out : RawTimelineValuesBuf) (src : list Z)
    (new_sample_rate_hz : Z) :
  libc_sized libc ->
  value_type input = TR_analog_sint8 -> bitwidth input = 8 ->
  1 <= nr_of_channels input < 2 ^ 8 ->
  bytes_per_sample input = nr_of_channels input ->
  valueBuffer input = Some src ->
  0 <= nr_of_samples input < 2 ^ 32 ->
  nr_of_samples input * nr_of_channels input * nr_of_channels input < 2 ^ 32 ->
  nr_of_samples input * nr_of_channels input <= Z.of_nat (length src) ->
  src_rate_ratio input new_sample_rate_hz = d_1 ->
  prepare_SampleRateConversion libc (Some input) new_sample_rate_hz (Some output)
  = Done (0, Some out) ->
  nr_of_samples out = nr_of_samples input
  /\ exists out',
       (forall g, convert_sample_rate g (Some input) (Some out) = Done (0, Some out'))
       /\ nr_of_samples out' = nr_of_samples input
       /\ forall i ch, 0 <= i < nr_of_samples input -> 0 <= ch < nr_of_channels input ->
            exists v,
              getSampleValue_int8 input i ch = Done (Some v)
              /\ getSampleValue_int8 out' i ch = Done (Some v).
Proof.
  intros Hl Hv Hb Hc Hp Hs Hn Hr Ls Hone E.
  set (n := nr_of_samples input) in *. set (nch := nr_of_channels input) in *.
  change (2 ^ 32) with 4294967296 in Hn, Hr. change (2 ^ 8) with 256 in Hc.
  assert (Hnc : n * nch < 4294967296) by nia.
  unfold prepare_SampleRateConversion, src_new_nr_samples in E.
  rewrite Hone in E. fold n in E.
  rewrite (Exact64.of_Z_mul_one n ltac:(change (2 ^ 32) with 4294967296; lia)) in E.
  rewrite (Exact64.to_u32_of_Z n ltac:(change (2 ^ 32) with 4294967296; lia)) in E.
  cbn [mbind outcome_mbind outcome_bind] in E.
  destruct (pick_time_base _ _) as [[e s]| |]; [| discriminate E | discriminate E].
  cbn [mbind outcome_mbind outcome_bind] in E.
  destruct (malloc libc 8) as [blk|]; [| discriminate E].
  fold nch in E. rewrite Hb, Hp, Hv in E.
  unfold alloc_RawTimelineValuesBuf in E.
  assert (Up : u8 ((nch * 8 + 7) / 8) = nch).
  { replace ((nch * 8 + 7) / 8) with nch
      by (apply Z.div_unique with (r := 7); lia).
    unfold u8. apply Z.mod_small. change (2 ^ 8) with 256. lia. }
  assert (Us : u32 (u32 (n * nch) * nch) = n * nch * nch).
  { rewrite (u32_small (n * nch)) by (change (2 ^ 32) with 4294967296; nia).
    apply u32_small. change (2 ^ 32) with 4294967296. nia. }
  rewrite Up, Us in E.
  destruct (alloc_raw_aligned libc (n * nch * nch) nch) as [block|] eqn:Ea;
    [| discriminate E].
  cbn [access mbind outcome_mbind outcome_bind mret outcome_mret value_type] in E.
  destruct (decide (TR_analog_sint8 = TR_SIMD_sint16x8)) as [N|_]; [discriminate N |].
  cbn [access mbind outcome_mbind outcome_bind mret outcome_mret valueBuffer] in E.
  injection E as <-.
  pose proof (alloc_raw_aligned_length libc (n * nch * nch) nch block Hl
                ltac:(change (2 ^ 32) with 4294967296; nia)
                ltac:(change (2 ^ 8) with 256; lia) Ea) as Lb.
  split; [reflexivity |].
  match goal with |- context [convert_sample_rate _ _ (Some ?b)] => set (o := b) end.
  assert (Ld : n * nch <= Z.of_nat (length block)) by nia.
  assert (C : forall g, exists dst',
             convert_sample_rate g (Some input) (Some o)
             = Done (0, Some (set_valueBuffer (Some dst') o))
             /\ length dst' = length block
             /\ (forall k, 0 <= k < n * nch -> Mem.load_s8 dst' k = Mem.load_s8 src k)).
  { intros g.
    destruct (convert_sample_rate_analog_copy g input o src block Hv Hs eq_refl eq_refl
                eq_refl ltac:(fold nch; lia) ltac:(fold n; lia)
                ltac:(change (2 ^ 32) with 4294967296; exact Hnc)
                ltac:(change (2 ^ 32) with 4294967296; fold n; lia) Ls Ld)
      as (dst' & Ec & Ll & Hcp & _).
    exists dst'. split; [exact Ec |]. split; [exact Ll | exact Hcp]. }
  destruct (C ptr_C) as (dst' & Ec & Ll & Hcp).
  exists (set_valueBuffer (Some dst') o).
  split.
  - intros g. destruct (C g) as (d2 & Eg & _).
    rewrite Eg. f_equal. f_equal.
    destruct g; cbn in Eg, Ec; congruence.
  - split; [reflexivity |].
    intros i ch Hi Hch.
    assert (Hk : 0 <= i * nch + ch < n * nch) by nia.
    destruct (MemFacts8.load_s8_Some src (i * nch + ch) ltac:(lia)) as (v & Ev & _).
    exists v. split.
    + rewrite (getSampleValue_int8_at input src i ch Hb Hs Hi Hch ltac:(lia)
                 ltac:(rewrite Hp; change (2 ^ 32) with 4294967296; lia)).
      rewrite Hp, Ev. reflexivity.
    + rewrite (getSampleValue_int8_at (set_valueBuffer (Some dst') o) dst' i ch
                 eq_refl eq_refl ltac:(cbn; lia) ltac:(cbn; lia) ltac:(cbn; lia)
                 ltac:(cbn; change (2 ^ 32) with 4294967296; lia)).
      cbn [bytes_per_sample set_valueBuffer o]. rewrite (Hcp _ Hk), Ev. reflexivity.
Qed.

(* ===================================================================== *)
(** ** Resampling to the rate of the buffer *)

(** The ratio of the rates need not be 1.0 when the target is the rate of
    the buffer itself: with a time base of 10 us and a target of 100 kHz
    the [double] arithmetic of [prepare_SampleRateConversion] gives
    [1 - 2^-53]. Whenever it does, and the call returns 0, the output has
    one sample fewer than the input, for every sample count from 1 up. *)
Theorem prepare_SampleRateConversion_loses_sample
    (libc : Libc) (input output out : RawTimelineValuesBuf) (new_sample_rate_hz : Z) :
  src_rate_ratio input new_sample_rate_hz = d_below_1 ->
  1 <= nr_of_samples input < 2 ^ 32 ->
  prepare_SampleRateConversion libc (Some input) new_sample_rate_hz (Some output)
  = Done (0, Some out) ->
  nr_of_samples out = nr_of_samples input - 1
  /\ sample_rate_info out = Some {| rate_ratio := d_below_1 |}.
Proof.
  intros Hr Hn E.
  unfold prepare_SampleRateConversion, src_new_nr_samples in E.
  rewrite Hr, (Exact64.to_u32_mul_below_one _ Hn) in E.
  cbn [mbind outcome_mbind outcome_bind] in E.
  destruct (pick_time_base _ _) as [[e s]| |]; [| discriminate E | discriminate E].
  cbn [mbind outcome_mbind outcome_bind] in E.
  destruct (malloc libc 8) as [blk|]; [| discriminate E].
  unfold alloc_RawTimelineValuesBuf in E.
  destruct (alloc_raw_aligned libc _ _) as [block|]; [| discriminate E].
  cbn [access mbind outcome_mbind outcome_bind mret outcome_mret value_type] in E.
  destruct (decide (value_type input = TR_SIMD_sint16x8)) as [_|_].
  - unfold init_InterpInfo in E.
    destruct (negb (nr_of_channels input =? 8)).
    + cbn [mbind outcome_mbind outcome_bind mret outcome_mret] in E.
      injection E as <-. split; reflexivity.
    + destruct (for_each _ _ _ _) as [arr| |]; [| discriminate E | discriminate E].
      cbn [mbind outcome_mbind outcome_bind mret outcome_mret] in E.
      injection E as <-. split; reflexivity.
  - cbn [mbind outcome_mbind outcome_bind mret outcome_mret] in E.
    injection E as <-. split; reflexivity.
Qed.

(* ===================================================================== *)
(** ** Test signal *)

(** The loop that scales the rate ends within its fuel: it divides by 1000
    as often as the rate has groups of three digits after the first. *)
Lemma scale_rate_groups (r : Z) :
  0 <= r < 2 ^ 32 ->
  exists k,
    0 <= k <= 3
    /\ scale_rate 4 r 0 = (r / 1000 ^ k, 3 * k)
    /\ (k = 0 \/ 1000 ^ k <= r) /\ r < 1000 ^ (k + 1)
    /\ D.to_u32 (pow10 (3 * k)) = Done (1000 ^ k).
Proof.
  intros Hr. change (2 ^ 32) with 4294967296 in Hr.
  cbn [scale_rate].
  destruct (1000 <=? r) eqn:C1; [apply Z.leb_le in C1 | apply Z.leb_gt in C1].
  2:{ exists 0. split; [lia |]. split; [now rewrite Z.div_1_r |].
      split; [now left |]. split; [change (1000 ^ (0 + 1)) with 1000; lia |].
      vm_compute. reflexivity. }
  assert (B1 : 1 <= r / 1000 < 4294968).
  { split; [apply Z.div_le_lower_bound; lia | apply Z.div_lt_upper_bound; lia]. }
  destruct (1000 <=? r / 1000) eqn:C2; [apply Z.leb_le in C2 | apply Z.leb_gt in C2].
  2:{ exists 1. split; [lia |]. split; [reflexivity |].
      split; [right; change (1000 ^ 1) with 1000; lia |].
      split; [| vm_compute; reflexivity].
      change (1000 ^ (1 + 1)) with 1000000.
      pose proof (Z.div_mod r 1000 ltac:(lia)).
      pose proof (Z.mod_pos_bound r 1000 ltac:(lia)). lia. }
  rewrite Z.div_div by lia.
  assert (B2 : 1000 <= r / 1000 /\ 1000000 <= r).
  { split; [exact C2 |]. pose proof (Z.mul_div_le r 1000 ltac:(lia)). lia. }
  assert (B3 : 1 <= r / (1000 * 1000) < 4295).
  { split; [apply Z.div_le_lower_bound; lia | apply Z.div_lt_upper_bound; lia]. }
  destruct (1000 <=? r / (1000 * 1000)) eqn:C3;
    [apply Z.leb_le in C3 | apply Z.leb_gt in C3].
  2:{ exists 2. split; [lia |]. split; [reflexivity |].
      split; [right; change (1000 ^ 2) with 1000000; lia |].
      split; [| vm_compute; reflexivity].
      change (1000 ^ (2 + 1)) with 1000000000.
      pose proof (Z.div_mod r (1000 * 1000) ltac:(lia)).
      pose proof (Z.mod_pos_bound r (1000 * 1000) ltac:(lia)). lia. }
  rewrite Z.div_div by lia.
  assert (B4 : 1000000000 <= r).
  { pose proof (Z.mul_div_le r (1000 * 1000) ltac:(lia)). lia. }
  assert (B5 : r / (1000 * 1000 * 1000) < 5) by (apply Z.div_lt_upper_bound; lia).
  replace (1000 <=? r / (1000 * 1000 * 1000)) with false by (symmetry; apply Z.leb_gt; lia).
  exists 3. split; [lia |]. split; [reflexivity |].
  split; [right; change (1000 ^ 3) with 1000000000; lia |].
  split; [change (1000 ^ (3 + 1)) with 1000000000000; lia | vm_compute; reflexivity].
Qed.

(** The time base and the layout that [generate_sine_wave] leaves, whatever
    [sinf] returns. With [k] the number of groups of three digits after the
    first of the rate, [time_exponent] is [-3 * k] and [time_step] is the
    rate divided by [1000^k]: its leading digits, from 1 to 999 for a rate
    that is not 0. The sample count and the channel count are the
    arguments; an 8-lane buffer gets 16 bits, a stride of 16 bytes and
    [num_samples * 16] bytes, an [int8_t] buffer gets 8 bits, a stride of
    1 byte and [num_samples * num_channels] bytes. For every other value
    type the call ends the process. *)
Theorem generate_sine_wave_time_base
    (libm : Libm) (libc : Libc) (buf : RawTimelineValuesBuf)
    (num_samples num_channels : Z) (period amplitude : spec_float) (sample_rate_hz : Z) :
  0 <= sample_rate_hz < 2 ^ 32 ->
  (value_type buf <> TR_SIMD_sint16x8 -> value_type buf <> TR_analog_sint8 ->
   generate_sine_wave libm libc buf num_samples num_channels period amplitude sample_rate_hz
   = Exit 1)
  /\ forall buf',
       generate_sine_wave libm libc buf num_samples num_channels period amplitude
         sample_rate_hz = Done buf' ->
       exists k,
         0 <= k <= 3
         /\ (k = 0 \/ 1000 ^ k <= sample_rate_hz) /\ sample_rate_hz < 1000 ^ (k + 1)
         /\ time_exponent buf' = - (3 * k)
         /\ time_step buf' = sample_rate_hz / 1000 ^ k
         /\ time_step buf' < 1000
         /\ (1 <= sample_rate_hz -> 1 <= time_step buf')
         /\ nr_of_samples buf' = num_samples /\ nr_of_channels buf' = num_channels
         /\ value_type buf' = value_type buf
         /\ (value_type buf = TR_SIMD_sint16x8 ->
             bitwidth buf' = 16 /\ bytes_per_sample buf' = 16
             /\ buffer_size buf' = u32 (num_samples * 16))
         /\ (value_type buf = TR_analog_sint8 ->
             bitwidth buf' = 8 /\ bytes_per_sample buf' = 1
             /\ buffer_size buf' = u32 (num_samples * num_channels)).
Proof.
  intros Hr.
  destruct (scale_rate_groups sample_rate_hz Hr) as (k & Hk & Es & Hlo & Hhi & Ep).
  assert (Hp : 0 < 1000 ^ k) by (apply Z.pow_pos_nonneg; lia).
  assert (Hz : (1000 ^ k =? 0) = false) by (apply Z.eqb_neq; lia).
  unfold generate_sine_wave. rewrite Es, Ep.
  cbn [mbind outcome_mbind outcome_bind]. rewrite Hz.
  split.
  - intros N1 N2.
    destruct (decide (value_type buf = TR_SIMD_sint16x8)) as [?|_]; [congruence |].
    destruct (decide (value_type buf = TR_analog_sint8)) as [?|_]; [congruence |].
    reflexivity.
  - intros buf' E. exists k.
    assert (Hstep : sample_rate_hz / 1000 ^ k < 1000).
    { apply Z.div_lt_upper_bound; [lia |].
      replace (1000 ^ k * 1000) with (1000 ^ (k + 1)); [lia |].
      rewrite Z.pow_add_r by lia. lia. }
    assert (Hstep1 : 1 <= sample_rate_hz -> 1 <= sample_rate_hz / 1000 ^ k).
    { intros H1. apply Z.div_le_lower_bound; [lia |].
      destruct Hlo as [->|Hlo]; [change (1000 ^ 0) with 1 |]; lia. }
    split; [exact Hk |]. split; [exact Hlo |]. split; [exact Hhi |].
    destruct (decide (value_type buf = TR_SIMD_sint16x8)) as [V1|V1].
    + destruct (aligned_alloc libc 16 _) as [block|]; [| discriminate E].
      destruct (for_each _ 0 _ (Some block)) as [[data|]| |]; try discriminate E.
      cbn [access mbind outcome_mbind outcome_bind mret outcome_mret] in E.
      injection E as <-. cbn.
      repeat split; try assumption; try reflexivity; congruence.
    + destruct (decide (value_type buf = TR_analog_sint8)) as [V2|V2]; [| discriminate E].
      destruct (malloc libc _) as [block|]; [| discriminate E].
      destruct (for_each _ 0 _ (Some block)) as [[data|]| |]; try discriminate E.
      cbn [access mbind outcome_mbind outcome_bind mret outcome_mret] in E.
      injection E as <-. cbn.
      repeat split; try assumption; try reflexivity; congruence.
Qed.

(* ===================================================================== *)
(** ** Preparing an aggregation *)

Lemma alloc_prepared_like (libc : Libc) (input o o' : RawTimelineValuesBuf) (n : Z) :
  libc_sized libc ->
  0 <= n -> 1 <= nr_of_channels input -> 0 <= bitwidth input ->
  nr_of_channels input * bitwidth input <= 2040 ->
  0 <= bytes_per_sample input < 2 ^ 8 ->
  n * nr_of_channels input * ((nr_of_channels input * bitwidth input + 7) / 8) < 2 ^ 32 ->
  alloc_RawTimelineValuesBuf libc
    (Some (set_time_base (time_exponent input) (time_step input) o))
    n (nr_of_channels input) (bitwidth input) (bytes_per_sample input) (value_type input)
  = Done (Some o') ->
  prepared_like input o' n.
Proof.
  intros Hl Hn Hc Hb Hw Hp Hs E.
  set (ch := nr_of_channels input) in *. set (bw := bitwidth input) in *.
  change (2 ^ 32) with 4294967296 in Hs.
  assert (Hq : 0 <= (ch * bw + 7) / 8 < 256).
  { split; [apply Z.div_pos; nia | apply Z.div_lt_upper_bound; lia]. }
  assert (Up : u8 ((ch * bw + 7) / 8) = (ch * bw + 7) / 8)
    by (unfold u8; apply Z.mod_small; change (2 ^ 8) with 256; lia).
  assert (Us : u32 (u32 (n * ch) * u8 ((ch * bw + 7) / 8)) = n * ch * ((ch * bw + 7) / 8)).
  { rewrite Up.
    destruct (Z.eq_dec ((ch * bw + 7) / 8) 0) as [Z0|NZ].
    - rewrite Z0, !Z.mul_0_r. reflexivity.
    - rewrite (u32_small (n * ch)) by (change (2 ^ 32) with 4294967296; nia).
      apply u32_small. change (2 ^ 32) with 4294967296. nia. }
  unfold alloc_RawTimelineValuesBuf in E. rewrite Us, Up in E.
  destruct (alloc_raw_aligned libc _ _) as [block|] eqn:Ea; [| discriminate E].
  injection E as <-.
  pose proof (alloc_raw_aligned_length libc (n * ch * ((ch * bw + 7) / 8))
                (bytes_per_sample input) block Hl
                ltac:(change (2 ^ 32) with 4294967296; nia) Hp Ea) as Lb.
  unfold prepared_like. cbn.
  repeat split; try reflexivity.
  exists block. split; [reflexivity | nia].
Qed.

(** What [prepare_AggregationMinMax] leaves. For a supported input the call
    never returns -1: a failed allocation ends the process, and when the
    call returns the status is 0 and [outMin] and [outMax] have the sample
    count asked for, the channel count, bit width, value type and time base
    of the input, the stride [ceil(channels * bits / 8)], and a block that
    holds all their samples. *)
Theorem prepare_AggregationMinMax_layout
    (libc : Libc) (input a b mn mx : RawTimelineValuesBuf) (outSampleNr st : Z) :
  libc_sized libc ->
  value_type input = TR_analog_sint8 \/ value_type input = TR_SIMD_sint16x8 ->
  0 <= outSampleNr -> 1 <= nr_of_channels input -> 0 <= bitwidth input ->
  nr_of_channels input * bitwidth input <= 2040 ->
  0 <= bytes_per_sample input < 2 ^ 8 ->
  outSampleNr * nr_of_channels input * ((nr_of_channels input * bitwidth input + 7) / 8)
    < 2 ^ 32 ->
  prepare_AggregationMinMax libc (Some input) (Some a) (Some b) outSampleNr
  = Done (st, Some mn, Some mx) ->
  st = 0 /\ prepared_like input mn outSampleNr /\ prepared_like input mx outSampleNr.
Proof.
  intros Hl Hv Hn Hc Hb Hw Hp Hs E.
  unfold prepare_AggregationMinMax in E.
  assert (Hsup : negb (bool_decide (value_type input = TR_analog_sint8))
                 && negb (bool_decide (value_type input = TR_SIMD_sint16x8)) = false).
  { destruct Hv as [-> | ->]; reflexivity. }
  rewrite Hsup in E.
  destruct (alloc_RawTimelineValuesBuf libc (Some (set_time_base _ _ a)) _ _ _ _ _)
    as [[mn0|]| |] eqn:E1; try discriminate E.
  cbn [access mbind outcome_mbind outcome_bind] in E.
  destruct (alloc_RawTimelineValuesBuf libc (Some (set_time_base _ _ b)) _ _ _ _ _)
    as [[mx0|]| |] eqn:E2; try discriminate E.
  cbn [access mbind outcome_mbind outcome_bind mret outcome_mret] in E.
  pose proof (alloc_prepared_like libc input a mn0 outSampleNr Hl Hn Hc Hb Hw Hp Hs E1) as P1.
  pose proof (alloc_prepared_like libc input b mx0 outSampleNr Hl Hn Hc Hb Hw Hp Hs E2) as P2.
  destruct P1 as (A1 & A2 & A3 & A4 & A5 & A6 & A7 & blk1 & A8 & A9).
  destruct P2 as (B1 & B2 & B3 & B4 & B5 & B6 & B7 & blk2 & B8 & B9).
  rewrite A8, B8 in E. injection E as <- <- <-.
  split; [reflexivity |].
  split; unfold prepared_like; repeat split; try assumption;
    eexists; (split; [eassumption | assumption]).
Qed.

Lemma bins4_prepared :
  prepare_AggregationMinMax zero_libc (Some s4_input) (Some blank) (Some blank) 4
  = Done (0, Some bins4, Some bins4).
Proof. vm_compute. reflexivity. Qed.

Lemma prepare_AggregationMinMax_layout_witness :
  0 = 0 /\ prepared_like s4_input bins4 4 /\ prepared_like s4_input bins4 4.
Proof.
  apply (prepare_AggregationMinMax_layout zero_libc s4_input blank blank bins4 bins4 4 0
           zero_libc_sized (or_introl eq_refl)
           ltac:(lia) ltac:(vm_compute; discriminate) ltac:(vm_compute; discriminate)
           ltac:(vm_compute; discriminate)
           ltac:(vm_compute; split; [discriminate | reflexivity])
           ltac:(vm_compute; reflexivity) bins4_prepared).
Defined.

(* ===================================================================== *)
(** ** The theorems on concrete buffers *)

Lemma bins4_inside (i : Z) :
  0 <= i < 4 ->
  exists start end_,
    bin_bounds 20 4 0 i = Done (start, end_) /\ 0 <= start <= end_ /\ end_ <= 20.
Proof.
  intros Hi. assert (C : i = 0 \/ i = 1 \/ i = 2 \/ i = 3) by lia.
  destruct C as [-> | [-> | [-> | ->]]]; eexists _, _;
    (split; [vm_compute; reflexivity | lia]).
Qed.

Lemma aggregate_MinMax_s8_extremes_witness :
  exists outMin' outMax',
    aggregate_MinMax ptr_C (Some s4_input) (Some bins4) (Some bins4) 20 0
    = Done (0, Some outMin', Some outMax')
    /\ exists vs,
         samples_s8 s4_input 0 5 10 = read_ok vs
         /\ getSampleValue_int8 outMin' 1 0 = Done (Some (list_min INT8_MAX vs))
         /\ getSampleValue_int8 outMax' 1 0 = Done (Some (list_max INT8_MIN vs)).
Proof.
  destruct (aggregate_MinMax_s8_extremes ptr_C s4_input bins4 bins4
              (map u8 s4_values) [0; 0; 0; 0] [0; 0; 0; 0] 20 0
              eq_refl eq_refl eq_refl
              ltac:(vm_compute; discriminate) ltac:(vm_compute; discriminate)
              ltac:(vm_compute; discriminate) ltac:(vm_compute; discriminate)
              eq_refl eq_refl eq_refl eq_refl eq_refl eq_refl eq_refl eq_refl eq_refl
              ltac:(vm_compute; discriminate) ltac:(vm_compute; discriminate)
              ltac:(vm_compute; discriminate) ltac:(vm_compute; discriminate)
              bins4_inside)
    as (mn' & mx' & E & H).
  exists mn', mx'. split; [exact E |].
  apply (H 1 5 10 0); [vm_compute; split; [discriminate | reflexivity]
                      | vm_compute; reflexivity
                      | vm_compute; split; [discriminate | reflexivity]].
Defined.

Lemma bins2_inside (i : Z) :
  0 <= i < 2 ->
  exists start end_, bin_bounds 4 2 0 i = Done (start, end_) /\ 0 <= start <= end_.
Proof.
  intros Hi. assert (C : i = 0 \/ i = 1) by lia.
  destruct C as [-> | ->]; eexists _, _; (split; [vm_compute; reflexivity | lia]).
Qed.

Lemma aggregate_MinMax_s16_extremes_witness :
  exists outMin' outMax',
    aggregate_MinMax ptr_SIMD (Some s2_input) (Some (src_output_buf 2))
      (Some (src_output_buf 2)) 4 0
    = Done (0, Some outMin', Some outMax')
    /\ exists vs,
         samples_s16 s2_input 0 2 (Z.min 4 (nr_of_samples s2_input)) = read_ok vs
         /\ getSampleValue_SIMD_sint16x8 outMin' 1 0 = Done (Some (list_min INT16_MAX vs))
         /\ getSampleValue_SIMD_sint16x8 outMax' 1 0 = Done (Some (list_max INT16_MIN vs)).
Proof.
  destruct (aggregate_MinMax_s16_extremes ptr_SIMD s2_input (src_output_buf 2)
              (src_output_buf 2) (flat_map frame0 [0; 100; 200; 300])
              (replicate (Z.to_nat (128 * 2)) 0) (replicate (Z.to_nat (128 * 2)) 0) 4 0
              eq_refl eq_refl eq_refl eq_refl
              ltac:(vm_compute; split; discriminate)
              ltac:(vm_compute; split; [discriminate | reflexivity])
              ltac:(vm_compute; discriminate)
              eq_refl eq_refl eq_refl eq_refl eq_refl eq_refl eq_refl eq_refl eq_refl
              ltac:(vm_compute; split; [discriminate | reflexivity])
              ltac:(vm_compute; discriminate) ltac:(vm_compute; discriminate)
              bins2_inside)
    as (mn' & mx' & E & H).
  exists mn', mx'. split; [exact E |].
  destruct (H 1 2 4 0) as (vs & E1 & E2 & E3 & _);
    [vm_compute; split; [discriminate | reflexivity]
    | vm_compute; reflexivity
    | vm_compute; split; [discriminate | reflexivity] |].
  exists vs. split; [exact E1 |]. split; [exact E2 | exact E3].
Defined.

Lemma bins4_outside (i : Z) :
  0 <= i < 4 ->
  exists start end_,
    bin_bounds 20 4 100 i = Done (start, end_) /\ 20 <= start < end_.
Proof.
  intros Hi. assert (C : i = 0 \/ i = 1 \/ i = 2 \/ i = 3) by lia.
  destruct C as [-> | [-> | [-> | ->]]]; eexists _, _;
    (split; [vm_compute; reflexivity | lia]).
Qed.

Lemma aggregate_MinMax_ignores_kernel_status_witness :
  aggregate_MinMax ptr_C (Some s4_input) (Some bins4) (Some bins4) 20 100
  = Done (0, Some bins4, Some bins4).
Proof.
  apply (aggregate_MinMax_ignores_kernel_status ptr_C s4_input bins4 bins4 20 100);
    [reflexivity | vm_compute; discriminate | reflexivity | exact bins4_outside].
Defined.

Lemma bin_bounds_contiguous_witness :
  10 = Z.min (u32 (0 + 20)) (Z.max 10 (5 + 1))
  /\ (5 < 10 <= u32 (0 + 20) -> 10 = 10).
Proof.
  apply (bin_bounds_contiguous 20 4 0 1 5 10 10 15);
    [lia | vm_compute; reflexivity | vm_compute; reflexivity | vm_compute; reflexivity
     | vm_compute; reflexivity].
Defined.

Lemma bresenham_position_upsample_witness :
  bresenham_position 4 8 7
  = (if Z.of_nat 7 <? 8 - 8 / 4
     then (Z.of_nat 7 * 4 / 8, (Z.of_nat 7 * 4) mod 8)
     else (4 - 2, (Z.of_nat 7 - (8 - 8 / 4)) * 4))
  /\ 0 <= fst (bresenham_position 4 8 7) <= 4 - 2
  /\ 0 <= snd (bresenham_position 4 8 7) < 8.
Proof.
  apply (bresenham_position_upsample 4 8 7);
    [lia | lia | vm_compute; reflexivity | vm_compute; reflexivity].
Defined.

Lemma bresenham_downsample_frames_witness :
  convert_sample_rate_SIMD_s16x8_bresenham s3_input (src_output_buf 3)
  = dst ← for_each (trips 0 (nr_of_samples (src_output_buf 3))) 0 (fun i dst =>
      let frac := D.div (D.of_Z (i * (nr_of_samples s3_input
                                        - nr_of_samples (src_output_buf 3))))
                        (D.of_Z (nr_of_samples (src_output_buf 3))) in
      for_each (trips 0 8) 0 (fun j dst =>
        v0 ← Mem.get_s16 (valueBuffer s3_input) (i * 8 + j);
        v1 ← Mem.get_s16 (valueBuffer s3_input) ((i + 1) * 8 + j);
        v ← interp_s16 frac v0 v1;
        Mem.put_s16 dst (i * 8 + j) v) dst) (valueBuffer (src_output_buf 3));
    mret (0, set_valueBuffer dst (src_output_buf 3)).
Proof.
  apply (bresenham_downsample_frames s3_input (src_output_buf 3));
    [reflexivity | vm_compute; discriminate | vm_compute; reflexivity
     | vm_compute; reflexivity].
Defined.

Lemma convert_to_NeonAlignedBuffer_widens_witness :
  exists d',
    convert_to_NeonAlignedBuffer s4_input (Some (src_output_buf 20)) 0 3 = Done (0, Some d')
    /\ (exists vs, channel_s8 s4_input 0 = read_ok vs /\ channel_s16 d' 3 = read_ok vs)
    /\ (forall c, 0 <= c < nr_of_channels (src_output_buf 20) -> c <> 3 ->
          channel_s16 d' c = channel_s16 (src_output_buf 20) c).
Proof.
  apply (convert_to_NeonAlignedBuffer_widens s4_input (src_output_buf 20)
           (map u8 s4_values) (replicate (Z.to_nat (128 * 20)) 0) 0 3
           eq_refl eq_refl eq_refl
           ltac:(vm_compute; split; [discriminate | reflexivity])
           ltac:(vm_compute; discriminate) ltac:(vm_compute; discriminate)
           ltac:(vm_compute; discriminate)
           eq_refl eq_refl eq_refl eq_refl
           ltac:(vm_compute; split; [discriminate | reflexivity])
           ltac:(vm_compute; split; [discriminate | reflexivity])
           ltac:(vm_compute; discriminate) eq_refl ltac:(vm_compute; discriminate)).
Defined.

Lemma s4_neon_prepared :
  prepare_NeonAlignedBuffer zero_libc (Some s4_input) (Some blank) = Done (0, Some s4_neon).
Proof. vm_compute. reflexivity. Qed.

Lemma prepare_then_convert_to_Neon_witness :
  buffer_size s4_neon = 128 * nr_of_samples s4_input
  /\ exists d',
       convert_to_NeonAlignedBuffer s4_input (Some s4_neon) 0 0 = Done (0, Some d')
       /\ forall i, 0 <= i < nr_of_samples s4_input ->
            exists v,
              getSampleValue_int8 s4_input i 0 = Done (Some v)
              /\ getSampleValue_SIMD_sint16x8 d' i 0 = Done (Some v).
Proof.
  destruct (prepare_then_convert_to_Neon zero_libc s4_input blank s4_neon
              (map u8 s4_values) 0 0 zero_libc_sized eq_refl eq_refl eq_refl
              ltac:(vm_compute; split; [discriminate | reflexivity])
              ltac:(vm_compute; discriminate) ltac:(vm_compute; discriminate)
              ltac:(vm_compute; discriminate)
              ltac:(vm_compute; split; [discriminate | reflexivity])
              s4_neon_prepared)
    as (_ & _ & _ & _ & _ & _ & Hsize & _ & _ & Hconv).
  split; [exact Hsize |].
  apply (Hconv 0). lia.
Defined.

Lemma convert_from_NeonAlignedBuffer_reads_witness :
  exists md',
    convert_from_NeonAlignedBuffer (src_output_buf 4) (Some bins4)
    = Done (0, Some (set_nr_of_samples (nr_of_samples (src_output_buf 4))
                       (set_valueBuffer (Some md') bins4)))
    /\ length md' = length [0; 0; 0; 0].
Proof.
  destruct (convert_from_NeonAlignedBuffer_reads (src_output_buf 4) bins4
              (replicate (Z.to_nat (128 * 4)) 0) [0; 0; 0; 0]
              eq_refl eq_refl eq_refl eq_refl
              ltac:(vm_compute; split; discriminate)
              ltac:(vm_compute; split; [discriminate | reflexivity])
              ltac:(vm_compute; discriminate)
              eq_refl eq_refl
              ltac:(vm_compute; discriminate) ltac:(vm_compute; discriminate)
              ltac:(vm_compute; discriminate) eq_refl
              ltac:(vm_compute; reflexivity) ltac:(vm_compute; discriminate))
    as (md' & E & L & _).
  exists md'. split; [exact E | exact L].
Defined.

Lemma alloc_raw_aligned_size_witness :
  (16 <= 1 -> alloc_raw_aligned zero_libc 100 16 = malloc zero_libc 100)
  /\ (2 <= 16 ->
      exists aligned_size,
        alloc_raw_aligned zero_libc 100 16 = aligned_alloc zero_libc 16 aligned_size
        /\ 100 <= aligned_size < 100 + 16
        /\ (forall k, 0 <= k -> 16 = 2 ^ k -> aligned_size mod 16 = 0)).
Proof.
  apply (alloc_raw_aligned_size zero_libc 100 16);
    vm_compute; split; [discriminate | reflexivity | discriminate | reflexivity].
Defined.

Lemma alloc_then_read_witness :
  exists v, getSampleValue_SIMD_sint16x8 (src_output_buf 4) 3 7 = Done (Some v).
Proof.
  destruct (alloc_then_read zero_libc blank (src_output_buf 4) 4 8 16 16 TR_SIMD_sint16x8
              zero_libc_sized ltac:(lia) ltac:(lia) ltac:(lia) ltac:(lia)
              ltac:(vm_compute; split; [discriminate | reflexivity])
              ltac:(vm_compute; reflexivity)
              ltac:(vm_compute; reflexivity)) as [_ H].
  exact (H eq_refl 3 7 ltac:(lia) ltac:(lia)).
Defined.

Lemma prepare_then_convert_wrong_lanes_witness :
  exists out',
    prepare_SampleRateConversion zero_libc (Some four_lanes) 1000000 (Some blank)
    = Done (0, Some out')
    /\ prepared_data_src out' = None
    /\ forall g, convert_sample_rate g (Some four_lanes) (Some out') = Done (-1, Some out').
Proof.
  eexists. split; [vm_compute; reflexivity |].
  match goal with
  | |- prepared_data_src ?o = None /\ _ =>
      destruct (prepare_then_convert_wrong_lanes zero_libc four_lanes blank o 1000000
                  eq_refl ltac:(vm_compute; discriminate) ltac:(vm_compute; reflexivity))
        as (H1 & _ & H2)
  end.
  split; [exact H1 | exact H2].
Defined.

Lemma prepare_SampleRateConversion_rate_zero_witness :
  exists out',
    prepare_SampleRateConversion zero_libc (Some s4_input) 0 (Some blank)
    = Done (0, Some out')
    /\ time_step out' = 0 /\ time_exponent out' = 0 /\ nr_of_samples out' = 0.
Proof.
  eexists. split; [vm_compute; reflexivity |].
  match goal with
  | |- time_step ?o = 0 /\ _ =>
      destruct (prepare_SampleRateConversion_rate_zero zero_libc s4_input blank o 0
                  ltac:(vm_compute; split; [discriminate | reflexivity])
                  ltac:(vm_compute; split; [discriminate | reflexivity])
                  ltac:(vm_compute; split; [discriminate | reflexivity])
                  ltac:(vm_compute; reflexivity))
        as (H1 & H2 & _ & H3)
  end.
  split; [exact H1 |]. split; [exact H2 |].
  apply H3. discriminate.
Defined.

Lemma s4_same_rate_prepared :
  prepare_SampleRateConversion zero_libc (Some s4_input) 1000000 (Some blank)
  = Done (0, Some identity_output).
Proof. vm_compute. reflexivity. Qed.

Lemma resample_same_rate_analog_witness :
  nr_of_samples identity_output = nr_of_samples s4_input
  /\ exists out',
       (forall g, convert_sample_rate g (Some s4_input) (Some identity_output)
                  = Done (0, Some out'))
       /\ nr_of_samples out' = nr_of_samples s4_input
       /\ forall i ch, 0 <= i < nr_of_samples s4_input ->
                       0 <= ch < nr_of_channels s4_input ->
            exists v,
              getSampleValue_int8 s4_input i ch = Done (Some v)
              /\ getSampleValue_int8 out' i ch = Done (Some v).
Proof.
  apply (resample_same_rate_analog zero_libc s4_input blank identity_output
           (map u8 s4_values) 1000000 zero_libc_sized eq_refl eq_refl
           ltac:(vm_compute; split; [discriminate | reflexivity])
           eq_refl eq_refl
           ltac:(vm_compute; split; [discriminate | reflexivity])
           ltac:(vm_compute; reflexivity) ltac:(vm_compute; discriminate)
           ltac:(vm_compute; reflexivity)
           s4_same_rate_prepared).
Defined.

Lemma generate_sine_wave_time_base_witness :
  exists buf' k,
    generate_sine_wave flat_libm zero_libc s4_input 4 1 (F.of_Z 25) (F.of_Z 100) 48000
    = Done buf'
    /\ 0 <= k <= 3
    /\ time_exponent buf' = - (3 * k)
    /\ time_step buf' = 48000 / 1000 ^ k
    /\ time_step buf' < 1000.
Proof.
  destruct (generate_sine_wave_time_base flat_libm zero_libc s4_input 4 1
              (F.of_Z 25) (F.of_Z 100) 48000
              ltac:(vm_compute; split; [discriminate | reflexivity])) as [_ H].
  eexists.
  assert (E : generate_sine_wave flat_libm zero_libc s4_input 4 1 (F.of_Z 25) (F.of_Z 100)
                48000 = Done (set_valueBuffer (Some [0; 0; 0; 0])
                                (set_time_base (-3) 48 (analog_input [0; 0; 0; 0] 1 0))))
    by (vm_compute; reflexivity).
  destruct (H _ E) as (k & Hk & _ & _ & He & Hs & Hlt & _).
  exists k. split; [exact E |]. split; [exact Hk |]. split; [exact He |].
  split; [exact Hs | exact Hlt].
Defined.

Lemma s4_10us_prepared :
  prepare_SampleRateConversion zero_libc (Some s4_10us) 100000 (Some blank)
  = Done (0, Some s4_10us_output).
Proof. vm_compute. reflexivity. Qed.

Lemma prepare_SampleRateConversion_loses_sample_witness :
  nr_of_samples s4_10us_output = nr_of_samples s4_10us - 1
  /\ sample_rate_info s4_10us_output = Some {| rate_ratio := d_below_1 |}.
Proof.
  apply (prepare_SampleRateConversion_loses_sample zero_libc s4_10us blank s4_10us_output
           100000 ltac:(vm_compute; reflexivity)
           ltac:(vm_compute; split; [discriminate | reflexivity])
           s4_10us_prepared).
Defined.

(* ===================================================================== *)
(** ** The bins of the code and the bins of the specification *)

(** The range that [aggregate_MinMax] computes for bin [i] is the one the
    specification describes. *)
Lemma bin_bounds_spec (in_samples out_samples inOffset i : Z) :
  0 <= i -> i + 1 < 2 ^ 32 ->
  bin_bounds in_samples out_samples inOffset i
  = spec_bin in_samples out_samples inOffset i.
Proof.
  intros Hi Hlt. unfold bin_bounds, spec_bin.
  rewrite (u32_small (i + 1)) by lia.
  destruct (F.to_u32 (F.floorf (F.mul (F.of_Z i) _))) as [a| |]; try reflexivity.
  destruct (F.to_u32 (F.floorf (F.mul (F.of_Z (i + 1)) _))) as [b| |]; try reflexivity.
  cbn [mbind outcome_mbind outcome_bind mret outcome_mret]. do 2 f_equal.
  destruct (Z.ltb_spec (u32 (inOffset + in_samples))
              (if u32 (inOffset + b) <=? u32 (inOffset + a)
               then u32 (u32 (inOffset + a) + 1) else u32 (inOffset + b))); lia.
Qed.

(** The start of a bin is a [uint32_t]. *)
Lemma spec_bin_start (in_samples bin_count in_offset i start end_ : Z) :
  spec_bin in_samples bin_count in_offset i = Done (start, end_) -> 0 <= start.
Proof.
  unfold spec_bin.
  destruct (F.to_u32 (F.floorf (F.mul (F.of_Z i) _))) as [a| |]; try discriminate.
  destruct (F.to_u32 (F.floorf (F.mul (F.of_Z (i + 1)) _))) as [b| |]; try discriminate.
  cbn [mbind outcome_mbind outcome_bind mret outcome_mret].
  intros H; injection H as <- _.
  pose proof (Z.mod_pos_bound (in_offset + a) (2 ^ 32) ltac:(lia)). unfold u32. lia.
Qed.

Lemma bins_inside_bounds (in_samples bin_count in_offset n : Z) :
  bin_count <= 2 ^ 32 - 1 ->
  bins_inside in_samples bin_count in_offset n ->
  forall i, 0 <= i < bin_count ->
    exists start end_,
      bin_bounds in_samples bin_count in_offset i = Done (start, end_)
      /\ 0 <= start <= end_ /\ end_ <= n.
Proof.
  intros Hb H i Hi. destruct (H i Hi) as (s & e & E & Hse).
  exists s, e. rewrite bin_bounds_spec by lia.
  split; [exact E |]. pose proof (spec_bin_start _ _ _ _ _ _ E). lia.
Qed.

(** [aggregate_MinMax] on [int8_t] samples, bin by bin. *)
Lemma aggregate_MinMax_s8_partition
    (g : backend_ptr) (input outMin outMax : RawTimelineValuesBuf) (src mn mx : list Z)
    (inSamples inOffset : Z) :
  value_type input = TR_analog_sint8 ->
  bitwidth input = 8 -> valueBuffer input = Some src ->
  0 <= nr_of_channels input -> 0 <= bytes_per_sample input ->
  (nr_of_samples input - 1) * bytes_per_sample input + nr_of_channels input
    <= Z.of_nat (length src) ->
  Z.of_nat (length src) <= 2 ^ 32 ->
  valueBuffer outMin = Some mn -> valueBuffer outMax = Some mx ->
  bitwidth outMin = 8 -> bitwidth outMax = 8 ->
  nr_of_channels outMin = nr_of_channels input ->
  nr_of_channels outMax = nr_of_channels input ->
  bytes_per_sample outMin = nr_of_channels input ->
  bytes_per_sample outMax = nr_of_channels input ->
  nr_of_samples outMax = nr_of_samples outMin ->
  0 <= nr_of_samples outMin < 2 ^ 32 ->
  nr_of_samples outMin * nr_of_channels input <= 2 ^ 32 ->
  nr_of_samples outMin * nr_of_channels input <= Z.of_nat (length mn) ->
  nr_of_samples outMin * nr_of_channels input <= Z.of_nat (length mx) ->
  bins_inside (if 0 <? inSamples then inSamples else nr_of_samples input)
    (nr_of_samples outMin) inOffset (nr_of_samples input) ->
  exists outMin' outMax',
    aggregate_MinMax g (Some input) (Some outMin) (Some outMax) inSamples inOffset
    = Done (0, Some outMin', Some outMax')
    /\ nr_of_samples outMin' = nr_of_samples outMin
    /\ extremes_s8 input outMin' outMax'
         (if 0 <? inSamples then inSamples else nr_of_samples input) inOffset.
Proof.
  intros Hv Hb Hs Hn Hp Hl Hr Hmn Hmx Bmn Bmx Cmn Cmx Pmn Pmx Hnx Ho Hr2 Lmn Lmx Hbins.
  assert (Ho' : nr_of_samples outMin <= 2 ^ 32 - 1) by lia.
  destruct (aggregate_MinMax_s8_bins g input outMin outMax src mn mx inSamples inOffset
              Hv Hb Hs Hn Hp Hl Hr Hmn Hmx ltac:(lia) Hr2 Lmn Lmx
              (bins_inside_bounds _ _ _ _ Ho' Hbins))
    as (mn' & mx' & E & H).
  exists (set_valueBuffer (Some mn') outMin), (set_valueBuffer (Some mx') outMax).
  split; [exact E |]. split; [reflexivity |].
  intros i ch Hi Hch. cbn [nr_of_samples set_valueBuffer] in Hi.
  destruct (Hbins i Hi) as (start & end_ & Eb & _).
  assert (Eb' : bin_bounds (if 0 <? inSamples then inSamples else nr_of_samples input)
                  (nr_of_samples outMin) inOffset i = Done (start, end_))
    by (rewrite bin_bounds_spec by lia; exact Eb).
  destruct (H i start end_ ch Hi Eb' Hch) as (vs & E1 & E2 & E3).
  exists start, end_, vs. split; [exact Eb |]. split; [exact E1 |].
  change (2 ^ 32) with 4294967296 in Hr2.
  split.
  - rewrite (getSampleValue_int8_at _ mn' i ch) by
      (cbn; rewrite ?Cmn, ?Pmn; first [assumption | reflexivity | nia]).
    cbn [bytes_per_sample set_valueBuffer]. rewrite Pmn, E2. reflexivity.
  - rewrite (getSampleValue_int8_at _ mx' i ch) by
      (cbn; rewrite ?Cmx, ?Pmx, ?Hnx; first [assumption | reflexivity | nia]).
    cbn [bytes_per_sample set_valueBuffer]. rewrite Pmx, E3. reflexivity.
Qed.

(** [aggregate_MinMax] on 8-lane [int16_t] samples, bin by bin. *)
Lemma aggregate_MinMax_s16_partition
    (g : backend_ptr) (input outMin outMax : RawTimelineValuesBuf) (src mn mx : list Z)
    (inSamples inOffset : Z) :
  value_type input = TR_SIMD_sint16x8 ->
  bitwidth input = 16 -> bytes_per_sample input = 16 -> valueBuffer input = Some src ->
  0 <= nr_of_channels input <= 8 ->
  0 <= nr_of_samples input < 2 ^ 28 ->
  16 * nr_of_samples input <= Z.of_nat (length src) ->
  valueBuffer outMin = Some mn -> valueBuffer outMax = Some mx ->
  bitwidth outMin = 16 -> bitwidth outMax = 16 ->
  nr_of_channels outMin = nr_of_channels input ->
  nr_of_channels outMax = nr_of_channels input ->
  bytes_per_sample outMin = 2 * nr_of_channels input ->
  bytes_per_sample outMax = 2 * nr_of_channels input ->
  nr_of_samples outMax = nr_of_samples outMin ->
  0 <= nr_of_samples outMin < 2 ^ 28 ->
  2 * nr_of_samples outMin * nr_of_channels input <= Z.of_nat (length mn) ->
  2 * nr_of_samples outMin * nr_of_channels input <= Z.of_nat (length mx) ->
  bins_inside (if 0 <? inSamples then inSamples else nr_of_samples input)
    (nr_of_samples outMin) inOffset (nr_of_samples input) ->
  exists outMin' outMax',
    aggregate_MinMax g (Some input) (Some outMin) (Some outMax) inSamples inOffset
    = Done (0, Some outMin', Some outMax')
    /\ nr_of_samples outMin' = nr_of_samples outMin
    /\ extremes_s16 input outMin' outMax'
         (if 0 <? inSamples then inSamples else nr_of_samples input) inOffset.
Proof.
  intros Hv Hb Hp Hs Hn Hns Hl Hmn Hmx Bmn Bmx Cmn Cmx Pmn Pmx Hnx Ho Lmn Lmx Hbins.
  assert (Ho' : nr_of_samples outMin <= 2 ^ 32 - 1)
    by (change (2 ^ 28) with 268435456 in Ho; change (2 ^ 32) with 4294967296; lia).
  assert (Hb2 : forall i, 0 <= i < nr_of_samples outMin ->
            exists start end_,
              bin_bounds (if 0 <? inSamples then inSamples else nr_of_samples input)
                (nr_of_samples outMin) inOffset i = Done (start, end_)
              /\ 0 <= start <= end_).
  { intros i Hi.
    destruct (bins_inside_bounds _ _ _ _ Ho' Hbins i Hi) as (s & e & E & H1 & _).
    exists s, e. split; [exact E | exact H1]. }
  destruct (aggregate_MinMax_s16_bins g input outMin outMax src mn mx inSamples inOffset
              Hv Hb Hp Hs Hn Hns Hl Hmn Hmx Ho Lmn Lmx Hb2)
    as (mn' & mx' & E & H).
  exists (set_valueBuffer (Some mn') outMin), (set_valueBuffer (Some mx') outMax).
  split; [exact E |]. split; [reflexivity |].
  intros i ch Hi Hch. cbn [nr_of_samples set_valueBuffer] in Hi.
  destruct (Hbins i Hi) as (start & end_ & Eb & Hse).
  assert (Eb' : bin_bounds (if 0 <? inSamples then inSamples else nr_of_samples input)
                  (nr_of_samples outMin) inOffset i = Done (start, end_))
    by (rewrite bin_bounds_spec by lia; exact Eb).
  destruct (H i start end_ ch Hi Eb' Hch) as (vs & E1 & E2 & E3 & _).
  rewrite Z.min_l in E1 by lia.
  exists start, end_, vs. split; [exact Eb |]. split; [exact E1 |].
  change (2 ^ 28) with 268435456 in Ho.
  split.
  - rewrite (getSampleValue_SIMD_sint16x8_off _ mn' i ch) by
      (cbn; rewrite ?Cmn, ?Pmn; change (2 ^ 32) with 4294967296;
       first [assumption | reflexivity | nia]).
    cbn [bytes_per_sample set_valueBuffer]. rewrite Pmn.
    replace (i * (2 * nr_of_channels input) + 2 * ch)
      with (2 * (i * nr_of_channels input + ch)) by lia.
    rewrite E2. reflexivity.
  - rewrite (getSampleValue_SIMD_sint16x8_off _ mx' i ch) by
      (cbn; rewrite ?Cmx, ?Pmx, ?Hnx; change (2 ^ 32) with 4294967296;
       first [assumption | reflexivity | nia]).
    cbn [bytes_per_sample set_valueBuffer]. rewrite Pmx.
    replace (i * (2 * nr_of_channels input) + 2 * ch)
      with (2 * (i * nr_of_channels input + ch)) by lia.
    rewrite E3. reflexivity.
Qed.

(* ===================================================================== *)
(** ** The partition and the extremes, for every window *)

(** C4, with the minimum of the second bin as the code computes it.

    The partition. For an [int8_t] input read by [aggregate_minmax_s8_c],
    and for an 8-lane [int16_t] input read by
    [aggregate_minmax_SIMD_s16x8_c], with [outMin] and [outMax] laid out as
    [prepare_AggregationMinMax] leaves them: whenever the bins of the
    specification lie inside the input, [aggregate_MinMax] returns 0 and,
    for every bin [i] and channel, [outMin] and [outMax] hold the minimum
    and the maximum of the channel's samples over [[start, end)], where
    [start] and [end] are those of [spec_bin]: stride, floor, the forcing of
    [end] to [start + 1] and the clamp to the end of the window.

    The scenario. The four bins of S4 are the sample ranges 0-5, 5-10,
    10-15 and 15-20; [aggregate_MinMax] returns 0 and leaves
    [outMin = [-5, -8, -9, -7]] and [outMax = [7, 8, 9, 7]], which are the
    minimum and the maximum of the input over each bin. *)
Theorem aggregate_MinMax_scenario_C4 :
  (forall (g : backend_ptr) (input outMin outMax : RawTimelineValuesBuf)
          (src mn mx : list Z) (in_samples in_offset : Z),
     aggregate_minmax_s8 (deref g) = aggregate_minmax_s8_c ->
     0 < in_samples ->
     value_type input = TR_analog_sint8 ->
     bitwidth input = 8 -> valueBuffer input = Some src ->
     0 <= nr_of_channels input -> 0 <= bytes_per_sample input ->
     (nr_of_samples input - 1) * bytes_per_sample input + nr_of_channels input
       <= Z.of_nat (length src) ->
     Z.of_nat (length src) <= 2 ^ 32 ->
     valueBuffer outMin = Some mn -> valueBuffer outMax = Some mx ->
     bitwidth outMin = 8 -> bitwidth outMax = 8 ->
     nr_of_channels outMin = nr_of_channels input ->
     nr_of_channels outMax = nr_of_channels input ->
     bytes_per_sample outMin = nr_of_channels input ->
     bytes_per_sample outMax = nr_of_channels input ->
     nr_of_samples outMax = nr_of_samples outMin ->
     0 <= nr_of_samples outMin < 2 ^ 32 ->
     nr_of_samples outMin * nr_of_channels input <= 2 ^ 32 ->
     nr_of_samples outMin * nr_of_channels input <= Z.of_nat (length mn) ->
     nr_of_samples outMin * nr_of_channels input <= Z.of_nat (length mx) ->
     bins_inside in_samples (nr_of_samples outMin) in_offset (nr_of_samples input) ->
     exists outMin' outMax',
       aggregate_MinMax g (Some input) (Some outMin) (Some outMax) in_samples in_offset
       = Done (0, Some outMin', Some outMax')
       /\ nr_of_samples outMin' = nr_of_samples outMin
       /\ extremes_s8 input outMin' outMax' in_samples in_offset)
  /\ (forall (g : backend_ptr) (input outMin outMax : RawTimelineValuesBuf)
             (src mn mx : list Z) (in_samples in_offset : Z),
        aggregate_minmax_s16x8 (deref g) = aggregate_minmax_SIMD_s16x8_c ->
        0 < in_samples ->
        value_type input = TR_SIMD_sint16x8 ->
        bitwidth input = 16 -> bytes_per_sample input = 16 ->
        valueBuffer input = Some src ->
        0 <= nr_of_channels input <= 8 ->
        0 <= nr_of_samples input < 2 ^ 28 ->
        16 * nr_of_samples input <= Z.of_nat (length src) ->
        valueBuffer outMin = Some mn -> valueBuffer outMax = Some mx ->
        bitwidth outMin = 16 -> bitwidth outMax = 16 ->
        nr_of_channels outMin = nr_of_channels input ->
        nr_of_channels outMax = nr_of_channels input ->
        bytes_per_sample outMin = 2 * nr_of_channels input ->
        bytes_per_sample outMax = 2 * nr_of_channels input ->
        nr_of_samples outMax = nr_of_samples outMin ->
        0 <= nr_of_samples outMin < 2 ^ 28 ->
        2 * nr_of_samples outMin * nr_of_channels input <= Z.of_nat (length mn) ->
        2 * nr_of_samples outMin * nr_of_channels input <= Z.of_nat (length mx) ->
        bins_inside in_samples (nr_of_samples outMin) in_offset (nr_of_samples input) ->
        exists outMin' outMax',
          aggregate_MinMax g (Some input) (Some outMin) (Some outMax) in_samples in_offset
          = Done (0, Some outMin', Some outMax')
          /\ nr_of_samples outMin' = nr_of_samples outMin
          /\ extremes_s16 input outMin' outMax' in_samples in_offset)
  /\ map (bin_bounds 20 4 0) [0; 1; 2; 3] = map Done s4_bins
  /\ map (spec_bin 20 4 0) [0; 1; 2; 3] = map Done s4_bins
  /\ exists mn mx mn' mx',
      prepare_AggregationMinMax zero_libc (Some s4_input) (Some blank) (Some blank) 4
        = Done (0, Some mn, Some mx)
      /\ (forall g, aggregate_minmax_s8 (deref g) = aggregate_minmax_s8_c ->
                    aggregate_MinMax g (Some s4_input) (Some mn) (Some mx) 20 0
                    = Done (0, Some mn', Some mx'))
      /\ channel_s8 mn' 0 = read_ok [-5; -8; -9; -7]
      /\ channel_s8 mx' 0 = read_ok [7; 8; 9; 7]
      /\ map (fun '(s, e) => list_min INT8_MAX (slice s e s4_values)) s4_bins
         = [-5; -8; -9; -7]
      /\ map (fun '(s, e) => list_max INT8_MIN (slice s e s4_values)) s4_bins
         = [7; 8; 9; 7].
Proof.
  split; [| split; [| split; [| split]]].
  - intros g input outMin outMax src mn mx in_samples in_offset _ Hpos.
    pose proof (aggregate_MinMax_s8_partition g input outMin outMax src mn mx
                  in_samples in_offset) as H.
    replace (0 <? in_samples) with true in H by (symmetry; apply Z.ltb_lt; exact Hpos).
    exact H.
  - intros g input outMin outMax src mn mx in_samples in_offset _ Hpos.
    pose proof (aggregate_MinMax_s16_partition g input outMin outMax src mn mx
                  in_samples in_offset) as H.
    replace (0 <? in_samples) with true in H by (symmetry; apply Z.ltb_lt; exact Hpos).
    exact H.
  - vm_compute. reflexivity.
  - vm_compute. reflexivity.
  - eexists _, _, _, _.
    split; [vm_compute; reflexivity |].
    split; [intros g _; destruct g; vm_compute; reflexivity |].
    repeat split; vm_compute; reflexivity.
Qed.

Lemma s4_bins_inside : bins_inside 20 4 0 20.
Proof.
  intros i Hi. assert (C : i = 0 \/ i = 1 \/ i = 2 \/ i = 3) by lia.
  destruct C as [-> | [-> | [-> | ->]]]; eexists _, _;
    (split; [vm_compute; reflexivity | lia]).
Qed.

Lemma aggregate_MinMax_scenario_C4_witness :
  exists outMin' outMax',
    aggregate_MinMax ptr_C (Some s4_input) (Some bins4) (Some bins4) 20 0
    = Done (0, Some outMin', Some outMax')
    /\ nr_of_samples outMin' = nr_of_samples bins4
    /\ extremes_s8 s4_input outMin' outMax' 20 0.
Proof.
  apply (proj1 aggregate_MinMax_scenario_C4 ptr_C s4_input bins4 bins4
           (map u8 s4_values) [0; 0; 0; 0] [0; 0; 0; 0] 20 0
           eq_refl ltac:(lia) eq_refl eq_refl eq_refl
           ltac:(vm_compute; discriminate) ltac:(vm_compute; discriminate)
           ltac:(vm_compute; discriminate) ltac:(vm_compute; discriminate)
           eq_refl eq_refl eq_refl eq_refl eq_refl eq_refl eq_refl eq_refl eq_refl
           ltac:(vm_compute; split; [discriminate | reflexivity])
           ltac:(vm_compute; discriminate)
           ltac:(vm_compute; discriminate) ltac:(vm_compute; discriminate)
           s4_bins_inside).
Defined.

(** C9, as the code has it. A call with [inSamples = 0] is the call with
    the input's sample count, for every backend, offset and pair of output
    buffers: the window is [[inOffset, inOffset + nr_of_samples)]. Whenever
    the bins of that window lie inside the input, the call returns 0 and
    [outMin] and [outMax] hold, for every bin and channel, the minimum and
    the maximum of the channel's samples over the bin; this is stated for
    an [int8_t] input read by [aggregate_minmax_s8_c] and for an 8-lane
    [int16_t] input read by [aggregate_minmax_SIMD_s16x8_c]. *)
Theorem aggregate_MinMax_zero_is_all_C9 :
  (forall (g : backend_ptr) (input : RawTimelineValuesBuf)
          (outMin outMax : option RawTimelineValuesBuf) (inOffset : Z),
     aggregate_MinMax g (Some input) outMin outMax 0 inOffset
     = aggregate_MinMax g (Some input) outMin outMax (nr_of_samples input) inOffset)
  /\ (forall (g : backend_ptr) (input outMin outMax : RawTimelineValuesBuf)
             (src mn mx : list Z) (inOffset : Z),
        aggregate_minmax_s8 (deref g) = aggregate_minmax_s8_c ->
        value_type input = TR_analog_sint8 ->
        bitwidth input = 8 -> valueBuffer input = Some src ->
        0 <= nr_of_channels input -> 0 <= bytes_per_sample input ->
        (nr_of_samples input - 1) * bytes_per_sample input + nr_of_channels input
          <= Z.of_nat (length src) ->
        Z.of_nat (length src) <= 2 ^ 32 ->
        valueBuffer outMin = Some mn -> valueBuffer outMax = Some mx ->
        bitwidth outMin = 8 -> bitwidth outMax = 8 ->
        nr_of_channels outMin = nr_of_channels input ->
        nr_of_channels outMax = nr_of_channels input ->
        bytes_per_sample outMin = nr_of_channels input ->
        bytes_per_sample outMax = nr_of_channels input ->
        nr_of_samples outMax = nr_of_samples outMin ->
        0 <= nr_of_samples outMin < 2 ^ 32 ->
        nr_of_samples outMin * nr_of_channels input <= 2 ^ 32 ->
        nr_of_samples outMin * nr_of_channels input <= Z.of_nat (length mn) ->
        nr_of_samples outMin * nr_of_channels input <= Z.of_nat (length mx) ->
        bins_inside (nr_of_samples input) (nr_of_samples outMin) inOffset
          (nr_of_samples input) ->
        exists outMin' outMax',
          aggregate_MinMax g (Some input) (Some outMin) (Some outMax) 0 inOffset
          = Done (0, Some outMin', Some outMax')
          /\ nr_of_samples outMin' = nr_of_samples outMin
          /\ extremes_s8 input outMin' outMax' (nr_of_samples input) inOffset)
  /\ (forall (g : backend_ptr) (input outMin outMax : RawTimelineValuesBuf)
             (src mn mx : list Z) (inOffset : Z),
        aggregate_minmax_s16x8 (deref g) = aggregate_minmax_SIMD_s16x8_c ->
        value_type input = TR_SIMD_sint16x8 ->
        bitwidth input = 16 -> bytes_per_sample input = 16 ->
        valueBuffer input = Some src ->
        0 <= nr_of_channels input <= 8 ->
        0 <= nr_of_samples input < 2 ^ 28 ->
        16 * nr_of_samples input <= Z.of_nat (length src) ->
        valueBuffer outMin = Some mn -> valueBuffer outMax = Some mx ->
        bitwidth outMin = 16 -> bitwidth outMax = 16 ->
        nr_of_channels outMin = nr_of_channels input ->
        nr_of_channels outMax = nr_of_channels input ->
        bytes_per_sample outMin = 2 * nr_of_channels input ->
        bytes_per_sample outMax = 2 * nr_of_channels input ->
        nr_of_samples outMax = nr_of_samples outMin ->
        0 <= nr_of_samples outMin < 2 ^ 28 ->
        2 * nr_of_samples outMin * nr_of_channels input <= Z.of_nat (length mn) ->
        2 * nr_of_samples outMin * nr_of_channels input <= Z.of_nat (length mx) ->
        bins_inside (nr_of_samples input) (nr_of_samples outMin) inOffset
          (nr_of_samples input) ->
        exists outMin' outMax',
          aggregate_MinMax g (Some input) (Some outMin) (Some outMax) 0 inOffset
          = Done (0, Some outMin', Some outMax')
          /\ nr_of_samples outMin' = nr_of_samples outMin
          /\ extremes_s16 input outMin' outMax' (nr_of_samples input) inOffset).
Proof.
  split; [| split].
  - intros g input outMin outMax inOffset. unfold aggregate_MinMax.
    destruct outMin as [mn|], outMax as [mx|]; try reflexivity.
    replace (if 0 <? 0 then 0 else nr_of_samples input) with (nr_of_samples input)
      by reflexivity.
    replace (if 0 <? nr_of_samples input then nr_of_samples input
             else nr_of_samples input)
      with (nr_of_samples input) by (destruct (0 <? nr_of_samples input); reflexivity).
    reflexivity.
  - intros g input outMin outMax src mn mx inOffset _.
    exact (aggregate_MinMax_s8_partition g input outMin outMax src mn mx 0 inOffset).
  - intros g input outMin outMax src mn mx inOffset _.
    exact (aggregate_MinMax_s16_partition g input outMin outMax src mn mx 0 inOffset).
Qed.

Lemma aggregate_MinMax_zero_is_all_C9_witness :
  exists outMin' outMax',
    aggregate_MinMax ptr_C (Some s4_input) (Some bins4) (Some bins4) 0 0
    = Done (0, Some outMin', Some outMax')
    /\ nr_of_samples outMin' = nr_of_samples bins4
    /\ extremes_s8 s4_input outMin' outMax' (nr_of_samples s4_input) 0.
Proof.
  apply (proj1 (proj2 aggregate_MinMax_zero_is_all_C9) ptr_C s4_input bins4 bins4
           (map u8 s4_values) [0; 0; 0; 0] [0; 0; 0; 0] 0
           eq_refl eq_refl eq_refl eq_refl
           ltac:(vm_compute; discriminate) ltac:(vm_compute; discriminate)
           ltac:(vm_compute; discriminate) ltac:(vm_compute; discriminate)
           eq_refl eq_refl eq_refl eq_refl eq_refl eq_refl eq_refl eq_refl eq_refl
           ltac:(vm_compute; split; [discriminate | reflexivity])
           ltac:(vm_compute; discriminate)
           ltac:(vm_compute; discriminate) ltac:(vm_compute; discriminate)
           s4_bins_inside).
Defined.

(** C9 as stated fails when the offset is not 0. For S4 with
    [inSamples = 0] and [inOffset = 10] the window is the sample range
    10-30, whose bins are 10-15, 15-20, 20-25 and 25-30. The input has no
    sample 20: the last two bins are not bins of the buffer, no extreme is
    computed for them, and their places in [outMin] and [outMax] keep what
    they held before the call (42). *)
Lemma aggregate_MinMax_zero_is_all_C9_counterexample :
  exists mn' mx',
    aggregate_MinMax ptr_C (Some s4_input) (Some marked4) (Some marked4) 0 10
    = Done (0, Some mn', Some mx')
    /\ map (bin_bounds (nr_of_samples s4_input) 4 10) [0; 1; 2; 3]
       = map Done [(10, 15); (15, 20); (20, 25); (25, 30)]
    /\ nr_of_samples s4_input = 20
    /\ getSampleValue_int8 s4_input 19 0 = Done (Some 0)
    /\ getSampleValue_int8 s4_input 20 0 = Done None
    /\ channel_s8 mn' 0 = read_ok [-9; -7; 42; 42]
    /\ channel_s8 mx' 0 = read_ok [9; 7; 42; 42]
    /\ ~ bins_inside (nr_of_samples s4_input) 4 10 (nr_of_samples s4_input).
Proof.
  do 2 eexists.
  split; [vm_compute; reflexivity |].
  split; [vm_compute; reflexivity |].
  split; [reflexivity |].
  split; [vm_compute; reflexivity |].
  split; [vm_compute; reflexivity |].
  split; [vm_compute; reflexivity |].
  split; [vm_compute; reflexivity |].
  intros H. destruct (H 2 ltac:(lia)) as (s & e & E & Hse).
  vm_compute in E. injection E as <- <-. vm_compute in Hse. destruct Hse as [_ Hle].
  apply Hle. reflexivity.
Qed.

(* ===================================================================== *)
(** ** The size of an allocated buffer *)

(** C5, on the code. [alloc_RawTimelineValuesBuf] sets [bytes_per_sample]
    to [ceil(channel_count * bit_width / 8)] reduced to 8 bits, with no
    special case for the 8-lane layout, and [buffer_size] to
    [sample_count * channel_count * bytes_per_sample] reduced to 32 bits:
    the stride of a whole sample multiplied by the channel count once more.
    The accessors address the first [sample_count * bytes_per_sample] bytes
    only, and the allocation in [generate_sine_wave] sets the stride of an
    8-lane buffer to 16 and its size to [num_samples * bytes_per_sample],
    as the claim has it. *)
Theorem alloc_metadata_C5 (libc : Libc) (b b' : RawTimelineValuesBuf)
    (n ch bw al : Z) (vt : RawTimelineValueEnum) :
  0 <= n < 2 ^ 32 -> 0 <= ch < 2 ^ 8 -> 0 <= bw < 2 ^ 8 ->
  alloc_RawTimelineValuesBuf libc (Some b) n ch bw al vt = Done (Some b') ->
  bytes_per_sample b' = ((ch * bw + 7) / 8) mod 256
  /\ (ch * bw <= 2040 -> bytes_per_sample b' = (ch * bw + 7) / 8)
  /\ (bytes_per_sample b' = 16 <-> 121 <= (ch * bw) mod 2048 <= 128)
  /\ buffer_size b' = (n * ch * bytes_per_sample b') mod 2 ^ 32
  /\ nr_of_samples b' = n /\ nr_of_channels b' = ch /\ bitwidth b' = bw
  /\ value_type b' = vt
  /\ (1 <= bw -> ch * bw <= 2040 ->
      forall i c off, 0 <= i -> 0 <= c ->
        getSampleByteOffset b' i c = Some off ->
        off + (bw + 7) / 8 <= n * bytes_per_sample b')
  /\ (1 <= n -> 2 <= ch -> 1 <= bw -> ch * bw <= 2040 ->
      n * ch * bytes_per_sample b' < 2 ^ 32 ->
      n * bytes_per_sample b' < buffer_size b')
  /\ (forall (libm : Libm) (buf buf2 : RawTimelineValuesBuf)
             (period amplitude : spec_float) (sample_rate_hz : Z),
        value_type buf = TR_SIMD_sint16x8 -> 0 <= sample_rate_hz < 2 ^ 32 ->
        generate_sine_wave libm libc buf n ch period amplitude sample_rate_hz
        = Done buf2 ->
        bytes_per_sample buf2 = 16
        /\ buffer_size buf2 = (n * bytes_per_sample buf2) mod 2 ^ 32).
Proof.
  intros Hn Hch Hbw H.
  destruct (alloc_fields _ _ _ _ _ _ _ _ H) as (En & Ec & Eb & Ev & Hb & Hs & _).
  change (2 ^ 8) with 256 in *.
  assert (Hp : 0 <= ch * bw) by nia.
  assert (Hq := Z.div_mod (ch * bw + 7) 8 ltac:(lia)).
  assert (Hr := Z.mod_pos_bound (ch * bw + 7) 8 ltac:(lia)).
  assert (Hq2 := Z.div_mod ((ch * bw + 7) / 8) 256 ltac:(lia)).
  assert (Hr2 := Z.mod_pos_bound ((ch * bw + 7) / 8) 256 ltac:(lia)).
  assert (Hq3 := Z.div_mod (ch * bw) 2048 ltac:(lia)).
  assert (Hr3 := Z.mod_pos_bound (ch * bw) 2048 ltac:(lia)).
  assert (Hsmall : ch * bw <= 2040 -> bytes_per_sample b' = (ch * bw + 7) / 8).
  { intros Hle. rewrite Hb. unfold u8. change (2 ^ 8) with 256.
    apply Z.mod_small. lia. }
  split; [rewrite Hb; reflexivity |].
  split; [exact Hsmall |].
  split; [rewrite Hb; unfold u8; change (2 ^ 8) with 256; split; intros E; lia |].
  split.
  { rewrite Hs, Hb. unfold u8, u32. change (2 ^ 8) with 256.
    rewrite Z.mul_mod_idemp_l by lia. reflexivity. }
  split; [exact En |]. split; [exact Ec |]. split; [exact Eb |]. split; [exact Ev |].
  split; [| split].
  - intros Hbw1 Hle i c off Hi Hc Eo.
    unfold getSampleByteOffset in Eo. rewrite En, Ec, Eb in Eo.
    destruct ((n <=? i) || (ch <=? c)) eqn:G; [discriminate Eo |].
    apply orb_false_elim in G. destruct G as [G1 G2].
    apply Z.leb_gt in G1. apply Z.leb_gt in G2.
    injection Eo as <-. rewrite (Hsmall Hle).
    set (bps := (ch * bw + 7) / 8) in *.
    assert (Hc8 := Z.div_mod (c * bw) 8 ltac:(lia)).
    assert (Hc8r := Z.mod_pos_bound (c * bw) 8 ltac:(lia)).
    assert (Hw8 := Z.div_mod (bw + 7) 8 ltac:(lia)).
    assert (Hw8r := Z.mod_pos_bound (bw + 7) 8 ltac:(lia)).
    assert (Hcb : c * bw + bw <= ch * bw) by nia.
    assert (Hin : c * bw / 8 + (bw + 7) / 8 <= bps) by (subst bps; lia).
    assert (H0 : 0 <= i * bps) by nia.
    assert (H1 : 0 <= c * bw / 8) by (apply Z.div_pos; nia).
    assert (U1 : u32 (i * bps) <= i * bps).
    { unfold u32. apply Z.mod_le; lia. }
    assert (U1' : 0 <= u32 (i * bps)) by (unfold u32; apply Z.mod_pos_bound; lia).
    assert (U2 : u32 (u32 (i * bps) + c * bw / 8) <= u32 (i * bps) + c * bw / 8).
    { unfold u32 at 1. apply Z.mod_le; lia. }
    nia.
  - intros Hn1 Hch2 Hbw1 Hle Hfit. rewrite Hs, Hb. fold (u8 ((ch * bw + 7) / 8)).
    rewrite Hb in Hfit. rewrite <- Hb in *. rewrite (Hsmall Hle) in *.
    set (bps := (ch * bw + 7) / 8) in *.
    assert (Hbps : 1 <= bps) by (subst bps; nia).
    change (2 ^ 32) with 4294967296 in *.
    rewrite (u32_small (n * ch)) by (change (2 ^ 32) with 4294967296; nia).
    rewrite u32_small by (change (2 ^ 32) with 4294967296; nia).
    nia.
  - intros libm buf buf2 period amplitude rate Hvt Hrate E.
    destruct (scale_rate_groups rate Hrate) as (k & Hk & Es & _ & _ & Ep).
    assert (Hz : (1000 ^ k =? 0) = false)
      by (apply Z.eqb_neq; assert (0 < 1000 ^ k) by (apply Z.pow_pos_nonneg; lia); lia).
    unfold generate_sine_wave in E. rewrite Es, Ep in E.
    cbn [mbind outcome_mbind outcome_bind] in E. rewrite Hz in E.
    destruct (decide (value_type buf = TR_SIMD_sint16x8)) as [_|N]; [| congruence].
    destruct (aligned_alloc libc 16 _) as [block|]; [| discriminate E].
    destruct (for_each _ 0 _ (Some block)) as [[data|]| |]; try discriminate E.
    cbn [access mbind outcome_mbind outcome_bind mret outcome_mret] in E.
    injection E as <-. cbn [bytes_per_sample buffer_size]. split; reflexivity.
Qed.

Lemma alloc_metadata_C5_witness :
  exists b',
    alloc_RawTimelineValuesBuf zero_libc (Some blank) 4 8 16 16 TR_SIMD_sint16x8
      = Done (Some b')
    /\ bytes_per_sample b' = 16
    /\ buffer_size b' = (4 * 8 * bytes_per_sample b') mod 2 ^ 32
    /\ 4 * bytes_per_sample b' < buffer_size b'.
Proof.
  eexists; split; [reflexivity |].
  match goal with
  | |- bytes_per_sample ?b = _ /\ _ =>
      destruct (alloc_metadata_C5 zero_libc blank b 4 8 16 16 TR_SIMD_sint16x8
                  ltac:(lia) ltac:(lia) ltac:(lia) eq_refl)
        as (_ & H1 & _ & H2 & _ & _ & _ & _ & _ & H3 & _)
  end.
  split; [apply H1; lia |]. split; [exact H2 |].
  apply H3; [lia | lia | lia | lia | vm_compute; reflexivity].
Defined.

(** C5 on its failing input: for 1000 samples of 8 channels of 16 bits the
    stride is 16 bytes but [buffer_size] is 128000, not [1000 * 16], while
    the last sample that the accessors reach ends at byte 16000; and a
    [Simd_I16x8] buffer of 4 channels gets a stride of 8 bytes, not 16. *)
Lemma alloc_metadata_C5_failing_input :
  (exists b',
      alloc_RawTimelineValuesBuf zero_libc (Some blank) 1000 8 16 16 TR_SIMD_sint16x8
        = Done (Some b')
      /\ bytes_per_sample b' = 16
      /\ buffer_size b' = 128000
      /\ buffer_size b' <> nr_of_samples b' * bytes_per_sample b'
      /\ getSampleByteOffset b' 999 7 = Some 15998)
  /\ (exists b',
      alloc_RawTimelineValuesBuf zero_libc (Some blank) 1000 4 16 16 TR_SIMD_sint16x8
        = Done (Some b')
      /\ value_type b' = TR_SIMD_sint16x8
      /\ bytes_per_sample b' = 8).
Proof.
  split; eexists; (split; [reflexivity |]); cbn; repeat split; discriminate.
Qed.
